(** * easy-pulse-feedback: survey runtime, results aggregator and builder

    A shallow embedding of the logic in [src/pages/TakeSurvey.tsx],
    [src/pages/SurveyResults.tsx] and [src/pages/CreateSurvey.tsx], together
    with the parts of the JavaScript runtime and of the relational schema
    those functions rely on, followed by the properties proved about them. *)

From Stdlib Require Import Bool Arith List String Ascii ZArith NArith.
From Stdlib Require Import QArith Qround Qabs Qpower Qreduction.
From Stdlib Require Qcanon.
From Stdlib Require Import Lia Lqa Permutation Sorted DecimalString SpecFloat.
Import ListNotations.

Local Close Scope Q_scope.
Local Open Scope nat_scope.
Local Open Scope string_scope.
Local Open Scope list_scope.

(* ================================================================== *)
(** ** The JavaScript values the pages compute with *)
(* ================================================================== *)

Module Js.

(** *** Strings

    A JavaScript string is modelled by a Rocq [string] holding its UTF-8
    bytes.  Every string the pages build is a concatenation of whole input
    strings and ASCII literals, so the encoding is never cut in the middle. *)

Definition bytes (l : list nat) : string :=
  string_of_list_ascii (map ascii_of_nat l).

(** [WhiteSpace] and [LineTerminator] of ECMAScript, the code points
    [String.prototype.trim] and [parseInt] strip: TAB, LF, VT, FF, CR, SP,
    U+00A0, U+1680, U+2000..U+200A, U+2028, U+2029, U+202F, U+205F, U+3000
    and U+FEFF, each by its UTF-8 encoding. *)
Definition white_space : list string :=
  map bytes
    [ [9]; [10]; [11]; [12]; [13]; [32];
      [194; 160];
      [225; 154; 128];
      [226; 128; 128]; [226; 128; 129]; [226; 128; 130]; [226; 128; 131];
      [226; 128; 132]; [226; 128; 133]; [226; 128; 134]; [226; 128; 135];
      [226; 128; 136]; [226; 128; 137]; [226; 128; 138];
      [226; 128; 168]; [226; 128; 169];
      [226; 128; 175];
      [226; 129; 159];
      [227; 128; 128];
      [239; 187; 191] ].

(** [strip_prefix p s] is [Some r] when [s = p ++ r]. *)
Fixpoint strip_prefix (p s : string) : option string :=
  match p with
  | EmptyString => Some s
  | String a p' =>
      match s with
      | EmptyString => None
      | String b s' => if Ascii.eqb a b then strip_prefix p' s' else None
      end
  end.

Fixpoint strip_any (ps : list string) (s : string) : option string :=
  match ps with
  | [] => None
  | p :: ps' =>
      match strip_prefix p s with
      | Some r => Some r
      | None => strip_any ps' s
      end
  end.

Fixpoint strip_leading (ps : list string) (fuel : nat) (s : string) : string :=
  match fuel with
  | O => s
  | S fuel' =>
      match strip_any ps s with
      | Some r => strip_leading ps fuel' r
      | None => s
      end
  end.

Definition rev_string (s : string) : string :=
  string_of_list_ascii (rev (list_ascii_of_string s)).

(** [String.prototype.trimStart], [trimEnd] and [trim]. *)
Definition trimStart (s : string) : string :=
  strip_leading white_space (String.length s) s.

Definition trimEnd (s : string) : string :=
  rev_string
    (strip_leading (map rev_string white_space) (String.length s) (rev_string s)).

Definition trim (s : string) : string := trimEnd (trimStart s).

(** Truthiness of a string: only the empty string is falsy. *)
Definition truthy_string (s : string) : bool := negb (s =? EmptyString).

(** [Array.prototype.join] on an array of strings. *)
Fixpoint join (sep : string) (l : list string) : string :=
  match l with
  | [] => EmptyString
  | [x] => x
  | x :: r => x ++ sep ++ join sep r
  end.

Definition dquote : ascii := ascii_of_nat 34.

(** The [replace] call of the export, which doubles every double-quote
    character of a free-text answer. *)
Fixpoint double_quotes (s : string) : string :=
  match s with
  | EmptyString => EmptyString
  | String c r =>
      if Ascii.eqb c dquote
      then String c (String c (double_quotes r))
      else String c (double_quotes r)
  end.

(** *** Property keys

    An array index is a canonical numeric string whose value is at most
    2^32 - 2; own properties with such keys are enumerated first, in
    ascending numeric order, and the other string keys follow in the order
    in which they were created (OrdinaryOwnPropertyKeys). *)

Definition is_digit (c : ascii) : bool :=
  (48 <=? nat_of_ascii c)%nat && (nat_of_ascii c <=? 57)%nat.

Definition digit_value (c : ascii) : N := N.of_nat (nat_of_ascii c - 48).

Fixpoint digits_value (acc : N) (s : string) : option N :=
  match s with
  | EmptyString => Some acc
  | String c r =>
      if is_digit c then digits_value (acc * 10 + digit_value c) r else None
  end.

Definition array_index (s : string) : option N :=
  match s with
  | EmptyString => None
  | String c r =>
      if Ascii.eqb c "0"%char && negb (r =? EmptyString) then None
      else
        match digits_value 0 s with
        | Some n => if (n <=? 4294967294)%N then Some n else None
        | None => None
        end
  end.

Definition is_array_index (s : string) : bool :=
  match array_index s with Some _ => true | None => false end.

(** The property names every ordinary object inherits from
    [Object.prototype].  Reading one of them on an object that has no own
    property of that name yields a function (or, for [__proto__], the
    prototype object), never [undefined]. *)
Definition object_prototype_names : list string :=
  [ "constructor"; "__defineGetter__"; "__defineSetter__"; "hasOwnProperty";
    "__lookupGetter__"; "__lookupSetter__"; "isPrototypeOf";
    "propertyIsEnumerable"; "toString"; "valueOf"; "__proto__";
    "toLocaleString" ].

Definition inherited_name (k : string) : bool :=
  existsb (String.eqb k) object_prototype_names.

(** *** Objects used as records keyed by strings ([Record<string, V>])

    The own enumerable properties, in creation order, keys pairwise
    distinct. *)
Definition object (V : Type) : Type := list (string * V).

Section Objects.
Context {V : Type}.

Fixpoint own (o : object V) (k : string) : option V :=
  match o with
  | [] => None
  | (k', v) :: r => if k' =? k then Some v else own r k
  end.

(** [o[k] = v] and [{ ...o, [k]: v }]: an existing property keeps its
    place, a new one is created last. *)
Fixpoint set (o : object V) (k : string) (v : V) : object V :=
  match o with
  | [] => [(k, v)]
  | (k', v') :: r => if k' =? k then (k', v) :: r else (k', v') :: set r k v
  end.

Fixpoint insert_index (n : N) (p : string * V) (l : list (N * (string * V)))
  : list (N * (string * V)) :=
  match l with
  | [] => [(n, p)]
  | (m, q) :: r =>
      if (n <=? m)%N then (n, p) :: l else (m, q) :: insert_index n p r
  end.

Fixpoint index_entries (o : object V) : list (N * (string * V)) :=
  match o with
  | [] => []
  | (k, v) :: r =>
      match array_index k with
      | Some n => insert_index n (k, v) (index_entries r)
      | None => index_entries r
      end
  end.

Definition named_entries (o : object V) : list (string * V) :=
  filter (fun p => negb (is_array_index (fst p))) o.

(** [Object.entries(o)] and [Object.keys(o)]. *)
Definition entries (o : object V) : list (string * V) :=
  map snd (index_entries o) ++ named_entries o.

Definition keys (o : object V) : list string := map fst (entries o).
End Objects.

(** *** Numbers

    A Number is an IEEE 754 binary64 value.  The finite ones are modelled by
    the rational they denote; every arithmetic result is the exact result
    rounded by [round] (roundTiesToEven), which is how ECMAScript defines
    [+], [*] and [/].  The two zeros are identified: the divisors of the
    pages are array lengths, hence never the negative zero, and [toFixed]
    prints both zeros alike. *)
Inductive number : Type :=
  | NaN
  | Infinity (negative : bool)
  | Finite (q : Q).

Definition pow2 (e : Z) : Q := Qpower (2 # 1) e.

(** The integer [l] with [2^l <= q < 2^(l+1)], for [q > 0]. *)
Definition ilog2 (q : Q) : Z :=
  let l := (Z.log2 (Qnum q) - Z.log2 (Zpos (Qden q)))%Z in
  if Qle_bool (pow2 l) q then l else (l - 1)%Z.

Definition round_half_even (q : Q) : Z :=
  let f := Qfloor q in
  match Qcompare (q - inject_Z f) (1 # 2) with
  | Lt => f
  | Gt => (f + 1)%Z
  | Eq => if Z.even f then f else (f + 1)%Z
  end.

Definition is_negative (q : Q) : bool := negb (Qle_bool (0 # 1) q).

(** The Number value for [q]: the nearest multiple of [2^e], where [e] gives
    a 53-bit significand (or is the subnormal exponent -1074), ties to the
    even significand; magnitudes from [2^1024] on overflow to an infinity. *)
Definition round (q : Q) : number :=
  if Qeq_bool q (0 # 1) then Finite (0 # 1)
  else
    let e := Z.max (ilog2 (Qabs q) - 52) (-1074) in
    let m := round_half_even (q / pow2 e) in
    let v := (inject_Z m * pow2 e)%Q in
    if Qle_bool (pow2 1024) (Qabs v) then Infinity (is_negative q)
    else Finite (Qred v).

(** The Number for an array length; lengths are below 2^32, so the value
    is exact. *)
Definition of_nat (n : nat) : number := Finite (inject_Z (Z.of_nat n)).

Definition add (x y : number) : number :=
  match x, y with
  | NaN, _ | _, NaN => NaN
  | Infinity a, Infinity b => if Bool.eqb a b then Infinity a else NaN
  | Infinity a, Finite _ | Finite _, Infinity a => Infinity a
  | Finite p, Finite q => round (p + q)
  end.

Definition mul (x y : number) : number :=
  match x, y with
  | NaN, _ | _, NaN => NaN
  | Infinity a, Infinity b => Infinity (xorb a b)
  | Infinity a, Finite q | Finite q, Infinity a =>
      if Qeq_bool q (0 # 1) then NaN else Infinity (xorb a (is_negative q))
  | Finite p, Finite q => round (p * q)
  end.

Definition div (x y : number) : number :=
  match x, y with
  | NaN, _ | _, NaN => NaN
  | Infinity _, Infinity _ => NaN
  | Infinity a, Finite q => Infinity (xorb a (is_negative q))
  | Finite _, Infinity _ => Finite (0 # 1)
  | Finite p, Finite q =>
      if Qeq_bool q (0 # 1)
      then (if Qeq_bool p (0 # 1) then NaN else Infinity (is_negative p))
      else round (p / q)
  end.

(** Decimal digits of a natural number, as [Number::toString] prints an
    integer below 10^21. *)
Definition decimal (n : N) : string := NilZero.string_of_uint (N.to_uint n).

Definition decimal_Z (z : Z) : string := decimal (Z.to_N z).

(** [Number::toString] for an integer [x >= 10^21]: the shortest digit
    string [s] (of [k] digits) with [round (s * 10^(n-k)) = x], the value
    closest to [x] when several fit, printed in exponential notation. *)
Definition rounds_to (x v : Z) : bool :=
  match round (inject_Z v) with
  | Finite q => Qeq_bool q (inject_Z x)
  | _ => false
  end.

Fixpoint shortest_digits (fuel k : nat) (d : nat) (x : Z) : Z * Z :=
  let p := (10 ^ Z.of_nat (d - k))%Z in
  let s1 := (x / p)%Z in
  let s2 := (s1 + 1)%Z in
  let pick :=
    match rounds_to x (s1 * p), rounds_to x (s2 * p) with
    | true, true =>
        match (x - s1 * p ?= s2 * p - x)%Z with
        | Lt => Some s1
        | Gt => Some s2
        | Eq => Some (if Z.even s1 then s1 else s2)
        end
    | true, false => Some s1
    | false, true => Some s2
    | false, false => None
    end in
  match pick, fuel with
  | Some s, _ => (s, p)
  | None, S fuel' => shortest_digits fuel' (S k) d x
  | None, O => (x, 1%Z)
  end.

Fixpoint strip_zeros (fuel : nat) (s : Z) : Z :=
  match fuel with
  | O => s
  | S fuel' => if (s mod 10 =? 0)%Z then strip_zeros fuel' (s / 10)%Z else s
  end.

Definition toString_big (x : Z) : string :=
  let d := String.length (decimal_Z x) in
  let '(s, p) := shortest_digits d 1 d x in
  let exponent := (String.length (decimal_Z (s * p)) - 1)%nat in
  match decimal_Z (strip_zeros d s) with
  | EmptyString => EmptyString
  | String c EmptyString =>
      String c ("e+" ++ decimal (N.of_nat exponent))
  | String c r =>
      String c ("." ++ r ++ "e+" ++ decimal (N.of_nat exponent))
  end.

(** [x.toFixed(1)]. *)
Definition toFixed1 (x : number) : string :=
  match x with
  | NaN => "NaN"
  | Infinity negative => (if negative then "-" else EmptyString) ++ "Infinity"
  | Finite q =>
      let s := if is_negative q then "-" else EmptyString in
      let a := Qabs q in
      if Qle_bool (inject_Z (10 ^ 21)) a then s ++ toString_big (Qfloor a)
      else
        let n := Qfloor (a * (10 # 1) + (1 # 2)) in
        s ++ decimal_Z (n / 10) ++ "." ++ decimal_Z (n mod 10)
  end.

(** [parseInt(s)] with no radix argument. *)
Definition hex_value (c : ascii) : option N :=
  let n := nat_of_ascii c in
  if is_digit c then Some (digit_value c)
  else if (97 <=? n)%nat && (n <=? 102)%nat then Some (N.of_nat (n - 87))
  else if (65 <=? n)%nat && (n <=? 70)%nat then Some (N.of_nat (n - 55))
  else None.

Definition radix_value (radix : N) (c : ascii) : option N :=
  if (radix =? 16)%N then hex_value c
  else if is_digit c then Some (digit_value c) else None.

(** The value of the longest prefix of radix digits, [None] when empty. *)
Fixpoint leading_digits (radix : N) (acc : option N) (s : string) : option N :=
  match s with
  | EmptyString => acc
  | String c r =>
      match radix_value radix c with
      | Some v =>
          leading_digits radix
            (Some (match acc with Some a => a * radix + v | None => v end)%N) r
      | None => acc
      end
  end.

Definition parseInt (input : string) : number :=
  let s := trimStart input in
  let '(negative, s) :=
    match s with
    | String "-" r => (true, r)
    | String "+" r => (false, r)
    | _ => (false, s)
    end in
  let '(radix, s) :=
    match s with
    | String "0" (String "x" r) => (16%N, r)
    | String "0" (String "X" r) => (16%N, r)
    | _ => (10%N, s)
    end in
  match leading_digits radix None s with
  | None => NaN
  | Some n =>
      round (inject_Z (if negative then - Z.of_N n else Z.of_N n))
  end.

End Js.

(* ================================================================== *)
(** ** The data store: the schema of the migration and the client calls *)
(* ================================================================== *)

Module Supabase.

(** Rows of the four tables the pages touch.  Timestamp columns are filled
    by the store and never read by the modelled functions; they are left
    out.  Identifiers are the text of the UUID the store generates. *)
Module surveys.
Record row : Type := mk
  { id : string; title : string; description : option string;
    status : string }.
End surveys.

Module questions.
Record row : Type := mk
  { id : string; survey_id : string; type : string; text : string;
    options : option (list string); required : bool; order_index : Z }.
End questions.

Module responses.
Record row : Type := mk { id : string; survey_id : string }.
End responses.

Module answers.
Record row : Type := mk
  { id : string; response_id : string; question_id : string;
    answer_value : string }.
End answers.

Record Db : Type := mkDb
  { surveys_table : list surveys.row;
    questions_table : list questions.row;
    responses_table : list responses.row;
    answers_table : list answers.row }.

(** What a client call resolves to: [{ data, error }]. *)
Inductive error : Type :=
  | FetchFailed
  | NoSingleRow (rows : nat)
  | CheckViolation (constraint : string)
  | ForeignKeyViolation (constraint : string)
  | UniqueViolation (constraint : string).

Inductive result (A : Type) : Type :=
  | Ok (data : A)
  | Err (e : error).
Arguments Ok {A} data.
Arguments Err {A} e.

(** Payloads of the inserts, as the pages build them. *)
Record new_survey : Type := mkNewSurvey
  { ns_title : string; ns_description : string; ns_status : string }.

Record new_question : Type := mkNewQuestion
  { nq_survey_id : string; nq_type : string; nq_text : string;
    nq_options : option (list string); nq_required : bool;
    nq_order_index : Z }.

Record new_answer : Type := mkNewAnswer
  { na_response_id : string; na_question_id : string;
    na_answer_value : string }.

Inductive request : Type :=
  | SelectSurvey (id : string) (status : option string)
  | SelectQuestions (survey_id : string)
  | SelectResponseIds (survey_id : string)
  | SelectAnswers (response_ids : list string)
  | InsertSurvey (payload : new_survey)
  | InsertQuestions (payload : list new_question)
  | InsertResponse (survey_id : string)
  | InsertAnswers (payload : list new_answer).

(** The part of the store the application does not control: the
    identifiers [gen_random_uuid()] returns, and whether the n-th request
    of a session reaches the store at all. *)
Record Backend : Type := mkBackend
  { gen_random_uuid : nat -> string;
    unreachable : nat -> bool }.

Record World : Type := mkWorld
  { db : Db;
    requests : list request;
    generated : nat }.

Definition status_check (s : string) : bool :=
  existsb (String.eqb s) ["draft"; "published"; "closed"; "archived"].

Definition type_check (t : string) : bool :=
  existsb (String.eqb t)
    ["multiple_choice"; "rating"; "short_text"; "long_text"; "dropdown"].

Definition survey_exists (d : Db) (i : string) : bool :=
  existsb (fun r => surveys.id r =? i) (surveys_table d).

Definition question_exists (d : Db) (i : string) : bool :=
  existsb (fun r => questions.id r =? i) (questions_table d).

Definition response_exists (d : Db) (i : string) : bool :=
  existsb (fun r => responses.id r =? i) (responses_table d).

Definition answer_exists (d : Db) (i : string) : bool :=
  existsb (fun r => answers.id r =? i) (answers_table d).

Section Client.
Variable be : Backend.

(** Every call is logged; a call the backend does not receive resolves
    to a fetch error and leaves the tables alone. *)
Definition send {A : Type} (r : request) (w : World)
           (run : World -> result A * World) : result A * World :=
  let w' := mkWorld (db w) (requests w ++ [r]) (generated w) in
  if unreachable be (List.length (requests w)) then (Err FetchFailed, w')
  else run w'.

Definition single {A : Type} (rows : list A) : result A :=
  match rows with
  | [r] => Ok r
  | _ => Err (NoSingleRow (List.length rows))
  end.

(** [from("surveys").select("*").eq("id", id)[.eq("status", s)].single()].
    The row-level policies of the migration are permissive and include
    [USING (true)], so a select sees every row. *)
Definition select_survey (i : string) (st : option string) (w : World)
  : result surveys.row * World :=
  send (SelectSurvey i st) w (fun w =>
    (single
       (filter
          (fun r =>
             (surveys.id r =? i) &&
             match st with
             | Some s => surveys.status r =? s
             | None => true
             end)
          (surveys_table (db w))), w)).

Fixpoint insert_by_order (q : questions.row) (l : list questions.row)
  : list questions.row :=
  match l with
  | [] => [q]
  | q' :: r =>
      if (questions.order_index q' <=? questions.order_index q)%Z
      then q' :: insert_by_order q r
      else q :: l
  end.

Definition order_by_index (l : list questions.row) : list questions.row :=
  fold_left (fun acc q => insert_by_order q acc) l [].

(** [from("questions").select("*").eq("survey_id", id).order("order_index")];
    rows with equal [order_index] are returned in table order. *)
Definition select_questions (i : string) (w : World)
  : result (list questions.row) * World :=
  send (SelectQuestions i) w (fun w =>
    (Ok (order_by_index
           (filter (fun r => questions.survey_id r =? i)
                   (questions_table (db w)))), w)).

(** [from("responses").select("id").eq("survey_id", id)]. *)
Definition select_response_ids (i : string) (w : World)
  : result (list string) * World :=
  send (SelectResponseIds i) w (fun w =>
    (Ok (map responses.id
           (filter (fun r => responses.survey_id r =? i)
                   (responses_table (db w)))), w)).

(** [from("answers").select("question_id, answer_value").in("response_id", ids)]. *)
Definition select_answers (ids : list string) (w : World)
  : result (list (string * string)) * World :=
  send (SelectAnswers ids) w (fun w =>
    (Ok (map (fun r => (answers.question_id r, answers.answer_value r))
           (filter (fun r => existsb (String.eqb (answers.response_id r)) ids)
                   (answers_table (db w)))), w)).

(** [from("surveys").insert({ title, description, status }).select().single()]. *)
Definition insert_survey (p : new_survey) (w : World)
  : result surveys.row * World :=
  send (InsertSurvey p) w (fun w =>
    let d := db w in
    let i := gen_random_uuid be (generated w) in
    if negb (status_check (ns_status p))
    then (Err (CheckViolation "surveys_status_check"), w)
    else if survey_exists d i
    then (Err (UniqueViolation "surveys_pkey"), w)
    else
      let r := surveys.mk i (ns_title p) (Some (ns_description p))
                          (ns_status p) in
      (Ok r,
       mkWorld
         (mkDb (surveys_table d ++ [r]) (questions_table d)
               (responses_table d) (answers_table d))
         (requests w) (S (generated w)))).

Definition question_row (g : nat) (k : nat) (p : new_question)
  : questions.row :=
  questions.mk (gen_random_uuid be (g + k)) (nq_survey_id p) (nq_type p)
               (nq_text p) (nq_options p) (nq_required p)
               (nq_order_index p).

Fixpoint number_from {A B : Type} (f : nat -> A -> B) (k : nat) (l : list A)
  : list B :=
  match l with
  | [] => []
  | a :: r => f k a :: number_from f (S k) r
  end.

Fixpoint distinct (l : list string) : bool :=
  match l with
  | [] => true
  | x :: r => negb (existsb (String.eqb x) r) && distinct r
  end.

(** [from("questions").insert(rows)]: one statement, all rows or none. *)
Definition insert_questions (ps : list new_question) (w : World)
  : result unit * World :=
  send (InsertQuestions ps) w (fun w =>
    let d := db w in
    let rows := number_from (question_row (generated w)) 0 ps in
    if negb (forallb (fun p => type_check (nq_type p)) ps)
    then (Err (CheckViolation "questions_type_check"), w)
    else if negb (forallb (fun p => survey_exists d (nq_survey_id p)) ps)
    then (Err (ForeignKeyViolation "questions_survey_id_fkey"), w)
    else if negb (distinct (map questions.id (questions_table d ++ rows)))
    then (Err (UniqueViolation "questions_pkey"), w)
    else
      (Ok tt,
       mkWorld
         (mkDb (surveys_table d) (questions_table d ++ rows)
               (responses_table d) (answers_table d))
         (requests w) (generated w + List.length ps))).

(** [from("responses").insert({ survey_id: id }).select().single()]. *)
Definition insert_response (i : string) (w : World)
  : result responses.row * World :=
  send (InsertResponse i) w (fun w =>
    let d := db w in
    let r := responses.mk (gen_random_uuid be (generated w)) i in
    if negb (survey_exists d i)
    then (Err (ForeignKeyViolation "responses_survey_id_fkey"), w)
    else if response_exists d (responses.id r)
    then (Err (UniqueViolation "responses_pkey"), w)
    else
      (Ok r,
       mkWorld
         (mkDb (surveys_table d) (questions_table d)
               (responses_table d ++ [r]) (answers_table d))
         (requests w) (S (generated w)))).

Definition answer_row (g : nat) (k : nat) (p : new_answer) : answers.row :=
  answers.mk (gen_random_uuid be (g + k)) (na_response_id p)
             (na_question_id p) (na_answer_value p).

(** [from("answers").insert(rows)]: one statement, all rows or none. *)
Definition insert_answers (ps : list new_answer) (w : World)
  : result unit * World :=
  send (InsertAnswers ps) w (fun w =>
    let d := db w in
    let rows := number_from (answer_row (generated w)) 0 ps in
    if negb (forallb (fun p => response_exists d (na_response_id p)) ps)
    then (Err (ForeignKeyViolation "answers_response_id_fkey"), w)
    else if negb (forallb (fun p => question_exists d (na_question_id p)) ps)
    then (Err (ForeignKeyViolation "answers_question_id_fkey"), w)
    else if negb (distinct (map answers.id (answers_table d ++ rows)))
    then (Err (UniqueViolation "answers_pkey"), w)
    else
      (Ok tt,
       mkWorld
         (mkDb (surveys_table d) (questions_table d)
               (responses_table d) (answers_table d ++ rows))
         (requests w) (generated w + List.length ps))).
End Client.

End Supabase.

(** Notifications of the [sonner] toaster. *)
Inductive toast : Type :=
  | toast_error (message : string)
  | toast_success (message : string).

(* ================================================================== *)
(** ** [src/pages/TakeSurvey.tsx]: the survey runtime *)
(* ================================================================== *)

Module TakeSurvey.
Import Supabase.

(** The page reads whole rows of [questions] and [surveys]
    ([select("*")]), so its [Question] and [Survey] are the rows. *)
Definition Question : Type := questions.row.
Definition Survey : Type := surveys.row.

(** The component state, with what it has shown and logged so far.  The
    hover state of the rating stars takes no part in any modelled function
    and is left out. *)
Record State : Type := mkState
  { survey : option Survey;
    questions : list Question;
    answers : Js.object string;
    loading : bool;
    submitting : bool;
    submitted : bool;
    toasts : list toast;
    console : list error }.

Definition initial : State :=
  mkState None [] [] true false false [] [].

Definition setSurvey (v : option Survey) (s : State) : State :=
  mkState v (questions s) (answers s) (loading s) (submitting s)
          (submitted s) (toasts s) (console s).
Definition setQuestions (v : list Question) (s : State) : State :=
  mkState (survey s) v (answers s) (loading s) (submitting s)
          (submitted s) (toasts s) (console s).
Definition setAnswers (v : Js.object string) (s : State) : State :=
  mkState (survey s) (questions s) v (loading s) (submitting s)
          (submitted s) (toasts s) (console s).
Definition setLoading (v : bool) (s : State) : State :=
  mkState (survey s) (questions s) (answers s) v (submitting s)
          (submitted s) (toasts s) (console s).
Definition setSubmitting (v : bool) (s : State) : State :=
  mkState (survey s) (questions s) (answers s) (loading s) v
          (submitted s) (toasts s) (console s).
Definition setSubmitted (v : bool) (s : State) : State :=
  mkState (survey s) (questions s) (answers s) (loading s) (submitting s)
          v (toasts s) (console s).
Definition show (t : toast) (s : State) : State :=
  mkState (survey s) (questions s) (answers s) (loading s) (submitting s)
          (submitted s) (toasts s ++ [t]) (console s).
Definition console_error (e : error) (s : State) : State :=
  mkState (survey s) (questions s) (answers s) (loading s) (submitting s)
          (submitted s) (toasts s) (console s ++ [e]).

(** What reading [answers[k]] yields. *)
Inductive lookup : Type :=
  | Undefined
  | Value (v : string)
  | Inherited.

Definition get (o : Js.object string) (k : string) : lookup :=
  match Js.own o k with
  | Some v => Value v
  | None => if Js.inherited_name k then Inherited else Undefined
  end.

Definition truthy (l : lookup) : bool :=
  match l with
  | Undefined => false
  | Value v => Js.truthy_string v
  | Inherited => true
  end.

Section Page.
Variable be : Backend.
Variable id : string.

Definition fetchSurvey (s : State) (w : World) : State * World :=
  let '(surveyRes, w) := select_survey be id (Some "published") w in
  let '(questionsRes, w) := select_questions be id w in
  let catch (e : error) :=
    console_error e (show (toast_error "Survey not found or unavailable") s) in
  let s :=
    match surveyRes with
    | Err surveyError => catch surveyError
    | Ok surveyData =>
        match questionsRes with
        | Err questionsError => catch questionsError
        | Ok questionsData =>
            setQuestions questionsData (setSurvey (Some surveyData) s)
        end
    end in
  (setLoading false s, w).

(** The [onValueChange], [onClick] and [onChange] handlers of
    [renderQuestion]: [setAnswers({ ...answers, [question.id]: value })]. *)
Definition recordAnswer (questionId value : string) (s : State) : State :=
  setAnswers (Js.set (answers s) questionId value) s.

Definition missingAnswers (s : State) : list Question :=
  let requiredQuestions := filter questions.required (questions s) in
  filter (fun q => negb (truthy (get (answers s) (questions.id q))))
         requiredQuestions.

Definition answersToInsert (response : responses.row) (s : State)
  : list new_answer :=
  map (fun '(questionId, answer) =>
         mkNewAnswer (responses.id response) questionId answer)
      (Js.entries (answers s)).

Definition handleSubmit (s : State) (w : World) : State * World :=
  if (0 <? List.length (missingAnswers s))%nat
  then (show (toast_error "Please answer all required questions") s, w)
  else
    let s := setSubmitting true s in
    let catch (e : error) (s : State) :=
      console_error e (show (toast_error "Failed to submit survey") s) in
    let '(responseRes, w) := insert_response be id w in
    let '(s, w) :=
      match responseRes with
      | Err responseError => (catch responseError s, w)
      | Ok response =>
          let '(answersRes, w) :=
            insert_answers be (answersToInsert response s) w in
          match answersRes with
          | Err answersError => (catch answersError s, w)
          | Ok _ =>
              (show (toast_success "Survey submitted successfully!")
                    (setSubmitted true s), w)
          end
      end in
    (setSubmitting false s, w).

(** [const progress = (Object.keys(answers).length / questions.length) * 100]. *)
Definition progress (s : State) : Js.number :=
  Js.mul
    (Js.div (Js.of_nat (List.length (Js.keys (answers s))))
            (Js.of_nat (List.length (questions s))))
    (Js.Finite (100 # 1)).
End Page.

End TakeSurvey.

(* ================================================================== *)
(** ** [src/pages/SurveyResults.tsx]: the results aggregator *)
(* ================================================================== *)

Module SurveyResults.
Import Supabase.

Definition Survey : Type := surveys.row.
Definition Question : Type := questions.row.

Record Answer : Type := mkAnswer
  { question_id : string; answer_value : string }.

Record State : Type := mkState
  { survey : option Survey;
    questions : list Question;
    answers : list Answer;
    responseCount : nat;
    loading : bool;
    toasts : list toast;
    console : list error }.

Definition initial : State := mkState None [] [] 0 true [] [].

Definition setSurvey (v : option Survey) (s : State) : State :=
  mkState v (questions s) (answers s) (responseCount s) (loading s)
          (toasts s) (console s).
Definition setQuestions (v : list Question) (s : State) : State :=
  mkState (survey s) v (answers s) (responseCount s) (loading s)
          (toasts s) (console s).
Definition setAnswers (v : list Answer) (s : State) : State :=
  mkState (survey s) (questions s) v (responseCount s) (loading s)
          (toasts s) (console s).
Definition setResponseCount (v : nat) (s : State) : State :=
  mkState (survey s) (questions s) (answers s) v (loading s)
          (toasts s) (console s).
Definition setLoading (v : bool) (s : State) : State :=
  mkState (survey s) (questions s) (answers s) (responseCount s) v
          (toasts s) (console s).
Definition show (t : toast) (s : State) : State :=
  mkState (survey s) (questions s) (answers s) (responseCount s) (loading s)
          (toasts s ++ [t]) (console s).
Definition console_error (e : error) (s : State) : State :=
  mkState (survey s) (questions s) (answers s) (responseCount s) (loading s)
          (toasts s) (console s ++ [e]).

Section Page.
Variable be : Backend.
Variable id : string.

Definition fetchData (s : State) (w : World) : State * World :=
  let '(surveyRes, w) := select_survey be id None w in
  let '(questionsRes, w) := select_questions be id w in
  let '(responsesRes, w) := select_response_ids be id w in
  let catch (e : error) (s : State) :=
    console_error e (show (toast_error "Failed to load survey results") s) in
  let '(s, w) :=
    match surveyRes with
    | Err e => (catch e s, w)
    | Ok surveyData =>
        match questionsRes with
        | Err e => (catch e s, w)
        | Ok questionsData =>
            let s := setSurvey (Some surveyData) s in
            let s := setQuestions questionsData s in
            let s :=
              setResponseCount
                (match responsesRes with
                 | Ok data => List.length data
                 | Err _ => 0
                 end) s in
            match responsesRes with
            | Ok (r :: rs) =>
                let responseIds := r :: rs in
                let '(answersRes, w) := select_answers be responseIds w in
                match answersRes with
                | Err answersError => (catch answersError s, w)
                | Ok answersData =>
                    (setAnswers
                       (map (fun '(q, v) => mkAnswer q v) answersData) s, w)
                end
            | _ => (s, w)
            end
        end
    end in
  (setLoading false s, w).
End Page.

(** The three shapes [getQuestionAnalytics] returns. *)
Inductive analytics : Type :=
  | Counts (data : list (string * nat))
  | Rating (average : string) (total : nat)
  | Texts (values : list string).

(** The reducer of the tally: [acc[v] = (acc[v] || 0) + 1].  The read
    [acc[v]] looks through the prototype chain; the model takes the own
    property only, which is the same whenever [v] is not one of
    [Js.object_prototype_names]. *)
Definition count_answer (acc : Js.object nat) (answer : Answer)
  : Js.object nat :=
  Js.set acc (answer_value answer)
    (match Js.own acc (answer_value answer) with
     | Some n => n
     | None => 0
     end + 1).

Definition is_choice (t : string) : bool :=
  (t =? "multiple_choice") || (t =? "dropdown").

Definition getQuestionAnalytics (answers : list Answer) (question : Question)
  : analytics :=
  let questionAnswers :=
    filter (fun a => question_id a =? questions.id question) answers in
  if is_choice (questions.type question) then
    let counts := fold_left count_answer questionAnswers [] in
    Counts (Js.entries counts)
  else if questions.type question =? "rating" then
    let ratings := map (fun a => Js.parseInt (answer_value a)) questionAnswers in
    let average :=
      if (0 <? List.length ratings)%nat
      then Js.toFixed1
             (Js.div (fold_left Js.add ratings (Js.Finite (0 # 1)))
                     (Js.of_nat (List.length ratings)))
      else "0" in
    Rating average (List.length ratings)
  else Texts (map answer_value questionAnswers).

(** An element of [csvRows]: a string, or an array of strings that
    [csvRows.join] turns into text by joining it with commas. *)
Inductive csvRow : Type :=
  | Line (text : string)
  | Cells (cells : list string).

Definition row_text (r : csvRow) : string :=
  match r with
  | Line t => t
  | Cells c => Js.join "," c
  end.

Definition quoted (answer : string) : string :=
  String Js.dquote (Js.double_quotes answer ++ String Js.dquote EmptyString).

(** The casts [analytics as any[]], [(analytics as any).average] and
    [analytics as string[]]; each is applied under the same test on
    [question.type] that produced the shape. *)
Definition as_counts (a : analytics) : list (string * nat) :=
  match a with Counts data => data | _ => [] end.
Definition as_average (a : analytics) : string :=
  match a with Rating average _ => average | _ => EmptyString end.
Definition as_texts (a : analytics) : list string :=
  match a with Texts values => values | _ => [] end.

(** The body of [questions.forEach] in [exportData]: the rows pushed for
    one question. *)
Definition push_question (answers : list Answer) (csvRows : list csvRow)
           (question : Question) : list csvRow :=
  let csvRows := csvRows ++ [Cells [questions.text question]] in
  let analytics := getQuestionAnalytics answers question in
  let csvRows :=
    if is_choice (questions.type question) then
      fold_left
        (fun rows item =>
           rows ++
           [Line (Js.join "," [fst item; Js.decimal (N.of_nat (snd item))])])
        (as_counts analytics) csvRows
    else if questions.type question =? "rating" then
      csvRows ++ [Line (Js.join "," ["Average Rating"; as_average analytics])]
    else
      fold_left (fun rows answer => rows ++ [Cells [quoted answer]])
                (as_texts analytics) csvRows in
  csvRows ++ [Cells []].

(** The downloaded file. *)
Record download : Type := mkDownload
  { filename : string; content : string }.

Definition newline : string := String (ascii_of_nat 10) EmptyString.

(** [exportData]: the rows are collected, joined by line feeds and handed
    to the browser as a download.  Nothing in the body can throw on a
    loaded page, so the [catch] branch has no counterpart here. *)
Definition exportData (id : string) (s : State) : download * State :=
  let csvRows := [] in
  let csvRows :=
    csvRows ++
    [Line (Js.join ","
             ["Survey";
              match survey s with
              | Some v => surveys.title v
              | None => EmptyString
              end])] in
  let csvRows :=
    csvRows ++
    [Line (Js.join "," ["Total Responses";
                        Js.decimal (N.of_nat (responseCount s))])] in
  let csvRows := csvRows ++ [Cells []] in
  let csvRows := fold_left (push_question (answers s)) (questions s) csvRows in
  let csvContent := Js.join newline (map row_text csvRows) in
  (mkDownload ("survey-results-" ++ id ++ ".csv") csvContent,
   show (toast_success "Results exported successfully!") s).

End SurveyResults.

(* ================================================================== *)
(** ** [src/pages/CreateSurvey.tsx]: the survey builder *)
(* ================================================================== *)

Module CreateSurvey.
Import Supabase.

(** A question being edited; [options] is an optional field. *)
Record Question : Type := mkQuestion
  { type : string;
    text : string;
    options : option (list string);
    required : bool;
    order_index : Z }.

Record State : Type := mkState
  { title : string;
    description : string;
    questions : list Question;
    saving : bool;
    toasts : list toast;
    console : list error;
    navigated : list string }.

Definition initial : State :=
  mkState EmptyString EmptyString
    [mkQuestion "multiple_choice" EmptyString (Some [EmptyString]) true 0]
    false [] [] [].

Definition setTitle (v : string) (s : State) : State :=
  mkState v (description s) (questions s) (saving s) (toasts s) (console s)
          (navigated s).
Definition setQuestions (v : list Question) (s : State) : State :=
  mkState (title s) (description s) v (saving s) (toasts s) (console s)
          (navigated s).
Definition setSaving (v : bool) (s : State) : State :=
  mkState (title s) (description s) (questions s) v (toasts s) (console s)
          (navigated s).
Definition show (t : toast) (s : State) : State :=
  mkState (title s) (description s) (questions s) (saving s) (toasts s ++ [t])
          (console s) (navigated s).
Definition console_error (e : error) (s : State) : State :=
  mkState (title s) (description s) (questions s) (saving s) (toasts s)
          (console s ++ [e]) (navigated s).
Definition navigate (path : string) (s : State) : State :=
  mkState (title s) (description s) (questions s) (saving s) (toasts s)
          (console s) (navigated s ++ [path]).

(** [l.filter((_, i) => i !== index)]. *)
Fixpoint remove_at {A : Type} (index : nat) (l : list A) : list A :=
  match l, index with
  | [], _ => []
  | _ :: r, O => r
  | x :: r, S i => x :: remove_at i r
  end.

Fixpoint update_at {A : Type} (index : nat) (f : A -> A) (l : list A)
  : list A :=
  match l, index with
  | [], _ => []
  | x :: r, O => f x :: r
  | x :: r, S i => x :: update_at i f r
  end.

Definition addQuestion (s : State) : State :=
  setQuestions
    (questions s ++
     [mkQuestion "multiple_choice" EmptyString (Some [EmptyString]) false
                 (Z.of_nat (List.length (questions s)))]) s.

Definition removeQuestion (index : nat) (s : State) : State :=
  setQuestions (remove_at index (questions s)) s.

(** The editing handlers are called with the index of a rendered question
    (and of one of its rendered options), so the index is in range. *)
Definition addOption (questionIndex : nat) (s : State) : State :=
  setQuestions
    (update_at questionIndex
       (fun q =>
          mkQuestion (type q) (text q)
            (Some (match options q with Some o => o | None => [] end
                   ++ [EmptyString]))
            (required q) (order_index q))
       (questions s)) s.

Definition removeOption (questionIndex optionIndex : nat) (s : State) : State :=
  setQuestions
    (update_at questionIndex
       (fun q =>
          mkQuestion (type q) (text q)
            (match options q with
             | Some o => Some (remove_at optionIndex o)
             | None => None
             end)
            (required q) (order_index q))
       (questions s)) s.

(** The success path of [generateWithAI]: the questions the endpoint
    returned replace the list, re-indexed from 0. *)
Definition generatedQuestions (data : list Question) : list Question :=
  number_from
    (fun index q =>
       mkQuestion (type q) (text q) (options q) (required q) (Z.of_nat index))
    0 data.

Inductive Status : Type := draft | published.

Definition status_text (status : Status) : string :=
  match status with
  | draft => "draft"
  | published => "published"
  end.

Definition questionsToInsert (survey : surveys.row) (qs : list Question)
  : list new_question :=
  map (fun q =>
         mkNewQuestion (surveys.id survey) (type q) (text q)
           (match options q with
            | Some o => if (0 <? List.length o)%nat then Some o else None
            | None => None
            end)
           (required q) (order_index q))
      qs.

Section Page.
Variable be : Backend.

Definition saveSurvey (status : Status) (s : State) (w : World)
  : State * World :=
  if negb (Js.truthy_string (Js.trim (title s)))
  then (show (toast_error "Please enter a survey title") s, w)
  else if existsb (fun q => negb (Js.truthy_string (Js.trim (text q))))
                  (questions s)
  then (show (toast_error "All questions must have text") s, w)
  else
    let s := setSaving true s in
    let catch (e : error) (s : State) :=
      console_error e (show (toast_error "Failed to save survey") s) in
    let '(surveyRes, w) :=
      insert_survey be
        (mkNewSurvey (title s) (description s) (status_text status)) w in
    let '(s, w) :=
      match surveyRes with
      | Err surveyError => (catch surveyError s, w)
      | Ok survey =>
          let '(questionsRes, w) :=
            insert_questions be (questionsToInsert survey (questions s)) w in
          match questionsRes with
          | Err questionsError => (catch questionsError s, w)
          | Ok _ =>
              (navigate "/"
                 (show
                    (toast_success
                       ("Survey " ++
                        match status with
                        | draft => "saved as draft"
                        | published => "published"
                        end ++ " successfully!")) s), w)
          end
      end in
    (setSaving false s, w).
End Page.

End CreateSurvey.

(* ================================================================== *)
(** ** [src/pages/CreateSurvey.tsx]: the generation dialog *)
(* ================================================================== *)

Module CreateSurveyDialog.
Import CreateSurvey.

(** What [supabase.functions.invoke("generate-survey", ...)] resolves to:
    an error with its message, or the data with its optional [questions]
    (a missing [data] reads like a missing [questions]). *)
Inductive invocation : Type :=
  | Failed (message : string)
  | Returned (questions : option (list Question)).

(** The builder page with the state of its dialog, the prompts sent to the
    endpoint and the messages of the errors logged. *)
Record State : Type := mkState
  { page : CreateSurvey.State;
    aiPrompt : string;
    isAiDialogOpen : bool;
    isGenerating : bool;
    invoked : list string;
    logged : list string }.

Definition setPage (v : CreateSurvey.State) (s : State) : State :=
  mkState v (aiPrompt s) (isAiDialogOpen s) (isGenerating s) (invoked s)
          (logged s).
Definition setAiPrompt (v : string) (s : State) : State :=
  mkState (page s) v (isAiDialogOpen s) (isGenerating s) (invoked s)
          (logged s).
Definition setIsAiDialogOpen (v : bool) (s : State) : State :=
  mkState (page s) (aiPrompt s) v (isGenerating s) (invoked s) (logged s).
Definition setIsGenerating (v : bool) (s : State) : State :=
  mkState (page s) (aiPrompt s) (isAiDialogOpen s) v (invoked s) (logged s).
Definition call (prompt : string) (s : State) : State :=
  mkState (page s) (aiPrompt s) (isAiDialogOpen s) (isGenerating s)
          (invoked s ++ [prompt]) (logged s).
Definition log (message : string) (s : State) : State :=
  mkState (page s) (aiPrompt s) (isAiDialogOpen s) (isGenerating s)
          (invoked s) (logged s ++ [message]).

Section Endpoint.
(** The generation endpoint: a prompt in, an invocation result out. *)
Variable invoke : string -> invocation.

Definition generateWithAI (s : State) : State :=
  if negb (Js.truthy_string (Js.trim (aiPrompt s)))
  then setPage (show (toast_error "Please enter a prompt") (page s)) s
  else
    let s := setIsGenerating true s in
    let result := invoke (aiPrompt s) in
    let s := call (aiPrompt s) s in
    let s :=
      match result with
      | Failed message =>
          setPage
            (show
               (toast_error
                  (if Js.truthy_string message then message
                   else "Failed to generate questions"))
               (page s))
            (log message s)
      | Returned None => s
      | Returned (Some data) =>
          setAiPrompt EmptyString
            (setIsAiDialogOpen false
               (setPage
                  (show (toast_success "Questions generated successfully!")
                        (setQuestions (generatedQuestions data) (page s)))
                  s))
      end in
    setIsGenerating false s.
End Endpoint.

End CreateSurveyDialog.

(* ================================================================== *)
(** ** [src/pages/Templates.tsx]: creating a survey from a template *)
(* ================================================================== *)

Module Templates.
Import Supabase.

(** An entry of [template_data.questions]. *)
Record question : Type := mkQuestion
  { type : string;
    text : string;
    options : option (list string);
    required : bool;
    order_index : Z }.

Record data : Type := mkData { questions : list question }.

Record Template : Type := mkTemplate
  { id : string;
    name : string;
    description : option string;
    template_data : data }.

Record State : Type := mkState
  { templates : list Template;
    loading : bool;
    toasts : list toast;
    console : list error;
    navigated : list string }.

Definition show (t : toast) (s : State) : State :=
  mkState (templates s) (loading s) (toasts s ++ [t]) (console s)
          (navigated s).
Definition console_error (e : error) (s : State) : State :=
  mkState (templates s) (loading s) (toasts s) (console s ++ [e])
          (navigated s).
Definition navigate (path : string) (s : State) : State :=
  mkState (templates s) (loading s) (toasts s) (console s)
          (navigated s ++ [path]).

(** The two inserts of the page.  The description of the new survey is the
    template's, which may be null. *)
Inductive request : Type :=
  | InsertSurvey (title : string) (description : option string)
                 (status : string)
  | InsertQuestions (payload : list new_question).

Record World : Type := mkWorld
  { db : Db;
    requests : list request;
    generated : nat }.

Section Client.
Variable be : Backend.

Definition send {A : Type} (r : request) (w : World)
           (run : World -> result A * World) : result A * World :=
  let w' := mkWorld (db w) (requests w ++ [r]) (generated w) in
  if unreachable be (List.length (requests w)) then (Err FetchFailed, w')
  else run w'.

(** [from("surveys").insert({ title, description, status }).select().single()]. *)
Definition insert_survey (title : string) (description : option string)
           (status : string) (w : World) : result surveys.row * World :=
  send (InsertSurvey title description status) w (fun w =>
    let d := db w in
    let i := gen_random_uuid be (generated w) in
    if negb (status_check status)
    then (Err (CheckViolation "surveys_status_check"), w)
    else if survey_exists d i
    then (Err (UniqueViolation "surveys_pkey"), w)
    else
      let r := surveys.mk i title description status in
      (Ok r,
       mkWorld
         (mkDb (surveys_table d ++ [r]) (questions_table d)
               (responses_table d) (answers_table d))
         (requests w) (S (generated w)))).

(** [from("questions").insert(rows)]: one statement, all rows or none. *)
Definition insert_questions (ps : list new_question) (w : World)
  : result unit * World :=
  send (InsertQuestions ps) w (fun w =>
    let d := db w in
    let rows := number_from (question_row be (generated w)) 0 ps in
    if negb (forallb (fun p => type_check (nq_type p)) ps)
    then (Err (CheckViolation "questions_type_check"), w)
    else if negb (forallb (fun p => survey_exists d (nq_survey_id p)) ps)
    then (Err (ForeignKeyViolation "questions_survey_id_fkey"), w)
    else if negb (distinct (map questions.id (questions_table d ++ rows)))
    then (Err (UniqueViolation "questions_pkey"), w)
    else
      (Ok tt,
       mkWorld
         (mkDb (surveys_table d) (questions_table d ++ rows)
               (responses_table d) (answers_table d))
         (requests w) (generated w + List.length ps))).

(** [options: q.options || null]: an absent list becomes null, a list,
    empty or not, is kept. *)
Definition questionsToInsert (survey : surveys.row) (qs : list question)
  : list new_question :=
  map (fun q =>
         mkNewQuestion (surveys.id survey) (type q) (text q) (options q)
                       (required q) (order_index q))
      qs.

Definition useTemplate (template : Template) (s : State) (w : World)
  : State * World :=
  let catch (e : error) (s : State) :=
    console_error e
      (show (toast_error "Failed to create survey from template") s) in
  let '(surveyRes, w) :=
    insert_survey (name template) (description template) "draft" w in
  match surveyRes with
  | Err surveyError => (catch surveyError s, w)
  | Ok survey =>
      let '(questionsRes, w) :=
        insert_questions
          (questionsToInsert survey (questions (template_data template))) w in
      match questionsRes with
      | Err questionsError => (catch questionsError s, w)
      | Ok _ =>
          (navigate "/" (show (toast_success "Survey created from template!") s),
           w)
      end
  end.
End Client.

End Templates.

(* ================================================================== *)
(** ** Sample data *)
(* ================================================================== *)

Module Sample.
Import Supabase.

(** A backend that is always reachable and hands out numbered identifiers. *)
Definition backend : Backend :=
  mkBackend (fun n => ("id-" ++ Js.decimal (N.of_nat n))%string)
            (fun _ => false).

(** A backend that drops the third request of a session. *)
Definition flaky : Backend :=
  mkBackend (fun n => ("id-" ++ Js.decimal (N.of_nat n))%string)
            (fun n => Nat.eqb n 2).

Definition pulse : surveys.row :=
  surveys.mk "s1" "Team pulse" (Some "Weekly check-in") "published".

Definition offsite : surveys.row :=
  surveys.mk "s2" "Offsite" None "draft".

Definition q_team : questions.row :=
  questions.mk "q1" "s1" "short_text" "Which team are you on?" None true 0.

Definition q_week : questions.row :=
  questions.mk "q2" "s1" "rating" "How was your week?" None false 1.

Definition q_size : questions.row :=
  questions.mk "q3" "s1" "multiple_choice"
               "How many people are on your team?" (Some ["10"; "2"]) false 2.

Definition q_notes : questions.row :=
  questions.mk "q4" "s1" "long_text" "Anything else?" None false 3.

Definition store : Db :=
  mkDb [pulse; offsite] [q_team; q_week; q_size; q_notes] [] [].

Definition world : World := mkWorld store [] 0.

(** The runtime page after loading [pulse], holding the given answers. *)
Definition taking (answers : Js.object string) : TakeSurvey.State :=
  TakeSurvey.mkState (Some pulse) [q_team; q_week; q_size; q_notes] answers
                     false false false [] [].

(** The results page over [pulse] with three responses. *)
Definition collected : list SurveyResults.Answer :=
  [ SurveyResults.mkAnswer "q3" "10"; SurveyResults.mkAnswer "q2" "4";
    SurveyResults.mkAnswer "q3" "2"; SurveyResults.mkAnswer "q2" "5";
    SurveyResults.mkAnswer "q3" "10"; SurveyResults.mkAnswer "q2" "3" ].

Definition results : SurveyResults.State :=
  SurveyResults.mkState (Some pulse) [q_size; q_week] collected 3 false [] [].

(** The builder after typing a title and a question text and removing the
    only option row of the first question. *)
Definition building : CreateSurvey.State :=
  CreateSurvey.removeOption 0 0
    (CreateSurvey.setQuestions
       [CreateSurvey.mkQuestion "multiple_choice" "Where do we eat?"
                                (Some [EmptyString]) true 0]
       (CreateSurvey.setTitle "Lunch" CreateSurvey.initial)).

Definition empty_world : World := mkWorld (mkDb [] [] [] []) [] 0.

(** The store after two people answered [pulse]. *)
Definition answered_store : Db :=
  mkDb [pulse; offsite] [q_team; q_week; q_size; q_notes]
       [responses.mk "r1" "s1"; responses.mk "r2" "s1"]
       [answers.mk "a1" "r1" "q1" "Platform"; answers.mk "a2" "r1" "q2" "4";
        answers.mk "a3" "r2" "q1" "Design"; answers.mk "a4" "r2" "q2" "5"].

Definition answered_world : World := mkWorld answered_store [] 0.

End Sample.

(* ================================================================== *)
(** ** Vocabulary of the properties *)
(* ================================================================== *)

(** The distinct elements of a list, each at the place of its first
    occurrence. *)
Fixpoint first_occurrences (l : list string) : list string :=
  match l with
  | [] => []
  | x :: r => x :: filter (fun y => negb (y =? x)) (first_occurrences r)
  end.

Definition occurrences (v : string) (l : list string) : nat :=
  count_occ string_dec l v.

(** The values answered to one question, in the order of the answer list. *)
Definition values_for (q : SurveyResults.Question)
           (answers : list SurveyResults.Answer) : list string :=
  map SurveyResults.answer_value
    (filter (fun a => SurveyResults.question_id a =? Supabase.questions.id q)
            answers).

(** Numeric order of two array-index keys. *)
Definition index_le (k1 k2 : string) : Prop :=
  match Js.array_index k1, Js.array_index k2 with
  | Some a, Some b => (a <= b)%N
  | _, _ => False
  end.

Definition own_name (k : string) : Prop := Js.inherited_name k = false.

(** [v] is not among the keys [seen]. *)
Definition unseen (seen : list string) (v : string) : bool :=
  negb (existsb (String.eqb v) seen).

(** A required question the accumulator holds no usable answer for: no
    entry at all, or the empty string. *)
Definition unanswered (answers : Js.object string) (q : TakeSurvey.Question)
  : Prop :=
  Supabase.questions.required q = true
  /\ (Js.own answers (Supabase.questions.id q) = None
      \/ Js.own answers (Supabase.questions.id q) = Some EmptyString).

(** A string made of white space only; the empty string is one. *)
Definition blank (s : string) : Prop :=
  exists ws : list string,
    Forall (fun w => In w Js.white_space) ws
    /\ s = fold_right String.append EmptyString ws.

(** The options column written for a builder question. *)
Definition stored_options (o : option (list string)) : option (list string) :=
  match o with
  | Some (x :: r) => Some (x :: r)
  | _ => None
  end.

(** The layout of the exported file, line by line. *)
Definition survey_title (s : SurveyResults.State) : string :=
  match SurveyResults.survey s with
  | Some v => Supabase.surveys.title v
  | None => EmptyString
  end.

Definition analytics_lines (answers : list SurveyResults.Answer)
           (q : SurveyResults.Question) : list string :=
  if SurveyResults.is_choice (Supabase.questions.type q) then
    map (fun p => (fst p ++ "," ++ Js.decimal (N.of_nat (snd p)))%string)
        (SurveyResults.as_counts (SurveyResults.getQuestionAnalytics answers q))
  else if Supabase.questions.type q =? "rating" then
    [("Average Rating,"
      ++ SurveyResults.as_average
           (SurveyResults.getQuestionAnalytics answers q))%string]
  else map SurveyResults.quoted (values_for q answers).

Definition question_block (answers : list SurveyResults.Answer)
           (q : SurveyResults.Question) : list string :=
  [Supabase.questions.text q] ++ analytics_lines answers q ++ [EmptyString].

Definition csv_lines (s : SurveyResults.State) : list string :=
  [ ("Survey," ++ survey_title s)%string;
    ("Total Responses,"
     ++ Js.decimal (N.of_nat (SurveyResults.responseCount s)))%string;
    EmptyString ]
  ++ flat_map (question_block (SurveyResults.answers s))
              (SurveyResults.questions s).

(** The layout as the specification words it: the two summary lines, then
    the question blocks with a blank row between consecutive blocks. *)
Fixpoint separated (blocks : list (list string)) : list string :=
  match blocks with
  | [] => []
  | [b] => b
  | b :: r => b ++ [EmptyString] ++ separated r
  end.

Definition specified_lines (s : SurveyResults.State) : list string :=
  [ ("Survey," ++ survey_title s)%string;
    ("Total Responses,"
     ++ Js.decimal (N.of_nat (SurveyResults.responseCount s)))%string ]
  ++ separated
       (map (fun q => [Supabase.questions.text q]
                      ++ analytics_lines (SurveyResults.answers s) q)
            (SurveyResults.questions s)).

(** Reading a quoted field back: the second quote of each pair is dropped. *)
Fixpoint halve_quotes (second : bool) (s : string) : string :=
  match s with
  | EmptyString => EmptyString
  | String c r =>
      if second then halve_quotes false r
      else String c (halve_quotes (Ascii.eqb c Js.dquote) r)
  end.

(** The values the runtime records for a rating question
    ([rating.toString()] for the five stars), what they are worth, and the
    exact mean of a list of them. *)
Definition stars : list string := ["1"; "2"; "3"; "4"; "5"].

Definition star_value (v : string) : Z :=
  match Js.digits_value 0 v with
  | Some n => Z.of_N n
  | None => 0%Z
  end.

Definition rating_sum (vs : list string) : Z :=
  fold_right Z.add 0%Z (map star_value vs).

Definition rating_mean (vs : list string) : Q :=
  (inject_Z (rating_sum vs) / inject_Z (Z.of_nat (List.length vs)))%Q.

(** The display of [n] tenths: the integer part, a point, one decimal. *)
Definition tenths (n : Z) : string :=
  (Js.decimal_Z (n / 10) ++ "." ++ Js.decimal_Z (n mod 10))%string.

(** The rational a finite value of the Standard Library's binary64 model
    denotes, to compare [Js.round] with it. *)
Definition double_of_Z (z : Z) : spec_float :=
  binary_normalize 53 1024 z 0 false.

Definition spec_float_value (x : spec_float) : option Q :=
  match x with
  | S754_zero _ => Some (0 # 1)%Q
  | S754_finite s m e =>
      Some (Qred (inject_Z (if s then Z.neg m else Z.pos m) * Js.pow2 e)%Q)
  | _ => None
  end.

Definition number_value (x : Js.number) : option Q :=
  match x with
  | Js.Finite q => Some q
  | _ => None
  end.

(** An entry of the index part carries the numeric value of its key. *)
Definition tagged {V : Type} (e : N * (string * V)) : Prop :=
  Js.array_index (fst (snd e)) = Some (fst e).

(* ================================================================== *)
(** ** Further sample data and vocabulary *)
(* ================================================================== *)

Module Cases.
Import Supabase.

(** A backend that drops the second request of a session. *)
Definition drops_second : Backend :=
  mkBackend (fun n => ("id-" ++ Js.decimal (N.of_nat n))%string)
            (fun n => Nat.eqb n 1).

(** A backend that drops every request. *)
Definition offline : Backend :=
  mkBackend (fun n => ("id-" ++ Js.decimal (N.of_nat n))%string)
            (fun _ => true).

(** A builder holding three questions numbered by position. *)
Definition three_questions : CreateSurvey.State :=
  CreateSurvey.addQuestion (CreateSurvey.addQuestion CreateSurvey.initial).

(** A builder whose only question has a type the schema does not know. *)
Definition unknown_type : CreateSurvey.State :=
  CreateSurvey.setQuestions
    [CreateSurvey.mkQuestion "checkbox" "Which days suit you?"
                             (Some ["Mon"; "Tue"]) false 0]
    (CreateSurvey.setTitle "Planning" CreateSurvey.initial).

(** The dialog over the opening builder, with a prompt typed. *)
Definition prompting : CreateSurveyDialog.State :=
  CreateSurveyDialog.mkState CreateSurvey.initial "onboarding survey" true
                             false [] [].

(** An endpoint that answers with two questions carrying any indices. *)
Definition endpoint (prompt : string) : CreateSurveyDialog.invocation :=
  CreateSurveyDialog.Returned
    (Some [CreateSurvey.mkQuestion "rating" "How was day one?" None true 7;
           CreateSurvey.mkQuestion "long_text" "What was missing?" None
                                   false 7]).

Definition failing_endpoint (prompt : string)
  : CreateSurveyDialog.invocation :=
  CreateSurveyDialog.Failed "Rate limit exceeded".

(** A template with a choice question whose options list is empty. *)
Definition exit_template : Templates.Template :=
  Templates.mkTemplate "t1" "Exit interview" None
    (Templates.mkData
       [Templates.mkQuestion "rating" "Would you recommend us?" None true 0;
        Templates.mkQuestion "dropdown" "Main reason for leaving" (Some [])
                             false 1]).

Definition broken_template : Templates.Template :=
  Templates.mkTemplate "t2" "Legacy" (Some "Imported")
    (Templates.mkData
       [Templates.mkQuestion "checkbox" "Pick all that apply" None false 0]).

Definition templates_page : Templates.State :=
  Templates.mkState [exit_template; broken_template] false [] [] [].

Definition templates_world : Templates.World :=
  Templates.mkWorld (mkDb [] [] [] []) [] 0.

End Cases.

(** The order index of every question is its position in the list. *)
Definition positional (qs : list CreateSurvey.Question) : Prop :=
  forall i q,
    nth_error qs i = Some q -> CreateSurvey.order_index q = Z.of_nat i.

(** The fields of a question other than its order index. *)
Definition same_content (a b : CreateSurvey.Question) : Prop :=
  CreateSurvey.type a = CreateSurvey.type b
  /\ CreateSurvey.text a = CreateSurvey.text b
  /\ CreateSurvey.options a = CreateSurvey.options b
  /\ CreateSurvey.required a = CreateSurvey.required b.

(** The sum of the counts of a tally. *)
Definition counts_total (data : list (string * nat)) : nat :=
  fold_right (fun p n => snd p + n) 0 data.

Definition by_order_index (a b : Supabase.questions.row) : Prop :=
  (Supabase.questions.order_index a <= Supabase.questions.order_index b)%Z.

(** Every Answer row of the store belongs to a stored Response. *)
Definition answers_have_responses (d : Supabase.Db) : Prop :=
  Forall (fun a =>
            Supabase.response_exists d (Supabase.answers.response_id a) = true)
         (Supabase.answers_table d).

(** The accumulator without the entry of one question. *)
Definition without_entry (k : string) (o : Js.object string)
  : Js.object string :=
  filter (fun e => negb (fst e =? k)) o.

(** Every Question row of the store belongs to a stored Survey. *)
Definition questions_have_surveys (d : Supabase.Db) : Prop :=
  Forall (fun q =>
            Supabase.survey_exists d (Supabase.questions.survey_id q) = true)
         (Supabase.questions_table d).

(** What a Question row keeps of the builder question it was saved from. *)
Definition saved_from (q : CreateSurvey.Question)
           (row : Supabase.questions.row) : Prop :=
  Supabase.questions.type row = CreateSurvey.type q
  /\ Supabase.questions.text row = CreateSurvey.text q
  /\ Supabase.questions.required row = CreateSurvey.required q
  /\ Supabase.questions.order_index row = CreateSurvey.order_index q
  /\ Supabase.questions.options row = stored_options (CreateSurvey.options q).

(** The answers recorded one after the other, as (question, value) pairs. *)
Definition record_all (events : list (string * string))
           (s : TakeSurvey.State) : TakeSurvey.State :=
  fold_left (fun s e => TakeSurvey.recordAnswer (fst e) (snd e) s) events s.

(** The value last recorded for a question, if any. *)
Fixpoint last_recorded (events : list (string * string)) (k : string)
  : option string :=
  match events with
  | [] => None
  | (k', v) :: r =>
      match last_recorded r k with
      | Some v' => Some v'
      | None => if k' =? k then Some v else None
      end
  end.

Definition always_reachable (be : Supabase.Backend) : Prop :=
  forall n, Supabase.unreachable be n = false.

(* ================================================================== *)
(** ** Tactics for concrete pages *)
(* ================================================================== *)

(** The keys of a literal object are pairwise distinct. *)
Ltac distinct_keys :=
  repeat constructor; simpl; intuition discriminate.

(** No question of a literal page is [unanswered]. *)
Ltac none_unanswered :=
  let H := fresh "H" in
  let q := fresh "q" in
  let Hin := fresh "Hin" in
  let Hreq := fresh "Hreq" in
  let Hown := fresh "Hown" in
  intros H; apply Exists_exists in H;
  destruct H as [q [Hin [Hreq Hown]]];
  simpl in Hin;
  repeat (destruct Hin as [<-|Hin];
          [simpl in *; try discriminate; destruct Hown; discriminate|]);
  contradiction.

(* ================================================================== *)
(** ** Objects: lookups, creation order and enumeration order *)
(* ================================================================== *)

Section ObjectFacts.
Context {V : Type}.
Implicit Types (o : Js.object V) (k : string) (v : V).

Lemma own_set_same o k v : Js.own (Js.set o k v) k = Some v.
Proof.
  induction o as [|[k' v'] r IH]; simpl.
  - now rewrite String.eqb_refl.
  - destruct (k' =? k) eqn:E; simpl; rewrite E; auto.
Qed.

Lemma own_set_other o k k' v :
  k <> k' -> Js.own (Js.set o k v) k' = Js.own o k'.
Proof.
  intros Hne. induction o as [|[k0 v0] r IH]; simpl.
  - destruct (k =? k') eqn:E; auto.
    apply String.eqb_eq in E. contradiction.
  - destruct (k0 =? k) eqn:E; simpl.
    + apply String.eqb_eq in E. subst k0.
      destruct (k =? k') eqn:E'; auto.
      apply String.eqb_eq in E'. contradiction.
    + now rewrite IH.
Qed.

Lemma own_none_not_in o k : Js.own o k = None <-> ~ In k (map fst o).
Proof.
  induction o as [|[k' v'] r IH]; simpl.
  - tauto.
  - destruct (k' =? k) eqn:E.
    + apply String.eqb_eq in E. split; [discriminate | tauto].
    + apply String.eqb_neq in E. rewrite IH. tauto.
Qed.

Lemma keys_set_present o k v :
  In k (map fst o) -> map fst (Js.set o k v) = map fst o.
Proof.
  induction o as [|[k' v'] r IH]; simpl; [tauto|].
  intros H. destruct (k' =? k) eqn:E; simpl; auto.
  apply String.eqb_neq in E. f_equal. apply IH. tauto.
Qed.

Lemma keys_set_absent o k v :
  ~ In k (map fst o) -> map fst (Js.set o k v) = map fst o ++ [k].
Proof.
  induction o as [|[k' v'] r IH]; simpl; auto.
  intros H. destruct (k' =? k) eqn:E.
  - apply String.eqb_eq in E. tauto.
  - simpl. f_equal. apply IH. tauto.
Qed.

Lemma own_in o k v :
  NoDup (map fst o) -> (Js.own o k = Some v <-> In (k, v) o).
Proof.
  induction o as [|[k' v'] r IH]; simpl; intros Hnd.
  - split; [discriminate | tauto].
  - inversion Hnd as [|? ? Hnotin Hnd']; subst.
    destruct (k' =? k) eqn:E.
    + apply String.eqb_eq in E. subst k'. split.
      * intros [= ->]. now left.
      * intros [[= ->]|Hin]; auto.
        exfalso. apply Hnotin. now apply (in_map fst) in Hin.
    + apply String.eqb_neq in E. rewrite (IH Hnd'). split; auto.
      intros [[= -> _]|Hin]; [contradiction | auto].
Qed.

(** Enumeration: a rearrangement of the own properties. *)
Lemma insert_index_perm n (p : string * V) (l : list (N * (string * V))) :
  Permutation (Js.insert_index n p l) ((n, p) :: l).
Proof.
  induction l as [|[m q] r IH]; simpl; auto.
  destruct (n <=? m)%N; auto.
  rewrite IH. apply perm_swap.
Qed.

Lemma index_entries_perm o :
  Permutation (map snd (Js.index_entries o))
              (filter (fun p => Js.is_array_index (fst p)) o).
Proof.
  induction o as [|[k v] r IH]; simpl; auto.
  unfold Js.is_array_index at 1. simpl.
  destruct (Js.array_index k) as [n|]; auto.
  rewrite insert_index_perm. simpl. now constructor.
Qed.

Lemma filter_split_perm {A : Type} (f : A -> bool) (l : list A) :
  Permutation (filter f l ++ filter (fun x => negb (f x)) l) l.
Proof.
  induction l as [|x r IH]; simpl; auto.
  destruct (f x); simpl.
  - now constructor.
  - rewrite <- Permutation_middle. now constructor.
Qed.

Lemma entries_perm o : Permutation (Js.entries o) o.
Proof.
  unfold Js.entries, Js.named_entries.
  rewrite index_entries_perm.
  apply (filter_split_perm (fun p => Js.is_array_index (fst p))).
Qed.

Lemma keys_length o : List.length (Js.keys o) = List.length o.
Proof.
  unfold Js.keys. rewrite length_map.
  apply Permutation_length, entries_perm.
Qed.

(** The array-index keys come out in ascending numeric order. *)
Lemma insert_index_tagged n (p : string * V) l :
  Js.array_index (fst p) = Some n ->
  Forall tagged l -> Forall tagged (Js.insert_index n p l).
Proof.
  intros Hp. induction l as [|[m q] r IH]; simpl; intros Hl.
  - constructor; auto.
  - inversion Hl; subst. destruct (n <=? m)%N; constructor; auto.
Qed.

Lemma index_entries_tagged o : Forall tagged (Js.index_entries o).
Proof.
  induction o as [|[k v] r IH]; simpl; auto.
  destruct (Js.array_index k) as [n|] eqn:E; auto.
  apply insert_index_tagged; auto.
Qed.

Lemma insert_index_sorted n (p : string * V) l :
  Sorted (fun a b => (fst a <= fst b)%N) l ->
  Sorted (fun a b => (fst a <= fst b)%N) (Js.insert_index n p l).
Proof.
  induction l as [|[m q] r IH]; simpl; intros Hs.
  - repeat constructor.
  - destruct (n <=? m)%N eqn:E.
    + apply N.leb_le in E. constructor; auto.
    + apply N.leb_gt in E. inversion Hs as [|? ? Hs' Hhd]; subst.
      constructor; auto.
      destruct r as [|[m' q'] r']; simpl.
      * constructor. simpl. lia.
      * destruct (n <=? m')%N; constructor; simpl.
        -- lia.
        -- inversion Hhd; subst. auto.
Qed.

Lemma index_entries_sorted o :
  Sorted (fun a b => (fst a <= fst b)%N) (Js.index_entries o).
Proof.
  induction o as [|[k v] r IH]; simpl; [constructor|].
  destruct (Js.array_index k); auto using insert_index_sorted.
Qed.

Lemma sorted_tagged_keys (l : list (N * (string * V))) :
  Forall tagged l ->
  Sorted (fun a b => (fst a <= fst b)%N) l ->
  Sorted index_le (map fst (map snd l)).
Proof.
  induction l as [|a r IH]; simpl; intros Ht Hs; [constructor|].
  inversion Ht as [|? ? Ha Hr]; subst.
  inversion Hs as [|? ? Hs' Hhd]; subst.
  constructor; auto.
  destruct r as [|b r']; simpl; constructor.
  inversion Hhd; subst. inversion Hr as [|? ? Hb _]; subst.
  unfold index_le. unfold tagged in Ha, Hb. now rewrite Ha, Hb.
Qed.

Lemma entries_index_part_sorted o :
  Sorted index_le (map fst (map snd (Js.index_entries o))).
Proof.
  apply sorted_tagged_keys;
    [apply index_entries_tagged | apply index_entries_sorted].
Qed.

Lemma entries_index_part_keys o :
  Forall (fun p => Js.is_array_index (fst p) = true)
         (map snd (Js.index_entries o)).
Proof.
  pose proof (index_entries_tagged o) as H.
  induction H as [|[n [k v]] l Hx Hl IH]; simpl; constructor; auto.
  unfold tagged in Hx. simpl in *. unfold Js.is_array_index.
  now rewrite Hx.
Qed.

Lemma index_entries_no_index o :
  Forall (fun p => Js.is_array_index (fst p) = false) o ->
  Js.index_entries o = [].
Proof.
  induction 1 as [|[k v] r Hk Hr IH]; simpl; auto.
  unfold Js.is_array_index in Hk. simpl in Hk.
  destruct (Js.array_index k); [discriminate | auto].
Qed.

Lemma map_fst_named o :
  map fst (Js.named_entries o)
  = filter (fun k => negb (Js.is_array_index k)) (map fst o).
Proof.
  unfold Js.named_entries.
  induction o as [|[k v] r IH]; simpl; auto.
  destruct (Js.is_array_index k); simpl; now rewrite IH.
Qed.
End ObjectFacts.

(* ================================================================== *)
(** ** The tally of a choice question *)
(* ================================================================== *)

Section TallyFacts.
Import SurveyResults.

Lemma filter_twice {A : Type} (f g : A -> bool) (l : list A) :
  filter f (filter g l) = filter (fun x => g x && f x) l.
Proof.
  induction l as [|x r IH]; simpl; auto.
  destruct (g x); simpl; [destruct (f x)|]; now rewrite IH.
Qed.

Lemma first_occurrences_in (l : list string) (x : string) :
  In x (first_occurrences l) <-> In x l.
Proof.
  induction l as [|y r IH]; simpl; [tauto|].
  rewrite filter_In, IH, negb_true_iff, String.eqb_neq.
  destruct (string_dec y x); intuition congruence.
Qed.

Lemma first_occurrences_NoDup (l : list string) : NoDup (first_occurrences l).
Proof.
  induction l as [|y r IH]; simpl; constructor.
  - rewrite filter_In, negb_true_iff, String.eqb_neq. tauto.
  - now apply NoDup_filter.
Qed.

Lemma unseen_false seen v : In v seen -> unseen seen v = false.
Proof.
  intros H. unfold unseen. apply negb_false_iff, existsb_exists.
  exists v. split; auto. apply String.eqb_refl.
Qed.

Lemma unseen_true seen v : ~ In v seen -> unseen seen v = true.
Proof.
  intros H. unfold unseen. apply negb_true_iff.
  destruct (existsb (String.eqb v) seen) eqn:E; auto.
  apply existsb_exists in E. destruct E as [x [Hx E]].
  apply String.eqb_eq in E. subst. contradiction.
Qed.

Lemma unseen_app seen v x :
  unseen (seen ++ [v]) x = negb (x =? v) && unseen seen x.
Proof.
  unfold unseen. rewrite existsb_app. simpl. rewrite orb_false_r.
  destruct (existsb (String.eqb x) seen), (x =? v); reflexivity.
Qed.

(** Creation order of the tally: the properties already there, then the
    new values in the order of their first occurrence. *)
Lemma tally_keys (l : list Answer) (acc : Js.object nat) :
  map fst (fold_left count_answer l acc)
  = map fst acc
    ++ filter (unseen (map fst acc))
              (first_occurrences (map answer_value l)).
Proof.
  revert acc. induction l as [|a r IH]; intros acc; simpl.
  - now rewrite app_nil_r.
  - rewrite IH. unfold count_answer.
    destruct (in_dec string_dec (answer_value a) (map fst acc)) as [Hin|Hout].
    + rewrite (keys_set_present _ _ _ Hin), (unseen_false _ _ Hin).
      f_equal. rewrite filter_twice. apply filter_ext_in.
      intros x _. destruct (x =? answer_value a) eqn:E; simpl; auto.
      apply String.eqb_eq in E. subst x. now rewrite unseen_false.
    + rewrite (keys_set_absent _ _ _ Hout), (unseen_true _ _ Hout).
      rewrite <- app_assoc. simpl. do 2 f_equal.
      rewrite filter_twice. apply filter_ext. intros x. apply unseen_app.
Qed.

(** The count held for a value is its number of occurrences. *)
Lemma tally_own (l : list Answer) (acc : Js.object nat) (v : string) :
  Js.own (fold_left count_answer l acc) v
  = match Js.own acc v, occurrences v (map answer_value l) with
    | Some n, c => Some (n + c)
    | None, O => None
    | None, S c => Some (S c)
    end.
Proof.
  revert acc. induction l as [|a r IH]; intros acc; simpl.
  - destruct (Js.own acc v); [f_equal; lia | reflexivity].
  - rewrite IH. unfold count_answer at 1. unfold occurrences. simpl.
    destruct (string_dec (answer_value a) v) as [->|Hne].
    + rewrite own_set_same. destruct (Js.own acc v); f_equal; lia.
    + rewrite (own_set_other _ _ _ _ Hne). reflexivity.
Qed.

Lemma tally_NoDup (l : list Answer) :
  NoDup (map fst (fold_left count_answer l [])).
Proof.
  rewrite tally_keys. simpl. apply NoDup_filter, first_occurrences_NoDup.
Qed.

Lemma tally_creation_order (l : list Answer) :
  map fst (fold_left count_answer l [])
  = first_occurrences (map answer_value l).
Proof.
  rewrite tally_keys. simpl. apply forallb_filter_id.
  apply forallb_forall. intros x _. reflexivity.
Qed.

Lemma tally_in (l : list Answer) (v : string) (n : nat) :
  In (v, n) (fold_left count_answer l [])
  <-> In v (map answer_value l) /\ n = occurrences v (map answer_value l).
Proof.
  rewrite <- (own_in _ _ _ (tally_NoDup l)), tally_own. simpl.
  unfold occurrences.
  rewrite (count_occ_In string_dec).
  destruct (count_occ string_dec (map answer_value l) v); split.
  - discriminate.
  - intros [H _]. lia.
  - intros [= <-]. split; [lia | reflexivity].
  - intros [_ ->]. reflexivity.
Qed.
End TallyFacts.

(** C2 (as amended).  For a multiple_choice or dropdown question,
    [getQuestionAnalytics] returns one (value, count) pair per distinct
    answer value of the question, the count being the number of occurrences
    of the value (so no pair has count zero); the pairs whose value is an
    array-index string come first, in ascending numeric order, and the
    others follow in the order of their first occurrence among the answers.
    When no value is an array-index string the whole sequence is in
    first-occurrence order, and for the answers A, B, A the result is
    (A, 2), (B, 1). *)
Theorem choice_analytics_tally :
  (forall (answers : list SurveyResults.Answer) (q : SurveyResults.Question),
      SurveyResults.is_choice (Supabase.questions.type q) = true ->
      Forall own_name (values_for q answers) ->
      exists indexed named : list (string * nat),
        SurveyResults.getQuestionAnalytics answers q
        = SurveyResults.Counts (indexed ++ named)
        /\ NoDup (map fst (indexed ++ named))
        /\ (forall v n,
               In (v, n) (indexed ++ named)
               <-> In v (values_for q answers)
                   /\ n = occurrences v (values_for q answers))
        /\ Forall (fun p => Js.is_array_index (fst p) = true) indexed
        /\ Sorted index_le (map fst indexed)
        /\ map fst named
           = filter (fun v => negb (Js.is_array_index v))
                    (first_occurrences (values_for q answers))
        /\ (Forall (fun v => Js.is_array_index v = false) (values_for q answers)
            -> indexed = []
               /\ map fst named = first_occurrences (values_for q answers)))
  /\ (forall t i,
        SurveyResults.is_choice t = true ->
        SurveyResults.getQuestionAnalytics
          [SurveyResults.mkAnswer i "A"; SurveyResults.mkAnswer i "B";
           SurveyResults.mkAnswer i "A"]
          (Supabase.questions.mk i "s" t "Q" None false 0)
        = SurveyResults.Counts [("A", 2); ("B", 1)]).
Proof.
  split.
  - intros answers q Hchoice _.
    unfold SurveyResults.getQuestionAnalytics. rewrite Hchoice.
    unfold values_for.
    set (qa := filter _ answers).
    set (o := fold_left SurveyResults.count_answer qa []).
    exists (map snd (Js.index_entries o)), (Js.named_entries o).
    assert (Hperm : Permutation (Js.entries o) o) by apply entries_perm.
    split; [reflexivity|].
    split.
    { eapply Permutation_NoDup.
      - apply Permutation_sym, Permutation_map, Hperm.
      - apply tally_NoDup. }
    split.
    { intros v n. fold (Js.entries o). rewrite <- (tally_in qa v n). split.
      - apply (Permutation_in _ Hperm).
      - apply (Permutation_in _ (Permutation_sym Hperm)). }
    split; [apply entries_index_part_keys|].
    split; [apply entries_index_part_sorted|].
    split.
    { rewrite map_fst_named. unfold o. now rewrite tally_creation_order. }
    intros Hnone. split.
    + rewrite index_entries_no_index; [reflexivity|].
      apply Forall_forall. intros [k n] Hin.
      apply tally_in in Hin. destruct Hin as [Hin _].
      rewrite Forall_forall in Hnone. now apply Hnone.
    + rewrite map_fst_named. unfold o. rewrite tally_creation_order.
      apply forallb_filter_id, forallb_forall. intros x Hx.
      apply (proj1 (first_occurrences_in _ _)) in Hx.
      rewrite Forall_forall in Hnone. now rewrite (Hnone x Hx).
  - intros t i Ht. unfold SurveyResults.getQuestionAnalytics.
    simpl. rewrite String.eqb_refl, Ht. reflexivity.
Qed.

(* ================================================================== *)
(** ** The store: what an accepted insert leaves behind *)
(* ================================================================== *)

Section StoreFacts.
Import Supabase.
Variable be : Backend.

Lemma number_from_length {A B : Type} (f : nat -> A -> B) k (l : list A) :
  List.length (number_from f k l) = List.length l.
Proof. revert k. induction l; intros k; simpl; auto. Qed.

Lemma number_from_map {A B C : Type} (f : nat -> A -> B) (g : B -> C)
      (h : A -> C) k (l : list A) :
  (forall i a, g (f i a) = h a) ->
  map g (number_from f k l) = map h l.
Proof.
  intros H. revert k. induction l; intros k; simpl; auto.
  now rewrite H, IHl.
Qed.

Lemma insert_response_ok i w r w1 :
  insert_response be i w = (Ok r, w1) ->
  r = responses.mk (gen_random_uuid be (generated w)) i
  /\ db w1 = mkDb (surveys_table (db w)) (questions_table (db w))
                  (responses_table (db w) ++ [r]) (answers_table (db w))
  /\ requests w1 = requests w ++ [InsertResponse i].
Proof.
  unfold insert_response, send. simpl.
  destruct (unreachable be _); [discriminate|].
  destruct (survey_exists _ _); simpl; [|discriminate].
  destruct (response_exists _ _); simpl; [discriminate|].
  intros [= <- <-]. simpl. auto.
Qed.

Lemma insert_answers_ok ps w w2 :
  insert_answers be ps w = (Ok tt, w2) ->
  db w2 = mkDb (surveys_table (db w)) (questions_table (db w))
               (responses_table (db w))
               (answers_table (db w)
                ++ number_from (answer_row be (generated w)) 0 ps)
  /\ requests w2 = requests w ++ [InsertAnswers ps].
Proof.
  unfold insert_answers, send. simpl.
  destruct (unreachable be _); [discriminate|].
  destruct (forallb _ ps); simpl; [|discriminate].
  destruct (forallb _ ps); simpl; [|discriminate].
  destruct (distinct _); simpl; [|discriminate].
  intros [= <-]. simpl. auto.
Qed.

Lemma insert_survey_ok p w r w1 :
  insert_survey be p w = (Ok r, w1) ->
  r = surveys.mk (gen_random_uuid be (generated w)) (ns_title p)
                 (Some (ns_description p)) (ns_status p)
  /\ db w1 = mkDb (surveys_table (db w) ++ [r]) (questions_table (db w))
                  (responses_table (db w)) (answers_table (db w))
  /\ requests w1 = requests w ++ [InsertSurvey p].
Proof.
  unfold insert_survey, send. simpl.
  destruct (unreachable be _); [discriminate|].
  destruct (status_check _); simpl; [|discriminate].
  destruct (survey_exists _ _); simpl; [discriminate|].
  intros [= <- <-]. simpl. auto.
Qed.

Lemma insert_questions_ok ps w w2 :
  insert_questions be ps w = (Ok tt, w2) ->
  db w2 = mkDb (surveys_table (db w))
               (questions_table (db w)
                ++ number_from (question_row be (generated w)) 0 ps)
               (responses_table (db w)) (answers_table (db w))
  /\ requests w2 = requests w ++ [InsertQuestions ps].
Proof.
  unfold insert_questions, send. simpl.
  destruct (unreachable be _); [discriminate|].
  destruct (forallb _ ps); simpl; [|discriminate].
  destruct (forallb _ ps); simpl; [|discriminate].
  destruct (distinct _); simpl; [|discriminate].
  intros [= <-]. simpl. auto.
Qed.
End StoreFacts.

(* ================================================================== *)
(** ** The survey runtime: validation and submission *)
(* ================================================================== *)

Section SubmitFacts.
Import Supabase TakeSurvey.

Lemma falsy_lookup (o : Js.object string) (k : string) :
  own_name k ->
  truthy (get o k) = false
  <-> Js.own o k = None \/ Js.own o k = Some EmptyString.
Proof.
  unfold own_name, get. intros Hk.
  destruct (Js.own o k) as [v|]; simpl.
  - unfold Js.truthy_string. rewrite negb_false_iff, String.eqb_eq.
    split.
    + intros ->. now right.
    + intros [H|H]; congruence.
  - rewrite Hk. simpl. tauto.
Qed.

Lemma missingAnswers_in (s : State) (q : Question) :
  own_name (questions.id q) ->
  In q (missingAnswers s)
  <-> In q (questions s) /\ unanswered (answers s) q.
Proof.
  intros Hk. unfold missingAnswers, unanswered.
  rewrite !filter_In, negb_true_iff, (falsy_lookup _ _ Hk). tauto.
Qed.

Lemma missing_iff (s : State) :
  Forall (fun q => own_name (questions.id q)) (questions s) ->
  (0 <? List.length (missingAnswers s))%nat = true
  <-> Exists (unanswered (answers s)) (questions s).
Proof.
  intros Hids. rewrite Forall_forall in Hids.
  rewrite Nat.ltb_lt, Exists_exists. split.
  - destruct (missingAnswers s) as [|q r] eqn:E; simpl; [lia|].
    intros _. exists q.
    assert (Hin : In q (missingAnswers s)) by (rewrite E; now left).
    assert (Hq : In q (questions s)).
    { unfold missingAnswers in Hin. rewrite !filter_In in Hin. tauto. }
    apply missingAnswers_in; auto.
  - intros [q [Hq Hu]].
    assert (Hin : In q (missingAnswers s))
      by (apply missingAnswers_in; auto).
    destruct (missingAnswers s); simpl in *; [tauto | lia].
Qed.
End SubmitFacts.

Section SubmitTheorems.
Import Supabase TakeSurvey.

Lemma answer_rows_entries be g (r : responses.row) (s : State) :
  map (fun a => (answers.question_id a, answers.answer_value a))
      (number_from (answer_row be g) 0 (answersToInsert r s))
  = Js.entries (answers s).
Proof.
  rewrite (number_from_map _ _
             (fun p => (na_question_id p, na_answer_value p)))
    by reflexivity.
  unfold answersToInsert. rewrite map_map.
  rewrite <- (map_id (Js.entries (answers s))) at 2.
  apply map_ext. now intros [k v].
Qed.

Lemma answer_rows_response be g (r : responses.row) (s : State) a :
  In a (number_from (answer_row be g) 0 (answersToInsert r s)) ->
  answers.response_id a = responses.id r.
Proof.
  intros Hin. apply (in_map answers.response_id) in Hin.
  rewrite (number_from_map _ _ na_response_id) in Hin by reflexivity.
  unfold answersToInsert in Hin. rewrite map_map in Hin.
  apply in_map_iff in Hin. destruct Hin as [[k v] [H _]]. now simpl in H.
Qed.

Lemma handleSubmit_rejected be id (s : State) (w : World) :
  (0 <? List.length (missingAnswers s))%nat = true ->
  handleSubmit be id s w
  = (show (toast_error "Please answer all required questions") s, w).
Proof. intros H. unfold handleSubmit. now rewrite H. Qed.

Lemma handleSubmit_accepted be id (s : State) (w : World) r w1 w2 :
  (0 <? List.length (missingAnswers s))%nat = false ->
  insert_response be id w = (Ok r, w1) ->
  insert_answers be (answersToInsert r s) w1 = (Ok tt, w2) ->
  handleSubmit be id s w
  = (setSubmitting false
       (show (toast_success "Survey submitted successfully!")
             (setSubmitted true (setSubmitting true s))), w2)
  /\ db w2 = mkDb (surveys_table (db w)) (questions_table (db w))
                  (responses_table (db w) ++ [r])
                  (answers_table (db w)
                   ++ number_from (answer_row be (generated w1)) 0
                                  (answersToInsert r s))
  /\ responses.survey_id r = id.
Proof.
  intros Hpass Hresp Hans.
  destruct (insert_response_ok _ _ _ _ _ Hresp) as [Hr [Hdb1 _]].
  destruct (insert_answers_ok _ _ _ _ Hans) as [Hdb2 _].
  split; [|split].
  - unfold handleSubmit. rewrite Hpass.
    change (answers (setSubmitting true s)) with (answers s).
    rewrite Hresp.
    change (answersToInsert r (setSubmitting true s))
      with (answersToInsert r s).
    now rewrite Hans.
  - rewrite Hdb2, Hdb1. reflexivity.
  - now rewrite Hr.
Qed.

Lemma not_missing (s : State) :
  Forall (fun q => own_name (questions.id q)) (questions s) ->
  ~ Exists (unanswered (answers s)) (questions s) ->
  (0 <? List.length (missingAnswers s))%nat = false.
Proof.
  intros Hids Hnone.
  destruct (0 <? _)%nat eqn:E; auto.
  destruct Hnone. now apply (missing_iff s Hids).
Qed.

(** C1 (as amended).  If some required question has no accumulated entry
    or an empty-string one, [handleSubmit] only reports the validation
    error: no request is sent and the store is unchanged.  Otherwise,
    when the store accepts the two inserts, the store gains exactly one
    Response row, for this survey, and exactly one Answer row per
    accumulated entry, carrying the entry's question identifier and value
    and the identifier of that Response; a question without an entry
    gets no Answer row. *)
Theorem submit_validates_then_inserts
        (be : Backend) (id : string) (s : State) (w : World)
        (Hwf : NoDup (map fst (answers s)))
        (Hids : Forall (fun q => own_name (questions.id q)) (questions s)) :
  (Exists (unanswered (answers s)) (questions s) ->
   handleSubmit be id s w
   = (show (toast_error "Please answer all required questions") s, w))
  /\
  (~ Exists (unanswered (answers s)) (questions s) ->
   forall r w1 w2,
     insert_response be id w = (Ok r, w1) ->
     insert_answers be (answersToInsert r s) w1 = (Ok tt, w2) ->
     exists rows : list answers.row,
       handleSubmit be id s w
       = (setSubmitting false
            (show (toast_success "Survey submitted successfully!")
                  (setSubmitted true (setSubmitting true s))), w2)
       /\ db w2 = mkDb (surveys_table (db w)) (questions_table (db w))
                       (responses_table (db w) ++ [r])
                       (answers_table (db w) ++ rows)
       /\ responses.survey_id r = id
       /\ List.length rows = List.length (answers s)
       /\ NoDup (map answers.question_id rows)
       /\ (forall a, In a rows -> answers.response_id a = responses.id r)
       /\ (forall k v,
              Js.own (answers s) k = Some v
              <-> exists a, In a rows /\ answers.question_id a = k
                            /\ answers.answer_value a = v)).
Proof.
  split.
  - intros Hex. apply handleSubmit_rejected. now apply missing_iff.
  - intros Hnone r w1 w2 Hresp Hans.
    destruct (handleSubmit_accepted be id s w r w1 w2
                (not_missing s Hids Hnone) Hresp Hans) as [Hrun [Hdb Hr]].
    set (rows := number_from (answer_row be (generated w1)) 0
                             (answersToInsert r s)) in *.
    assert (Hrows : map (fun a => (answers.question_id a,
                                   answers.answer_value a)) rows
                    = Js.entries (answers s))
      by apply answer_rows_entries.
    assert (Hperm : Permutation (Js.entries (answers s)) (answers s))
      by apply entries_perm.
    exists rows.
    split; [exact Hrun|].
    split; [exact Hdb|].
    split; [exact Hr|].
    split; [|split; [|split]].
    + unfold rows. rewrite number_from_length. unfold answersToInsert.
      rewrite length_map. apply Permutation_length, Hperm.
    + replace (map answers.question_id rows)
        with (map fst (map (fun a => (answers.question_id a,
                                      answers.answer_value a)) rows))
        by (rewrite map_map; reflexivity).
      rewrite Hrows.
      eapply Permutation_NoDup; [|exact Hwf].
      apply Permutation_sym, Permutation_map, Hperm.
    + intros a. apply answer_rows_response.
    + intros k v. rewrite (own_in _ _ _ Hwf). split.
      * intros Hin.
        apply (Permutation_in _ (Permutation_sym Hperm)) in Hin.
        rewrite <- Hrows in Hin. apply in_map_iff in Hin.
        destruct Hin as [a [[= Hk Hv] Ha]]. exists a. auto.
      * intros [a [Ha [Hk Hv]]].
        apply (Permutation_in _ Hperm). rewrite <- Hrows.
        apply in_map_iff. exists a. split; [congruence | assumption].
Qed.
End SubmitTheorems.

(** C2 as specified does not hold: the answers to [q_size] arrive as 10, 2,
    10, so the order of first occurrence is 10 then 2, but the pairs come
    out with 2 first. *)
Lemma choice_analytics_numeric_values_reordered :
  SurveyResults.getQuestionAnalytics Sample.collected Sample.q_size
  = SurveyResults.Counts [("2", 1); ("10", 2)]
  /\ first_occurrences (values_for Sample.q_size Sample.collected)
     = ["10"; "2"]
  /\ map fst [("2", 1); ("10", 2)]
     <> first_occurrences (values_for Sample.q_size Sample.collected).
Proof.
  split; [reflexivity|]. split; [reflexivity|]. discriminate.
Qed.

(** The tally of the sample answers to [q_size]. *)
Lemma choice_analytics_tally_witness :
  exists indexed named : list (string * nat),
    SurveyResults.getQuestionAnalytics Sample.collected Sample.q_size
    = SurveyResults.Counts (indexed ++ named)
    /\ Sorted index_le (map fst indexed)
    /\ map fst named
       = filter (fun v => negb (Js.is_array_index v))
                (first_occurrences (values_for Sample.q_size Sample.collected)).
Proof.
  destruct (proj1 choice_analytics_tally Sample.collected Sample.q_size)
    as [indexed [named [H1 [_ [_ [_ [H5 [H6 _]]]]]]]].
  - reflexivity.
  - repeat constructor.
  - exists indexed, named. auto.
Defined.

(** C1 as specified does not hold: every required question of the page has
    an accumulated entry, yet [handleSubmit] reports the validation error
    and inserts nothing, because the entry is the empty string. *)
Lemma submit_blocked_by_empty_entry :
  let s := Sample.taking [("q1", EmptyString)] in
  (forall q, In q (TakeSurvey.questions s) ->
             Supabase.questions.required q = true ->
             Js.own (TakeSurvey.answers s) (Supabase.questions.id q) <> None)
  /\ TakeSurvey.handleSubmit Sample.backend "s1" s Sample.world
     = (TakeSurvey.show (toast_error "Please answer all required questions") s,
        Sample.world).
Proof.
  split; [|reflexivity].
  intros q [<-|[<-|[<-|[<-|[]]]]]; simpl; discriminate.
Qed.

(** A submission of the sample page that the store accepts. *)
Lemma submit_validates_then_inserts_witness :
  let s := Sample.taking [("q1", "Platform"); ("q2", "4")] in
  exists (w2 : Supabase.World) (rows : list Supabase.answers.row),
    snd (TakeSurvey.handleSubmit Sample.backend "s1" s Sample.world) = w2
    /\ Supabase.responses_table (Supabase.db w2)
       = [Supabase.responses.mk "id-0" "s1"]
    /\ Supabase.answers_table (Supabase.db w2) = rows
    /\ List.length rows = 2.
Proof.
  intros s.
  pose (r := Supabase.responses.mk "id-0" "s1").
  pose (w1 := snd (Supabase.insert_response Sample.backend "s1" Sample.world)).
  pose (w2 := snd (Supabase.insert_answers Sample.backend
                     (TakeSurvey.answersToInsert r s) w1)).
  assert (Hwf : NoDup (map fst (TakeSurvey.answers s))) by distinct_keys.
  assert (Hids : Forall (fun q => own_name (Supabase.questions.id q))
                        (TakeSurvey.questions s))
    by (repeat constructor).
  assert (Hall : ~ Exists (unanswered (TakeSurvey.answers s))
                          (TakeSurvey.questions s)) by none_unanswered.
  destruct (proj2 (submit_validates_then_inserts
                     Sample.backend "s1" s Sample.world Hwf Hids)
                  Hall r w1 w2 eq_refl eq_refl)
    as [rows [Hrun [Hdb [_ [Hlen _]]]]].
  exists w2, rows. split; [now rewrite Hrun|].
  rewrite Hdb. simpl. auto.
Defined.

Section EmptyAnswer.
Import Supabase TakeSurvey.

Lemma set_same_keys (o : Js.object string) (k v v' : string) :
  Js.own o k = Some v -> map fst (Js.set o k v') = map fst o.
Proof.
  intros H. apply keys_set_present.
  destruct (in_dec string_dec k (map fst o)) as [Hin|Hout]; auto.
  apply own_none_not_in in Hout. congruence.
Qed.

End EmptyAnswer.

(* ================================================================== *)
(** ** The builder: validation and what is stored *)
(* ================================================================== *)

Section TrimFacts.

Lemma strip_white_space (w rest : string) :
  In w Js.white_space ->
  Js.strip_any Js.white_space (w ++ rest) = Some rest.
Proof.
  intros H. cbv in H.
  repeat (destruct H as [<-|H]; [reflexivity|]).
  contradiction.
Qed.

Lemma white_space_nonempty (w : string) :
  In w Js.white_space -> (1 <= String.length w)%nat.
Proof.
  intros H. cbv in H.
  repeat (destruct H as [<-|H]; [simpl; lia|]).
  contradiction.
Qed.

Lemma string_length_append (a b : string) :
  String.length (a ++ b) = (String.length a + String.length b)%nat.
Proof. induction a; simpl; auto. Qed.

Lemma strip_leading_step (ps : list string) (fuel : nat) (s : string) :
  Js.strip_leading ps (S fuel) s
  = match Js.strip_any ps s with
    | Some r => Js.strip_leading ps fuel r
    | None => s
    end.
Proof. reflexivity. Qed.

Lemma strip_leading_blank (ws : list string) (fuel : nat) :
  Forall (fun w => In w Js.white_space) ws ->
  (String.length (fold_right String.append EmptyString ws) <= fuel)%nat ->
  Js.strip_leading Js.white_space fuel
                   (fold_right String.append EmptyString ws)
  = EmptyString.
Proof.
  intros Hws. revert fuel.
  induction Hws as [|w r Hw Hr IH]; intros fuel Hlen.
  - destruct fuel; reflexivity.
  - change (fold_right String.append EmptyString (w :: r))
      with (w ++ fold_right String.append EmptyString r)%string in *.
    rewrite string_length_append in Hlen.
    pose proof (white_space_nonempty w Hw).
    destruct fuel as [|fuel]; [lia|].
    rewrite strip_leading_step, (strip_white_space _ _ Hw).
    apply IH. lia.
Qed.

Lemma trim_blank (s : string) : blank s -> Js.trim s = EmptyString.
Proof.
  intros [ws [Hws ->]]. unfold Js.trim, Js.trimStart.
  now rewrite strip_leading_blank.
Qed.

End TrimFacts.

Section SaveTheorems.
Import Supabase CreateSurvey.

(** C6.  With a title that is empty or white space only, or with a question
    whose text is empty (or white space only), [saveSurvey] only reports a
    validation error: the world is returned as it was, so no request at all
    is sent to the store, and no Survey or Question row is inserted. *)
Theorem save_rejects_blank_title_or_text
        (be : Backend) (status : Status) (s : State) (w : World) :
  blank (title s) \/ Exists (fun q => blank (text q)) (questions s) ->
  exists message,
    saveSurvey be status s w = (show (toast_error message) s, w)
    /\ requests (snd (saveSurvey be status s w)) = requests w
    /\ db (snd (saveSurvey be status s w)) = db w.
Proof.
  intros H.
  assert (Hrun : exists message,
             saveSurvey be status s w = (show (toast_error message) s, w)).
  { unfold saveSurvey.
    destruct (negb (Js.truthy_string (Js.trim (title s)))) eqn:Et.
    - eexists. reflexivity.
    - destruct H as [Ht|Hq].
      + rewrite (trim_blank _ Ht) in Et. discriminate.
      + assert (Hex : existsb
                        (fun q => negb (Js.truthy_string (Js.trim (text q))))
                        (questions s) = true).
        { apply existsb_exists. apply Exists_exists in Hq.
          destruct Hq as [q [Hin Hb]]. exists q. split; auto.
          now rewrite (trim_blank _ Hb). }
        rewrite Hex. eexists. reflexivity. }
  destruct Hrun as [message Hrun]. exists message.
  rewrite Hrun. auto.
Qed.

Lemma question_rows_stored be (g k : nat) (survey : surveys.row)
      (qs : list Question) :
  Forall2
    (fun q row =>
       questions.survey_id row = surveys.id survey
       /\ questions.type row = type q
       /\ questions.text row = text q
       /\ questions.required row = required q
       /\ questions.order_index row = order_index q
       /\ questions.options row = stored_options (options q))
    qs (number_from (question_row be g) k (questionsToInsert survey qs)).
Proof.
  revert k. induction qs as [|q r IH]; intros k; simpl; constructor.
  - repeat split. simpl.
    destruct (options q) as [[|x o]|]; reflexivity.
  - apply IH.
Qed.

(** C7 (as amended).  [saveSurvey] does not look at the options when it
    validates: whenever the title and every question text are not blank and
    the store accepts the two inserts, the save succeeds and every question
    is stored as a Question row with its type, text, required flag and
    order index; the options column holds the options list when it has at
    least one element and null otherwise, so a multiple_choice or dropdown
    question whose options list is empty is stored, with null options. *)
Theorem save_stores_empty_options_as_null
        (be : Backend) (status : Status) (s : State) (w : World)
        (survey : surveys.row) (w1 w2 : World) :
  Js.trim (title s) <> EmptyString ->
  Forall (fun q => Js.trim (text q) <> EmptyString) (questions s) ->
  insert_survey be
    (mkNewSurvey (title s) (description s) (status_text status)) w
  = (Ok survey, w1) ->
  insert_questions be (questionsToInsert survey (questions s)) w1
  = (Ok tt, w2) ->
  exists (rows : list questions.row) (message : string),
    saveSurvey be status s w
    = (setSaving false
         (navigate "/" (show (toast_success message) (setSaving true s))), w2)
    /\ questions_table (db w2) = questions_table (db w) ++ rows
    /\ Forall2
         (fun q row =>
            questions.survey_id row = surveys.id survey
            /\ questions.type row = type q
            /\ questions.text row = text q
            /\ questions.required row = required q
            /\ questions.order_index row = order_index q
            /\ questions.options row = stored_options (options q))
         (questions s) rows.
Proof.
  intros Ht Hq Hsurvey Hquestions.
  destruct (insert_survey_ok _ _ _ _ _ Hsurvey) as [_ [Hdb1 _]].
  destruct (insert_questions_ok _ _ _ _ Hquestions) as [Hdb2 _].
  exists (number_from (question_row be (generated w1)) 0
                      (questionsToInsert survey (questions s))).
  eexists.
  split; [|split].
  - unfold saveSurvey.
    assert (E1 : negb (Js.truthy_string (Js.trim (title s))) = false).
    { unfold Js.truthy_string. rewrite negb_involutive.
      now apply String.eqb_neq. }
    assert (E2 : existsb
                   (fun q => negb (Js.truthy_string (Js.trim (text q))))
                   (questions s) = false).
    { destruct (existsb _ _) eqn:E; auto.
      apply existsb_exists in E. destruct E as [q [Hin E]].
      rewrite Forall_forall in Hq. specialize (Hq q Hin).
      unfold Js.truthy_string in E. rewrite negb_involutive in E.
      apply String.eqb_eq in E. contradiction. }
    rewrite E1, E2.
    change (title (setSaving true s)) with (title s).
    change (description (setSaving true s)) with (description s).
    rewrite Hsurvey.
    change (questions (setSaving true s)) with (questions s).
    rewrite Hquestions. reflexivity.
  - rewrite Hdb2, Hdb1. reflexivity.
  - apply question_rows_stored.
Qed.

End SaveTheorems.

(** Saving the builder as it opens, with no title yet. *)
Lemma save_rejects_blank_title_or_text_witness :
  exists message,
    CreateSurvey.saveSurvey Sample.backend CreateSurvey.draft
                            CreateSurvey.initial Sample.empty_world
    = (CreateSurvey.show (toast_error message) CreateSurvey.initial,
       Sample.empty_world).
Proof.
  destruct (save_rejects_blank_title_or_text
              Sample.backend CreateSurvey.draft CreateSurvey.initial
              Sample.empty_world) as [message [Hrun _]].
  - left. exists []. split; [constructor | reflexivity].
  - exists message. exact Hrun.
Defined.

(** C7 as specified does not hold: the builder holds a multiple_choice
    question whose options list is empty, and publishing it succeeds and
    stores the Question row. *)
Lemma save_accepts_choice_without_options :
  CreateSurvey.questions Sample.building
  = [CreateSurvey.mkQuestion "multiple_choice" "Where do we eat?" (Some [])
                             true 0]
  /\ exists s' w',
       CreateSurvey.saveSurvey Sample.backend CreateSurvey.published
                               Sample.building Sample.empty_world
       = (s', w')
       /\ CreateSurvey.toasts s'
          = [toast_success "Survey published successfully!"]
       /\ Supabase.questions_table (Supabase.db w')
          = [Supabase.questions.mk "id-1" "id-0" "multiple_choice"
                                   "Where do we eat?" None true 0].
Proof.
  split; [reflexivity|].
  eexists. eexists. split; [reflexivity|]. split; reflexivity.
Qed.

(** Publishing the sample builder state. *)
Lemma save_stores_empty_options_as_null_witness :
  exists rows : list Supabase.questions.row,
    Supabase.questions_table
      (Supabase.db
         (snd (CreateSurvey.saveSurvey Sample.backend CreateSurvey.published
                                       Sample.building Sample.empty_world)))
    = rows
    /\ Forall (fun row => Supabase.questions.options row = None) rows.
Proof.
  pose (p := Supabase.mkNewSurvey "Lunch" EmptyString "published").
  pose (survey := Supabase.surveys.mk "id-0" "Lunch" (Some EmptyString)
                                      "published").
  pose (w1 := snd (Supabase.insert_survey Sample.backend p Sample.empty_world)).
  pose (w2 := snd (Supabase.insert_questions Sample.backend
                     (CreateSurvey.questionsToInsert
                        survey (CreateSurvey.questions Sample.building)) w1)).
  destruct (save_stores_empty_options_as_null
              Sample.backend CreateSurvey.published Sample.building
              Sample.empty_world survey w1 w2)
    as [rows [message [Hrun [Hdb Hrows]]]].
  - discriminate.
  - repeat constructor. discriminate.
  - reflexivity.
  - reflexivity.
  - exists rows. rewrite Hrun. cbn [snd]. rewrite Hdb. split; [reflexivity|].
    inversion Hrows as [|q row qs rs [_ [_ [_ [_ [_ Ho]]]]] Hrest]; subst.
    inversion Hrest; subst. repeat constructor. exact Ho.
Defined.

(* ================================================================== *)
(** ** Loading: the runtime page and the results page *)
(* ================================================================== *)

Section LoadTheorems.
Import Supabase.

Lemma no_published_row (d : Db) (id : string) :
  Forall (fun r => surveys.id r = id -> surveys.status r <> "published")
         (surveys_table d) ->
  filter (fun r => (surveys.id r =? id) && (surveys.status r =? "published"))
         (surveys_table d) = [].
Proof.
  induction 1 as [|r l Hr Hl IH]; simpl; auto.
  destruct (surveys.id r =? id) eqn:Ei; simpl; auto.
  destruct (surveys.status r =? "published") eqn:Es; auto.
  apply String.eqb_eq in Ei, Es. now apply Hr in Ei.
Qed.

Lemma fetchSurvey_unavailable be id (s : TakeSurvey.State) (d : Db) log g :
  Forall (fun r => surveys.id r = id -> surveys.status r <> "published")
         (surveys_table d) ->
  fst (TakeSurvey.fetchSurvey be id s (mkWorld d log g))
  = TakeSurvey.setLoading false
      (TakeSurvey.console_error
         (if unreachable be (List.length log) then FetchFailed
          else NoSingleRow 0)
         (TakeSurvey.show (toast_error "Survey not found or unavailable") s))
  /\ requests (snd (TakeSurvey.fetchSurvey be id s (mkWorld d log g)))
     = log ++ [SelectSurvey id (Some "published"); SelectQuestions id].
Proof.
  intros H. unfold TakeSurvey.fetchSurvey, select_survey, select_questions, send.
  simpl. rewrite (no_published_row d id H). simpl.
  destruct (unreachable be (List.length log));
    destruct (unreachable be _);
    simpl; rewrite <- app_assoc; auto.
Qed.

(** C8.  Loading the runtime page for an identifier whose survey is not
    published (a draft, say) and loading it for an identifier no survey
    has are indistinguishable: from the same page state and session, the
    two loads leave the same page state (the same notification, the same
    logged error, no survey and no questions) and send the same requests.
    When the store is reachable, that state is the one with the
    notification that the survey was not found or is unavailable. *)
Theorem unpublished_load_looks_like_missing
        (be : Backend) (id : string) (s : TakeSurvey.State)
        (d1 d2 : Db) (log : list request) (g : nat) :
  Forall (fun r => surveys.id r = id -> surveys.status r <> "published")
         (surveys_table d1) ->
  Forall (fun r => surveys.id r <> id) (surveys_table d2) ->
  fst (TakeSurvey.fetchSurvey be id s (mkWorld d1 log g))
  = fst (TakeSurvey.fetchSurvey be id s (mkWorld d2 log g))
  /\ requests (snd (TakeSurvey.fetchSurvey be id s (mkWorld d1 log g)))
     = requests (snd (TakeSurvey.fetchSurvey be id s (mkWorld d2 log g)))
  /\ (unreachable be (List.length log) = false ->
      fst (TakeSurvey.fetchSurvey be id s (mkWorld d1 log g))
      = TakeSurvey.setLoading false
          (TakeSurvey.console_error (NoSingleRow 0)
             (TakeSurvey.show
                (toast_error "Survey not found or unavailable") s))).
Proof.
  intros H1 H2.
  assert (H2' : Forall (fun r => surveys.id r = id ->
                                 surveys.status r <> "published")
                       (surveys_table d2)).
  { eapply Forall_impl; [|exact H2]. intros r Hne He. contradiction. }
  destruct (fetchSurvey_unavailable be id s d1 log g H1) as [E1 R1].
  destruct (fetchSurvey_unavailable be id s d2 log g H2') as [E2 R2].
  split; [congruence|]. split; [congruence|].
  intros Hup. rewrite E1, Hup. reflexivity.
Qed.

Lemma send_reached {A : Type} be (r : request) (w : World)
      (run : World -> result A * World) :
  unreachable be (List.length (requests w)) = false ->
  send be r w run = run (mkWorld (db w) (requests w ++ [r]) (generated w)).
Proof. intros H. unfold send. now rewrite H. Qed.

Lemma send_dropped {A : Type} be (r : request) (w : World)
      (run : World -> result A * World) :
  unreachable be (List.length (requests w)) = true ->
  send be r w run
  = (Err FetchFailed, mkWorld (db w) (requests w ++ [r]) (generated w)).
Proof. intros H. unfold send. now rewrite H. Qed.

(** The sibling checks of [fetchData]: a failed Survey fetch aborts the
    load and surfaces one error. *)
Lemma results_load_aborts_on_survey_error
      be (id : string) (s : SurveyResults.State) (w : World) :
  unreachable be (List.length (requests w)) = true ->
  fst (SurveyResults.fetchData be id s w)
  = SurveyResults.setLoading false
      (SurveyResults.console_error FetchFailed
         (SurveyResults.show (toast_error "Failed to load survey results") s)).
Proof.
  intros U0. unfold SurveyResults.fetchData, select_survey.
  rewrite (send_dropped be _ w) by exact U0.
  destruct (select_questions be id _) as [questionsRes w1].
  destruct (select_response_ids be id w1) as [responsesRes w2].
  reflexivity.
Qed.

(** C9.  What [fetchData] does when the Survey and Questions fetches
    succeed and the Response fetch fails: it shows and logs no error, and
    finishes the load with the survey, its questions and a response count
    of zero. *)
Theorem results_load_ignores_failed_response_fetch
        (be : Backend) (id : string) (s : SurveyResults.State) (w : World)
        (sv : surveys.row) :
  unreachable be (List.length (requests w)) = false ->
  unreachable be (S (List.length (requests w))) = false ->
  unreachable be (S (S (List.length (requests w)))) = true ->
  filter (fun r => surveys.id r =? id) (surveys_table (db w)) = [sv] ->
  exists qs : list questions.row,
    fst (SurveyResults.fetchData be id s w)
    = SurveyResults.setLoading false
        (SurveyResults.setResponseCount 0
           (SurveyResults.setQuestions qs
              (SurveyResults.setSurvey (Some sv) s)))
    /\ SurveyResults.toasts (fst (SurveyResults.fetchData be id s w))
       = SurveyResults.toasts s
    /\ SurveyResults.console (fst (SurveyResults.fetchData be id s w))
       = SurveyResults.console s.
Proof.
  intros U0 U1 U2 Hsv.
  exists (order_by_index
            (filter (fun r => questions.survey_id r =? id)
                    (questions_table (db w)))).
  assert (Hrun :
            fst (SurveyResults.fetchData be id s w)
            = SurveyResults.setLoading false
                (SurveyResults.setResponseCount 0
                   (SurveyResults.setQuestions
                      (order_by_index
                         (filter (fun r => questions.survey_id r =? id)
                                 (questions_table (db w))))
                      (SurveyResults.setSurvey (Some sv) s)))).
  { unfold SurveyResults.fetchData, select_survey, select_questions,
      select_response_ids.
    rewrite (send_reached be _ w) by exact U0.
    cbn [db requests generated].
    rewrite (filter_ext _ (fun r => surveys.id r =? id))
      by (intros r; apply andb_true_r).
    rewrite Hsv. cbn [single].
    rewrite send_reached
      by (cbn [requests]; rewrite length_app, Nat.add_1_r; exact U1).
    cbn [db requests generated].
    rewrite send_dropped
      by (cbn [requests]; rewrite !length_app, !Nat.add_1_r; exact U2).
    reflexivity. }
  rewrite Hrun. split; [reflexivity|]. split; reflexivity.
Qed.

End LoadTheorems.

(** The draft [offsite] against a store that has no survey at all. *)
Lemma unpublished_load_looks_like_missing_witness :
  fst (TakeSurvey.fetchSurvey Sample.backend "s2" TakeSurvey.initial
                              Sample.world)
  = fst (TakeSurvey.fetchSurvey Sample.backend "s2" TakeSurvey.initial
                                Sample.empty_world).
Proof.
  refine (proj1 (unpublished_load_looks_like_missing
                   Sample.backend "s2" TakeSurvey.initial
                   Sample.store (Supabase.mkDb [] [] [] []) [] 0 _ _)).
  - repeat constructor; simpl; intros; discriminate.
  - constructor.
Defined.

(** The results page of [pulse] when the responses request is dropped:
    two responses are stored, none is counted and no error is shown. *)
Lemma results_load_ignores_failed_response_fetch_witness :
  SurveyResults.responseCount
    (fst (SurveyResults.fetchData Sample.flaky "s1" SurveyResults.initial
                                  Sample.answered_world)) = 0
  /\ SurveyResults.toasts
       (fst (SurveyResults.fetchData Sample.flaky "s1" SurveyResults.initial
                                     Sample.answered_world)) = []
  /\ List.length
       (Supabase.responses_table (Supabase.db Sample.answered_world)) = 2.
Proof.
  destruct (results_load_ignores_failed_response_fetch
              Sample.flaky "s1" SurveyResults.initial Sample.answered_world
              Sample.pulse eq_refl eq_refl eq_refl eq_refl)
    as [qs [Hrun [Ht _]]].
  rewrite Ht, Hrun. simpl. auto.
Defined.

(* ================================================================== *)
(** ** The exported file *)
(* ================================================================== *)

Section ExportFacts.
Import Supabase SurveyResults.

Lemma fold_left_push {A B : Type} (f : A -> B) (l : list A) (rows : list B) :
  fold_left (fun rows item => rows ++ [f item]) l rows = rows ++ map f l.
Proof.
  revert rows. induction l as [|x r IH]; intros rows; simpl.
  - now rewrite app_nil_r.
  - rewrite IH, <- app_assoc. reflexivity.
Qed.

Lemma texts_of_other_type (answers : list Answer) (q : Question) :
  is_choice (questions.type q) = false ->
  (questions.type q =? "rating") = false ->
  as_texts (getQuestionAnalytics answers q) = values_for q answers.
Proof.
  intros Hc Hr. unfold getQuestionAnalytics. now rewrite Hc, Hr.
Qed.

Lemma push_question_rows (answers : list Answer) (rows : list csvRow)
      (q : Question) :
  exists block : list csvRow,
    push_question answers rows q = rows ++ block
    /\ map row_text block = question_block answers q.
Proof.
  unfold push_question, question_block, analytics_lines.
  destruct (is_choice (questions.type q)) eqn:Hc;
    [|destruct (questions.type q =? "rating") eqn:Hr].
  - rewrite (fold_left_push
               (fun item =>
                  Line (Js.join "," [fst item;
                                     Js.decimal (N.of_nat (snd item))]))).
    eexists. split.
    + rewrite <- !app_assoc. reflexivity.
    + simpl. rewrite map_app, map_map. reflexivity.
  - eexists. split.
    + rewrite <- !app_assoc. reflexivity.
    + reflexivity.
  - rewrite (fold_left_push (fun answer => Cells [quoted answer])).
    rewrite (texts_of_other_type _ _ Hc Hr).
    eexists. split.
    + rewrite <- !app_assoc. reflexivity.
    + simpl. rewrite map_app, map_map. reflexivity.
Qed.

Lemma push_questions_rows (answers : list Answer) (qs : list Question)
      (rows : list csvRow) :
  map row_text (fold_left (push_question answers) qs rows)
  = map row_text rows ++ flat_map (question_block answers) qs.
Proof.
  revert rows. induction qs as [|q r IH]; intros rows; simpl.
  - now rewrite app_nil_r.
  - destruct (push_question_rows answers rows q) as [block [Hpush Hblock]].
    rewrite IH, Hpush, map_app, Hblock, <- app_assoc. reflexivity.
Qed.

Lemma halve_double_quotes (a : string) :
  halve_quotes false (Js.double_quotes a) = a.
Proof.
  induction a as [|c r IH]; simpl; auto.
  destruct (Ascii.eqb c Js.dquote) eqn:E; simpl; rewrite E; simpl;
    now rewrite IH.
Qed.

(** C5 (as amended).  [exportData] writes, to the file
    survey-results-<id>.csv, these lines joined by line feeds: the survey
    title line, the total response count line and a blank line; then, for
    each question in order, the question text, its analytics lines and a
    blank line.  The analytics lines are one label,count line per counted
    value for a choice question, one Average Rating line for a rating
    question, and otherwise each answer to the question on a line of its
    own, between double quotes and with its double quotes doubled (so that
    halving them gives the answer back).  Nothing else is escaped.  The
    answers to choice questions are taken not to be names that objects
    inherit, as for the tally. *)
Theorem export_csv_layout (id : string) (s : State) :
  (forall q, In q (questions s) -> is_choice (questions.type q) = true ->
             Forall own_name (values_for q (answers s))) ->
  fst (exportData id s)
  = mkDownload ("survey-results-" ++ id ++ ".csv")
               (Js.join newline (csv_lines s))
  /\ (forall answer,
         quoted answer
         = String Js.dquote
                  (Js.double_quotes answer ++ String Js.dquote EmptyString)
         /\ halve_quotes false (Js.double_quotes answer) = answer).
Proof.
  intros _. split.
  - unfold exportData, csv_lines. cbn [fst]. f_equal. f_equal.
    rewrite push_questions_rows. reflexivity.
  - intros answer. split; [reflexivity | apply halve_double_quotes].
Qed.

End ExportFacts.

(** C5 as specified does not hold: the file has a blank line after the two
    summary lines and one after the last question, where the layout of the
    specification has a blank line between questions only. *)
Lemma export_has_more_blank_lines :
  SurveyResults.content (fst (SurveyResults.exportData "s1" Sample.results))
  = Js.join SurveyResults.newline
      [ "Survey,Team pulse"; "Total Responses,3"; EmptyString;
        "How many people are on your team?"; "2,1"; "10,2"; EmptyString;
        "How was your week?"; "Average Rating,4.0"; EmptyString ]
  /\ specified_lines Sample.results
     = [ "Survey,Team pulse"; "Total Responses,3";
         "How many people are on your team?"; "2,1"; "10,2"; EmptyString;
         "How was your week?"; "Average Rating,4.0" ]
  /\ SurveyResults.content (fst (SurveyResults.exportData "s1" Sample.results))
     <> Js.join SurveyResults.newline (specified_lines Sample.results).
Proof.
  split; [vm_compute; reflexivity|].
  split; [vm_compute; reflexivity|].
  vm_compute. discriminate.
Qed.

(* ================================================================== *)
(** ** Numbers: what rounding to a double preserves *)
(* ================================================================== *)

Section NumberFacts.
Local Open Scope Q_scope.

Lemma two_nonzero : ~ (2 # 1) == 0.
Proof. intros H. discriminate H. Qed.

Lemma pow2_pos (e : Z) : 0 < Js.pow2 e.
Proof. apply Qpower_0_lt. reflexivity. Qed.

Lemma pow2_plus (a b : Z) : Js.pow2 (a + b) == Js.pow2 a * Js.pow2 b.
Proof. apply Qpower_plus, two_nonzero. Qed.

Lemma pow2_le (a b : Z) : (a <= b)%Z -> Js.pow2 a <= Js.pow2 b.
Proof.
  intros H. apply Qpower_le_compat_l; [exact H|]. discriminate.
Qed.

Lemma pow2_lt_inv (a b : Z) : Js.pow2 a < Js.pow2 b -> (a < b)%Z.
Proof.
  intros H. apply (Qpower_lt_compat_l_inv (2 # 1)); [exact H | reflexivity].
Qed.

Lemma pow2_Z (n : Z) : (0 <= n)%Z -> Js.pow2 n == inject_Z (2 ^ n).
Proof. intros H. symmetry. apply (Zpower_Qpower 2 n H). Qed.

Lemma pow2_opp (e : Z) : Js.pow2 e * Js.pow2 (- e) == 1.
Proof.
  rewrite <- pow2_plus. replace (e + - e)%Z with 0%Z by lia. reflexivity.
Qed.

(** [ilog2] never overshoots. *)
Lemma ilog2_lower (q : Q) : 0 < q -> Js.pow2 (Js.ilog2 q) <= q.
Proof.
  intros Hq. unfold Js.ilog2.
  set (a := Qnum q). set (b := Zpos (Qden q)).
  set (la := Z.log2 a). set (lb := Z.log2 b).
  destruct (Qle_bool (Js.pow2 (la - lb)) q) eqn:E.
  - now apply Qle_bool_imp_le.
  - assert (Ha : (0 < a)%Z).
    { unfold Qlt in Hq. simpl in Hq. unfold a. lia. }
    assert (Hb : (0 < b)%Z) by (unfold b; lia).
    destruct (Z.log2_spec a Ha) as [Ha1 _].
    destruct (Z.log2_spec b Hb) as [_ Hb2].
    fold la in Ha1. fold lb in Hb2.
    assert (Hla : (0 <= la)%Z) by apply Z.log2_nonneg.
    assert (Hlb : (0 <= lb)%Z) by apply Z.log2_nonneg.
    set (P := Js.pow2 (la - lb - 1)).
    assert (HP : 0 < P) by apply pow2_pos.
    assert (H1 : P * inject_Z (2 ^ Z.succ lb) == inject_Z (2 ^ la)).
    { unfold P. rewrite <- !pow2_Z by lia. rewrite <- pow2_plus.
      replace (la - lb - 1 + Z.succ lb)%Z with la by lia. reflexivity. }
    assert (H2 : inject_Z b <= inject_Z (2 ^ Z.succ lb)).
    { rewrite <- Zle_Qle. lia. }
    assert (H3 : inject_Z (2 ^ la) <= inject_Z a).
    { rewrite <- Zle_Qle. lia. }
    assert (H4 : q * inject_Z b == inject_Z a).
    { unfold a, b. destruct q as [n d]. simpl.
      unfold Qeq, Qmult, inject_Z. simpl. lia. }
    assert (H5 : 0 < inject_Z b).
    { replace 0 with (inject_Z 0) by reflexivity. rewrite <- Zlt_Qlt. lia. }
    apply (Qmult_le_r _ _ (inject_Z b) H5).
    rewrite H4.
    apply Qle_trans with (P * inject_Z (2 ^ Z.succ lb)).
    + apply Qmult_le_l; assumption.
    + now rewrite H1.
Qed.

Lemma ilog2_lt (q : Q) (L : Z) : 0 < q -> q < Js.pow2 L -> (Js.ilog2 q < L)%Z.
Proof.
  intros Hq HL. apply pow2_lt_inv.
  eapply Qle_lt_trans; [apply ilog2_lower; exact Hq | exact HL].
Qed.

(** Rounding to the nearest integer. *)
Lemma round_half_even_near (q : Q) :
  q - (1 # 2) <= inject_Z (Js.round_half_even q)
  /\ inject_Z (Js.round_half_even q) <= q + (1 # 2).
Proof.
  unfold Js.round_half_even.
  pose proof (Qfloor_le q) as Hlo. pose proof (Qlt_floor q) as Hhi.
  rewrite inject_Z_plus in Hhi. change (inject_Z 1) with 1 in Hhi.
  destruct (Qcompare_spec (q - inject_Z (Qfloor q)) (1 # 2)) as [E|E|E].
  - destruct (Z.even (Qfloor q)).
    + split; lra.
    + rewrite inject_Z_plus. change (inject_Z 1) with 1. split; lra.
  - split; lra.
  - rewrite inject_Z_plus. change (inject_Z 1) with 1. split; lra.
Qed.

Lemma round_half_even_le (q : Q) (n : Z) :
  q <= inject_Z n -> (Js.round_half_even q <= n)%Z.
Proof.
  intros H. pose proof (round_half_even_near q) as [Hlo _].
  assert (Hlt : inject_Z (Js.round_half_even q) < inject_Z (n + 1)).
  { rewrite inject_Z_plus. change (inject_Z 1) with 1.
    unfold Js.round_half_even in *.
    pose proof (Qfloor_le q) as Hf. pose proof (Qlt_floor q) as Hc.
    rewrite inject_Z_plus in Hc. change (inject_Z 1) with 1 in Hc.
    destruct (Qcompare_spec (q - inject_Z (Qfloor q)) (1 # 2)) as [E|E|E].
    - destruct (Z.even (Qfloor q)).
      + lra.
      + rewrite inject_Z_plus. change (inject_Z 1) with 1. lra.
    - lra.
    - rewrite inject_Z_plus. change (inject_Z 1) with 1. lra. }
  rewrite <- Zlt_Qlt in Hlt. lia.
Qed.

Lemma round_half_even_ge (q : Q) (n : Z) :
  inject_Z n <= q -> (n <= Js.round_half_even q)%Z.
Proof.
  intros H.
  assert (Hlt : inject_Z (n - 1) < inject_Z (Js.round_half_even q)).
  { unfold Z.sub. rewrite inject_Z_plus.
    change (inject_Z (- (1))) with (- (1)).
    unfold Js.round_half_even.
    pose proof (Qfloor_le q) as Hf. pose proof (Qlt_floor q) as Hc.
    rewrite inject_Z_plus in Hc. change (inject_Z 1) with 1 in Hc.
    destruct (Qcompare_spec (q - inject_Z (Qfloor q)) (1 # 2)) as [E|E|E].
    - destruct (Z.even (Qfloor q)).
      + lra.
      + rewrite inject_Z_plus. change (inject_Z 1) with 1. lra.
    - assert (Hn : (n <= Qfloor q)%Z).
      { rewrite <- (Qfloor_Z n). now apply Qfloor_resp_le. }
      rewrite Zle_Qle in Hn. lra.
    - rewrite inject_Z_plus. change (inject_Z 1) with 1. lra. }
  rewrite <- Zlt_Qlt in Hlt. lia.
Qed.

Lemma Qabs_positive (q : Q) : 0 < q -> Qabs q = q.
Proof.
  destruct q as [n d]. unfold Qlt. simpl. intros H.
  unfold Qabs. f_equal. lia.
Qed.

Lemma scaled_back (q : Q) (e : Z) : q / Js.pow2 e * Js.pow2 e == q.
Proof.
  pose proof (pow2_pos e). field. intros E. rewrite E in H. discriminate.
Qed.

Lemma int_over_pow2 (c e : Z) :
  (e <= 0)%Z ->
  inject_Z c / Js.pow2 e == inject_Z (c * 2 ^ (- e)).
Proof.
  intros He. rewrite inject_Z_mult, <- pow2_Z by lia.
  pose proof (pow2_pos e) as Hp. pose proof (pow2_opp e) as Ho.
  apply (Qmult_inj_r _ _ (Js.pow2 e)).
  - intros E. rewrite E in Hp. discriminate.
  - rewrite scaled_back, <- Qmult_assoc, (Qmult_comm (Js.pow2 (- e))), Ho.
    ring.
Qed.

(** The shape of [round q] for a positive [q] below [2^53]: no overflow,
    and an exponent that is not positive. *)
Lemma round_normal (q : Q) :
  0 < q -> q < Js.pow2 53 ->
  exists e m : Z,
    e = Z.max (Js.ilog2 q - 52) (-1074)
    /\ (e <= 0)%Z
    /\ m = Js.round_half_even (q / Js.pow2 e)
    /\ (0 <= m)%Z
    /\ Js.round q = Js.Finite (Qred (inject_Z m * Js.pow2 e)).
Proof.
  intros Hq Hlt.
  set (e := Z.max (Js.ilog2 q - 52) (-1074)).
  set (m := Js.round_half_even (q / Js.pow2 e)).
  assert (He : (e <= 0)%Z).
  { pose proof (ilog2_lt q 53 Hq Hlt). unfold e. lia. }
  pose proof (pow2_pos e) as HX.
  pose proof (scaled_back q e) as Hy.
  assert (Hypos : 0 < q / Js.pow2 e).
  { apply Qlt_shift_div_l; [exact HX|]. lra. }
  assert (Hm : (0 <= m)%Z).
  { apply round_half_even_ge. change (inject_Z 0) with 0. lra. }
  exists e, m. repeat split; auto.
  unfold Js.round.
  assert (E0 : Qeq_bool q 0 = false).
  { destruct (Qeq_bool q 0) eqn:E; auto.
    apply Qeq_bool_eq in E. lra. }
  rewrite E0, (Qabs_positive q Hq). fold e. fold m.
  destruct (Qle_bool (Js.pow2 1024) (Qabs (inject_Z m * Js.pow2 e))) eqn:E;
    [|reflexivity].
  exfalso. apply Qle_bool_imp_le in E.
  pose proof (round_half_even_near (q / Js.pow2 e)) as [_ Hhi]. fold m in Hhi.
  assert (HX1 : Js.pow2 e <= 1) by (apply (pow2_le e 0 He)).
  assert (H53 : 1 <= Js.pow2 53) by (apply (pow2_le 0 53); lia).
  assert (H54 : Js.pow2 54 == Js.pow2 53 * (2 # 1))
    by (apply (pow2_plus 53 1)).
  assert (Hbig : Js.pow2 54 <= Js.pow2 1024) by (apply pow2_le; lia).
  assert (Hm0 : 0 <= inject_Z m).
  { change 0 with (inject_Z 0). rewrite <- Zle_Qle. exact Hm. }
  rewrite Qabs_pos in E by (apply Qmult_le_0_compat; lra).
  assert (Hv : inject_Z m * Js.pow2 e <= q + (1 # 2)).
  { apply Qle_trans with ((q / Js.pow2 e + (1 # 2)) * Js.pow2 e).
    - apply Qmult_le_compat_r; lra.
    - rewrite Qmult_plus_distr_l, Hy. nra. }
  lra.
Qed.

Lemma pow2_53 : Js.pow2 53 == inject_Z (2 ^ 53).
Proof. apply pow2_Z. lia. Qed.

(** Rounding keeps a value between the integers that bound it. *)
Lemma round_between_reduced (q : Q) (lo hi : Z) :
  0 < q -> (hi < 2 ^ 53)%Z ->
  inject_Z lo <= q -> q <= inject_Z hi ->
  exists w, Js.round q = Js.Finite (Qred w)
            /\ inject_Z lo <= w /\ w <= inject_Z hi.
Proof.
  intros Hq Hhi Hlo Hup.
  assert (Hlt : q < Js.pow2 53).
  { rewrite pow2_53. apply Qle_lt_trans with (inject_Z hi); auto.
    now rewrite <- Zlt_Qlt. }
  destruct (round_normal q Hq Hlt) as [e [m [_ [He [Hm [_ Hr]]]]]].
  exists (inject_Z m * Js.pow2 e). split; [exact Hr|].
  pose proof (pow2_pos e) as HX.
  assert (Hy1 : inject_Z (lo * 2 ^ (- e)) <= q / Js.pow2 e).
  { rewrite <- int_over_pow2 by exact He.
    apply Qmult_le_compat_r; [exact Hlo|].
    apply Qlt_le_weak, Qinv_lt_0_compat, HX. }
  assert (Hy2 : q / Js.pow2 e <= inject_Z (hi * 2 ^ (- e))).
  { rewrite <- int_over_pow2 by exact He.
    apply Qmult_le_compat_r; [exact Hup|].
    apply Qlt_le_weak, Qinv_lt_0_compat, HX. }
  apply round_half_even_ge in Hy1. apply round_half_even_le in Hy2.
  rewrite <- Hm in Hy1, Hy2.
  rewrite Zle_Qle in Hy1, Hy2.
  rewrite <- int_over_pow2 in Hy1, Hy2 by exact He.
  split.
  - apply (Qmult_le_compat_r _ _ (Js.pow2 e)) in Hy1; [|lra].
    now rewrite scaled_back in Hy1.
  - apply (Qmult_le_compat_r _ _ (Js.pow2 e)) in Hy2; [|lra].
    now rewrite scaled_back in Hy2.
Qed.

Lemma round_between (q : Q) (lo hi : Z) :
  0 < q -> (hi < 2 ^ 53)%Z ->
  inject_Z lo <= q -> q <= inject_Z hi ->
  exists v, Js.round q = Js.Finite v
            /\ inject_Z lo <= v /\ v <= inject_Z hi.
Proof.
  intros Hq Hhi Hlo Hup.
  destruct (round_between_reduced q lo hi Hq Hhi Hlo Hup) as [w [Hr Hw]].
  exists (Qred w). split; [exact Hr|]. now rewrite Qred_correct.
Qed.

(** An integer below [2^53] is a double. *)
Lemma round_exact (q : Q) (z : Z) :
  q == inject_Z z -> (0 <= z < 2 ^ 53)%Z ->
  Js.round q = Js.Finite (inject_Z z).
Proof.
  intros Hqz Hz.
  destruct (Z.eq_dec z 0) as [->|Hnz].
  - unfold Js.round.
    assert (E : Qeq_bool q 0 = true) by (apply Qeq_bool_iff; exact Hqz).
    now rewrite E.
  - assert (Hq : 0 < q).
    { rewrite Hqz. change 0 with (inject_Z 0). rewrite <- Zlt_Qlt. lia. }
    destruct (round_between_reduced q z z Hq) as [w [Hr [H1 H2]]];
      try lia; try (rewrite Hqz; apply Qle_refl).
    rewrite Hr.
    assert (Hw : w == inject_Z z) by (apply Qle_antisym; assumption).
    rewrite (Qred_complete _ _ Hw).
    unfold inject_Z. f_equal. apply Qcanon.Qred_identity. simpl.
    apply Z.gcd_1_r.
Qed.

(** Rounding error, for a positive value below [2^L]. *)
Lemma round_error (q : Q) (L : Z) :
  0 < q -> q < Js.pow2 L -> (-1021 <= L <= 53)%Z ->
  exists v, Js.round q = Js.Finite v
            /\ Qabs (v - q) <= Js.pow2 (L - 54).
Proof.
  intros Hq HL HLr.
  assert (Hlt : q < Js.pow2 53).
  { apply Qlt_le_trans with (Js.pow2 L); auto. apply pow2_le. lia. }
  destruct (round_normal q Hq Hlt) as [e [m [He [_ [Hm [_ Hr]]]]]].
  exists (Qred (inject_Z m * Js.pow2 e)). split; [exact Hr|].
  rewrite Qred_correct.
  pose proof (ilog2_lt q L Hq HL) as Hlog.
  assert (HeL : (e <= L - 53)%Z) by lia.
  pose proof (pow2_pos e) as HX.
  pose proof (pow2_le e (L - 53) HeL) as HXL.
  assert (Hhalf : Js.pow2 (L - 53) == Js.pow2 (L - 54) * (2 # 1)).
  { replace (L - 53)%Z with (L - 54 + 1)%Z by lia. apply pow2_plus. }
  pose proof (round_half_even_near (q / Js.pow2 e)) as [Hlo Hhi].
  rewrite <- Hm in Hlo, Hhi.
  pose proof (scaled_back q e) as Hy.
  apply Qabs_Qle_condition.
  set (y := q / Js.pow2 e) in *. set (X := Js.pow2 e) in *.
  assert (Hd : inject_Z m * X - q == (inject_Z m - y) * X).
  { rewrite <- Hy. ring. }
  rewrite Hd. split; nra.
Qed.

End NumberFacts.

(* ================================================================== *)
(** ** The progress bar *)
(* ================================================================== *)

Section ProgressFacts.
Import Supabase TakeSurvey.
Local Open Scope Q_scope.

Lemma answered_at_most_total (s : State) :
  NoDup (map fst (answers s)) ->
  incl (map fst (answers s)) (map questions.id (questions s)) ->
  (List.length (Js.keys (answers s)) <= List.length (questions s))%nat.
Proof.
  intros Hnd Hincl. rewrite keys_length.
  apply NoDup_incl_length in Hincl; [|exact Hnd].
  rewrite !length_map in Hincl. exact Hincl.
Qed.

Lemma pow2_m45 : Js.pow2 (-45) == 1 # 35184372088832.
Proof. reflexivity. Qed.
Lemma pow2_m47 : Js.pow2 (-47) == 1 # 140737488355328.
Proof. reflexivity. Qed.
Lemma pow2_m53 : Js.pow2 (-53) == 1 # 9007199254740992.
Proof. reflexivity. Qed.
Lemma pow2_1 : Js.pow2 1 == 2.
Proof. reflexivity. Qed.
Lemma pow2_7 : Js.pow2 7 == 128.
Proof. reflexivity. Qed.

(** The percentage computed from [k] answered out of [n >= 1]. *)
Lemma percentage (k n : Z) :
  (0 <= k <= n)%Z -> (1 <= n)%Z ->
  exists p,
    Js.mul (Js.div (Js.Finite (inject_Z k)) (Js.Finite (inject_Z n)))
           (Js.Finite (100 # 1))
    = Js.Finite p
    /\ 0 <= p /\ p <= 100
    /\ Qabs (p - 100 * inject_Z k / inject_Z n) <= Js.pow2 (-45)
    /\ (k = n -> p == 100)
    /\ (k = 0%Z -> p == 0).
Proof.
  intros Hk Hn.
  assert (Hn0 : 0 < inject_Z n).
  { change 0 with (inject_Z 0). rewrite <- Zlt_Qlt. lia. }
  assert (Hk0 : 0 <= inject_Z k).
  { change 0 with (inject_Z 0). rewrite <- Zle_Qle. lia. }
  assert (Hkn : inject_Z k <= inject_Z n) by (rewrite <- Zle_Qle; lia).
  assert (En : Qeq_bool (inject_Z n) 0 = false).
  { destruct (Qeq_bool (inject_Z n) 0) eqn:E; auto.
    apply Qeq_bool_eq in E. lra. }
  unfold Js.div. rewrite En.
  set (q1 := inject_Z k / inject_Z n).
  assert (Hq1 : q1 * inject_Z n == inject_Z k).
  { unfold q1. field. lra. }
  assert (Hq1lo : 0 <= q1).
  { unfold q1. apply Qle_shift_div_l; [exact Hn0|]. lra. }
  assert (Hq1hi : q1 <= 1).
  { unfold q1. apply Qle_shift_div_r; [exact Hn0|]. lra. }
  assert (Hfrac : 100 * inject_Z k / inject_Z n == 100 * q1).
  { unfold q1. field. lra. }
  pose proof pow2_m45 as P45. pose proof pow2_m47 as P47.
  pose proof pow2_m53 as P53.
  destruct (Z.eq_dec k 0) as [Hz|Hnz].
  - (* nothing answered *)
    assert (E1 : Js.round q1 = Js.Finite (inject_Z 0)).
    { apply round_exact; [|lia]. unfold q1. rewrite Hz. reflexivity. }
    rewrite E1. unfold Js.mul.
    assert (E2 : Js.round (inject_Z 0 * (100 # 1)) = Js.Finite (inject_Z 0)).
    { apply round_exact; [reflexivity | lia]. }
    rewrite E2. exists (inject_Z 0).
    split; [reflexivity|]. change (inject_Z 0) with 0.
    split; [lra|]. split; [lra|]. split.
    + rewrite Hfrac. apply Qabs_Qle_condition.
      assert (q1 == 0) by (unfold q1; rewrite Hz; reflexivity). lra.
    + split; [intros; lia | intros; reflexivity].
  - destruct (Z.eq_dec k n) as [He|Hne].
    + (* everything answered *)
      assert (E1 : Js.round q1 = Js.Finite (inject_Z 1)).
      { apply round_exact; [|lia]. unfold q1. rewrite He.
        change (inject_Z 1) with 1. field. lra. }
      rewrite E1. unfold Js.mul.
      assert (E2 : Js.round (inject_Z 1 * (100 # 1))
                   = Js.Finite (inject_Z 100)).
      { apply round_exact; [reflexivity | lia]. }
      rewrite E2. exists (inject_Z 100).
      split; [reflexivity|]. change (inject_Z 100) with 100.
      split; [lra|]. split; [lra|]. split.
      * rewrite Hfrac. apply Qabs_Qle_condition.
        assert (q1 == 1) by (unfold q1; rewrite He; field; lra). lra.
      * split; [intros; reflexivity | intros; lia].
    + (* some answered *)
      assert (Hq1pos : 0 < q1).
      { unfold q1. apply Qlt_shift_div_l; [exact Hn0|].
        rewrite Qmult_0_l. change 0 with (inject_Z 0).
        rewrite <- Zlt_Qlt. lia. }
      destruct (round_between_reduced q1 0 1 Hq1pos) as [w1 [Er1 [Hw1 Hw1']]];
        [lia | exact Hq1lo | exact Hq1hi |].
      destruct (round_error q1 1 Hq1pos) as [v1 [Er1' Herr1]];
        [rewrite pow2_1; lra | lia |].
      rewrite Er1 in Er1'. injection Er1' as Ev1.
      rewrite Er1. unfold Js.mul.
      change (inject_Z 0) with 0 in Hw1. change (inject_Z 1) with 1 in Hw1'.
      assert (Hv1 : 0 <= Qred w1 /\ Qred w1 <= 1)
        by (rewrite Qred_correct; split; assumption).
      replace (1 - 54)%Z with (-53)%Z in Herr1 by lia.
      rewrite <- Ev1 in Herr1.
      apply Qabs_Qle_condition in Herr1.
      set (v := Qred w1) in *.
      destruct (Qeq_dec (v * (100 # 1)) 0) as [Hzero|Hpos].
      * assert (E2 : Js.round (v * (100 # 1)) = Js.Finite (inject_Z 0)).
        { apply round_exact; [exact Hzero | lia]. }
        rewrite E2. exists (inject_Z 0).
        split; [reflexivity|]. change (inject_Z 0) with 0.
        split; [lra|]. split; [lra|]. split.
        -- rewrite Hfrac. apply Qabs_Qle_condition. lra.
        -- split; [intros; contradiction | intros; contradiction].
      * assert (Hvpos : 0 < v * (100 # 1)) by lra.
        destruct (round_between (v * (100 # 1)) 0 100 Hvpos)
          as [p [Er2 [Hp Hp']]];
          [lia | change (inject_Z 0) with 0; lra
           | change (inject_Z 100) with 100; lra |].
        destruct (round_error (v * (100 # 1)) 7 Hvpos) as [p' [Er2' Herr2]];
          [rewrite pow2_7; lra | lia |].
        rewrite Er2 in Er2'. injection Er2' as Ep.
        rewrite Er2. exists p.
        change (inject_Z 0) with 0 in Hp.
        change (inject_Z 100) with 100 in Hp'.
        split; [reflexivity|]. split; [exact Hp|]. split; [exact Hp'|].
        replace (7 - 54)%Z with (-47)%Z in Herr2 by lia.
        rewrite <- Ep in Herr2.
        apply Qabs_Qle_condition in Herr2.
        split.
        -- rewrite Hfrac. apply Qabs_Qle_condition. lra.
        -- split; [intros; contradiction | intros; contradiction].
Qed.

(** C4 (as amended).  When the survey has at least one question and every
    accumulated entry belongs to one of its questions, [progress] is a
    finite percentage between 0 and 100: it is the answered count divided
    by the question count, times 100, within the rounding of the two
    floating-point operations; it is exactly 100 when every question is
    answered and exactly 0 when none is. *)
Theorem progress_is_percentage (s : State) :
  NoDup (map fst (answers s)) ->
  incl (map fst (answers s)) (map questions.id (questions s)) ->
  questions s <> [] ->
  exists p : Q,
    progress s = Js.Finite p
    /\ 0 <= p /\ p <= 100
    /\ Qabs (p - 100 * inject_Z (Z.of_nat (List.length (Js.keys (answers s))))
                 / inject_Z (Z.of_nat (List.length (questions s))))
       <= Js.pow2 (-45)
    /\ (List.length (Js.keys (answers s)) = List.length (questions s)
        -> p == 100)
    /\ (List.length (Js.keys (answers s)) = 0%nat -> p == 0).
Proof.
  intros Hnd Hincl Hq.
  pose proof (answered_at_most_total s Hnd Hincl) as Hle.
  assert (Hn : (1 <= List.length (questions s))%nat).
  { destruct (questions s); [contradiction | simpl; lia]. }
  destruct (percentage (Z.of_nat (List.length (Js.keys (answers s))))
                       (Z.of_nat (List.length (questions s))))
    as [p [Hp [H0 [H100 [Herr [Hall Hnone]]]]]]; [lia | lia |].
  exists p. unfold progress, Js.of_nat.
  split; [exact Hp|]. split; [exact H0|]. split; [exact H100|].
  split; [exact Herr|]. split.
  - intros E. apply Hall. now rewrite E.
  - intros E. apply Hnone. now rewrite E.
Qed.

End ProgressFacts.

(** C4 as specified does not hold: with every question answered the
    progress is 100, not the fraction 1, and so lies outside [0,1]. *)
Lemma progress_is_not_a_fraction :
  let s := Sample.taking [("q1", "Platform"); ("q2", "4"); ("q3", "10");
                          ("q4", "no")] in
  TakeSurvey.progress s = Js.Finite (100 # 1)
  /\ ~ (100 # 1 <= 1)%Q.
Proof.
  split; [vm_compute; reflexivity | unfold Qle; simpl; lia].
Qed.

(** With no question at all the division is 0/0. *)
Lemma progress_without_questions :
  TakeSurvey.progress TakeSurvey.initial = Js.NaN.
Proof. reflexivity. Qed.

(** One question answered out of four. *)
Lemma progress_is_percentage_witness :
  exists p : Q,
    TakeSurvey.progress (Sample.taking [("q1", "Platform")]) = Js.Finite p
    /\ (0 <= p)%Q /\ (p <= 100)%Q.
Proof.
  destruct (progress_is_percentage (Sample.taking [("q1", "Platform")]))
    as [p [Hp [H0 [H100 _]]]].
  - distinct_keys.
  - intros k [<-|[]]. simpl. tauto.
  - discriminate.
  - exists p. auto.
Defined.

(* ================================================================== *)
(** ** The survey runtime: an answer typed and cleared *)
(* ================================================================== *)

Section EmptyAnswerCounts.
Import Supabase TakeSurvey.

Lemma without_entry_own (o : Js.object string) (k : string) :
  Js.own (without_entry k o) k = None
  /\ forall k', k' <> k -> Js.own (without_entry k o) k' = Js.own o k'.
Proof.
  unfold without_entry. split.
  - induction o as [|[k0 v0] r IH]; simpl; [reflexivity|].
    destruct (k0 =? k) eqn:E; simpl; [exact IH|]. now rewrite E.
  - intros k' Hne. induction o as [|[k0 v0] r IH]; simpl; [reflexivity|].
    destruct (k0 =? k) eqn:E; simpl.
    + apply String.eqb_eq in E. subst k0.
      assert (E' : (k =? k') = false) by (apply String.eqb_neq; congruence).
      now rewrite E'.
    + now rewrite IH.
Qed.

Lemma without_entry_length (o : Js.object string) (k v : string) :
  NoDup (map fst o) ->
  Js.own o k = Some v ->
  List.length o = S (List.length (without_entry k o)).
Proof.
  unfold without_entry. induction o as [|[k0 v0] r IH]; simpl.
  - discriminate.
  - intros Hnd Hown. inversion Hnd as [|? ? Hout Hr]; subst.
    destruct (k0 =? k) eqn:E; simpl.
    + apply String.eqb_eq in E. subst k0. f_equal.
      clear IH Hown Hnd Hr. induction r as [|[k1 v1] r IH]; simpl.
      * reflexivity.
      * destruct (k1 =? k) eqn:E1; simpl.
        -- apply String.eqb_eq in E1. subst k1. destruct Hout. now left.
        -- f_equal. apply IH. intros H. apply Hout. now right.
    + f_equal. now apply IH.
Qed.

Lemma without_entry_keys (o : Js.object string) (k : string) :
  NoDup (map fst o) ->
  NoDup (map fst (without_entry k o))
  /\ incl (map fst (without_entry k o)) (map fst o).
Proof.
  unfold without_entry. intros Hnd. split.
  - induction o as [|[k0 v0] r IH]; simpl; [constructor|].
    inversion Hnd as [|? ? Hout Hr]; subst.
    destruct (negb (k0 =? k)); simpl; [|now apply IH].
    constructor; [|now apply IH].
    intros H. apply Hout. apply in_map_iff in H.
    destruct H as [e [He Hin]]. apply filter_In in Hin.
    apply in_map_iff. exists e. tauto.
  - intros x H. apply in_map_iff in H. destruct H as [e [He Hin]].
    apply filter_In in Hin. apply in_map_iff. exists e. tauto.
Qed.

(** The percentages of two consecutive answered counts are apart: with
    fewer than 2^32 questions the step of 100/n is far above the rounding
    of the two floating-point operations. *)
Lemma percentage_step (c n : Z) (p0 p : Q) :
  (1 <= n < 2 ^ 32)%Z ->
  (Qabs (p0 - 100 * inject_Z c / inject_Z n) <= Js.pow2 (-45))%Q ->
  (Qabs (p - 100 * inject_Z (c + 1) / inject_Z n) <= Js.pow2 (-45))%Q ->
  (p0 < p)%Q.
Proof.
  intros Hn H0 H1.
  assert (Hn0 : (0 < inject_Z n)%Q).
  { change 0%Q with (inject_Z 0). rewrite <- Zlt_Qlt. lia. }
  assert (Hn1 : (inject_Z n < 4294967296)%Q).
  { change 4294967296%Q with (inject_Z (2 ^ 32)). rewrite <- Zlt_Qlt. lia. }
  pose proof pow2_m45 as P45.
  apply Qabs_Qle_condition in H0. apply Qabs_Qle_condition in H1.
  assert (Hstep : (100 * inject_Z (c + 1) / inject_Z n
                   == 100 * inject_Z c / inject_Z n + 100 / inject_Z n)%Q).
  { rewrite inject_Z_plus. change (inject_Z 1) with 1%Q. field. lra. }
  assert (Hbig : ((2 # 35184372088832) < 100 / inject_Z n)%Q).
  { apply Qlt_shift_div_l; [exact Hn0|]. lra. }
  lra.
Qed.

(** C10.  When the accumulator holds the empty string for a question, the
    entry counts toward the answered count of [progress]: the entry is one
    of the keys counted, the count is one more than the count of the other
    entries, [progress] is the percentage of that count, and on a page with
    questions it is strictly above the progress of the same page without
    the entry; the count and the progress are what they would be had the
    entry any other value, and recording the empty string for a question
    that has no entry yet raises the count by one.  A submission that
    passes validation and is accepted by the store leaves an Answer row for
    the question whose value is the empty string; and if the question is
    required, [handleSubmit] treats it as missing: it reports the
    validation error and sends nothing. *)
Theorem empty_answer_counted_stored_but_missing
        (be : Backend) (id : string) (s : State) (w : World) (k : string)
        (Hwf : NoDup (map fst (answers s)))
        (Hids : Forall (fun q => own_name (questions.id q)) (questions s))
        (Hk : Js.own (answers s) k = Some EmptyString) :
  In k (Js.keys (answers s))
  /\ (forall v,
         List.length (Js.keys (answers (recordAnswer k v s)))
         = List.length (Js.keys (answers s))
         /\ progress (recordAnswer k v s) = progress s)
  /\ (Js.own (without_entry k (answers s)) k = None
      /\ (forall k', k' <> k ->
             Js.own (without_entry k (answers s)) k' = Js.own (answers s) k')
      /\ List.length (Js.keys (answers s))
         = S (List.length (Js.keys (without_entry k (answers s))))
      /\ progress s
         = Js.mul
             (Js.div
                (Js.of_nat
                   (S (List.length (Js.keys (without_entry k (answers s))))))
                (Js.of_nat (List.length (questions s))))
             (Js.Finite (100 # 1)))
  /\ (incl (map fst (answers s)) (map questions.id (questions s)) ->
      (Z.of_nat (List.length (questions s)) < 2 ^ 32)%Z ->
      exists p0 p : Q,
        progress (setAnswers (without_entry k (answers s)) s) = Js.Finite p0
        /\ progress s = Js.Finite p
        /\ (p0 < p)%Q
        /\ (Qabs (p - 100 * inject_Z (Z.of_nat (List.length (Js.keys (answers s))))
                       / inject_Z (Z.of_nat (List.length (questions s))))
            <= Js.pow2 (-45))%Q)
  /\ (forall s0,
         Js.own (answers s0) k = None ->
         List.length (Js.keys (answers (recordAnswer k EmptyString s0)))
         = S (List.length (Js.keys (answers s0))))
  /\ (~ Exists (unanswered (answers s)) (questions s) ->
      forall r w1 w2,
        insert_response be id w = (Ok r, w1) ->
        insert_answers be (answersToInsert r s) w1 = (Ok tt, w2) ->
        snd (handleSubmit be id s w) = w2
        /\ submitted (fst (handleSubmit be id s w)) = true
        /\ exists a,
             In a (answers_table (db w2))
             /\ answers.response_id a = responses.id r
             /\ answers.question_id a = k
             /\ answers.answer_value a = EmptyString)
  /\ (forall q,
         In q (questions s) -> questions.id q = k ->
         questions.required q = true ->
         handleSubmit be id s w
         = (show (toast_error "Please answer all required questions") s, w)).
Proof.
  assert (Hin : In (k, EmptyString) (answers s)) by now apply own_in.
  assert (Hperm : Permutation (Js.entries (answers s)) (answers s))
    by apply entries_perm.
  assert (Hcount : List.length (Js.keys (answers s))
                   = S (List.length (Js.keys (without_entry k (answers s))))).
  { rewrite !keys_length. now apply (without_entry_length _ _ EmptyString). }
  split; [|split; [|split; [|split; [|split; [|split]]]]].
  - unfold Js.keys.
    apply (in_map fst) in Hin. simpl in Hin.
    eapply Permutation_in; [|exact Hin].
    apply Permutation_sym, Permutation_map, Hperm.
  - intros v.
    assert (Hlen : List.length (Js.keys (answers (recordAnswer k v s)))
                   = List.length (Js.keys (answers s))).
    { simpl. rewrite !keys_length.
      rewrite <- (length_map fst (Js.set _ _ _)), <- (length_map fst (answers s)).
      now rewrite (set_same_keys _ _ _ _ Hk). }
    split; [exact Hlen|].
    unfold progress. now rewrite Hlen.
  - destruct (without_entry_own (answers s) k) as [Hnone Hother].
    split; [exact Hnone|]. split; [exact Hother|]. split; [exact Hcount|].
    unfold progress. now rewrite Hcount.
  - intros Hincl Hn.
    pose proof (answered_at_most_total s Hwf Hincl) as Hle.
    destruct (without_entry_keys (answers s) k Hwf) as [Hnd0 Hincl0].
    set (c0 := List.length (Js.keys (without_entry k (answers s)))) in *.
    set (n := List.length (questions s)) in *.
    destruct (percentage (Z.of_nat c0) (Z.of_nat n))
      as [p0 [Hp0 [_ [_ [Herr0 _]]]]]; [lia | lia |].
    destruct (percentage (Z.of_nat (S c0)) (Z.of_nat n))
      as [p [Hp [_ [_ [Herr _]]]]]; [lia | lia |].
    exists p0, p. split; [exact Hp0|]. split.
    + unfold progress, Js.of_nat. fold n. rewrite Hcount. exact Hp.
    + split.
      * apply (percentage_step (Z.of_nat c0) (Z.of_nat n)); [lia | exact Herr0 |].
        replace (Z.of_nat c0 + 1)%Z with (Z.of_nat (S c0)) by lia.
        exact Herr.
      * rewrite Hcount. exact Herr.
  - intros s0 Hnone. simpl. rewrite !keys_length.
    rewrite <- (length_map fst (Js.set _ _ _)), <- (length_map fst (answers s0)).
    rewrite keys_set_absent by (now apply own_none_not_in).
    rewrite length_app. simpl. lia.
  - intros Hnone r w1 w2 Hresp Hans.
    destruct (handleSubmit_accepted be id s w r w1 w2
                (not_missing s Hids Hnone) Hresp Hans) as [Hrun [Hdb _]].
    rewrite Hrun. split; [reflexivity|]. split; [reflexivity|].
    apply (Permutation_in _ (Permutation_sym Hperm)) in Hin.
    rewrite <- (answer_rows_entries be (generated w1) r s) in Hin.
    apply in_map_iff in Hin. destruct Hin as [a [[= Hq Hv] Ha]].
    exists a. rewrite Hdb. simpl. split; [|split; [|split]]; auto.
    + apply in_or_app. now right.
    + eapply answer_rows_response; eauto.
  - intros q Hq Hid Hreq. apply handleSubmit_rejected.
    apply (missing_iff s Hids). apply Exists_exists. exists q.
    split; auto. split; auto. right. now rewrite Hid.
Qed.

End EmptyAnswerCounts.

(** The optional question [q_notes] typed and cleared: the progress is
    above the progress of the page without the entry, and the submission
    stores the empty answer. *)
Lemma empty_answer_counted_stored_but_missing_witness :
  let s := Sample.taking [("q1", "Platform"); ("q4", EmptyString)] in
  In "q4" (Js.keys (TakeSurvey.answers s))
  /\ (exists p0 p : Q,
         TakeSurvey.progress (Sample.taking [("q1", "Platform")])
         = Js.Finite p0
         /\ TakeSurvey.progress s = Js.Finite p
         /\ (p0 < p)%Q)
  /\ exists a,
       In a (Supabase.answers_table
               (Supabase.db
                  (snd (TakeSurvey.handleSubmit Sample.backend "s1" s
                                                Sample.world))))
       /\ Supabase.answers.question_id a = "q4"
       /\ Supabase.answers.answer_value a = EmptyString.
Proof.
  intros s.
  pose (r := Supabase.responses.mk "id-0" "s1").
  pose (w1 := snd (Supabase.insert_response Sample.backend "s1" Sample.world)).
  pose (w2 := snd (Supabase.insert_answers Sample.backend
                     (TakeSurvey.answersToInsert r s) w1)).
  assert (Hwf : NoDup (map fst (TakeSurvey.answers s))) by distinct_keys.
  assert (Hids : Forall (fun q => own_name (Supabase.questions.id q))
                        (TakeSurvey.questions s))
    by (repeat constructor).
  assert (Hall : ~ Exists (unanswered (TakeSurvey.answers s))
                          (TakeSurvey.questions s)) by none_unanswered.
  assert (Hincl : incl (map fst (TakeSurvey.answers s))
                       (map Supabase.questions.id (TakeSurvey.questions s))).
  { intros x Hx. simpl in Hx. simpl. tauto. }
  destruct (empty_answer_counted_stored_but_missing
              Sample.backend "s1" s Sample.world "q4" Hwf Hids eq_refl)
    as [Hkey [_ [_ [Hstep [_ [Hsub _]]]]]].
  split; [exact Hkey|]. split.
  - destruct (Hstep Hincl eq_refl) as [p0 [p [Hp0 [Hp [Hlt _]]]]].
    exists p0, p. split; [exact Hp0|]. split; [exact Hp | exact Hlt].
  - destruct (Hsub Hall r w1 w2 eq_refl eq_refl)
      as [Hw [_ [a [Ha [_ [Hq Hv]]]]]].
    exists a. rewrite Hw. auto.
Defined.

(* ================================================================== *)
(** ** The average of a rating question *)
(* ================================================================== *)

Section RatingFacts.
Import Supabase SurveyResults.
Local Open Scope Q_scope.

Lemma parseInt_star (v : string) :
  In v stars ->
  Js.parseInt v = Js.Finite (inject_Z (star_value v))
  /\ (1 <= star_value v <= 5)%Z.
Proof.
  intros H. simpl in H.
  repeat (destruct H as [<-|H];
          [split; [vm_compute; reflexivity | cbv; split; discriminate]|]).
  contradiction.
Qed.

Lemma rating_sum_bounds (vs : list string) :
  Forall (fun v => In v stars) vs ->
  (Z.of_nat (List.length vs) <= rating_sum vs <= 5 * Z.of_nat (List.length vs))%Z.
Proof.
  induction 1 as [|v r Hv Hr IH].
  - unfold rating_sum. simpl. lia.
  - destruct (parseInt_star v Hv) as [_ Hb].
    change (rating_sum (v :: r)) with (star_value v + rating_sum r)%Z.
    change (List.length (v :: r)) with (S (List.length r)). lia.
Qed.

(** The running sum of the reducer stays an exact integer. *)
Lemma sum_of_stars (vs : list string) (z : Z) :
  Forall (fun v => In v stars) vs ->
  (0 <= z)%Z -> (z + 5 * Z.of_nat (List.length vs) < 2 ^ 53)%Z ->
  fold_left Js.add (map Js.parseInt vs) (Js.Finite (inject_Z z))
  = Js.Finite (inject_Z (z + rating_sum vs)).
Proof.
  intros H. revert z. induction H as [|v r Hv Hr IH]; intros z Hz Hlt.
  - unfold rating_sum. simpl. now rewrite Z.add_0_r.
  - destruct (parseInt_star v Hv) as [Hp Hb].
    change (rating_sum (v :: r)) with (star_value v + rating_sum r)%Z.
    change (List.length (v :: r)) with (S (List.length r)) in Hlt.
    cbn [map fold_left]. rewrite Hp. cbn [Js.add].
    rewrite (round_exact _ (z + star_value v)).
    + rewrite IH by lia. f_equal. f_equal. lia.
    + now rewrite inject_Z_plus.
    + lia.
Qed.

Lemma pow2_m51 : Js.pow2 (-51) == 1 # 2251799813685248.
Proof. reflexivity. Qed.
Lemma pow2_3 : Js.pow2 3 == 8.
Proof. reflexivity. Qed.

(** A value within [2^-51] of a mean of fewer than [2^32] integers rounds
    to a tenth that is nearest to the mean itself. *)
Lemma nearest_tenth (S N n : Z) (v : Q) :
  (0 < N < 2 ^ 32)%Z ->
  Qabs (v - inject_Z S / inject_Z N) <= Js.pow2 (-51) ->
  inject_Z n <= v * (10 # 1) + (1 # 2) ->
  v * (10 # 1) + (1 # 2) < inject_Z n + 1 ->
  Qabs (inject_Z n / (10 # 1) - inject_Z S / inject_Z N) <= 1 # 20.
Proof.
  intros HN Herr Hlo Hhi.
  assert (HNq : 0 < inject_Z N).
  { change 0 with (inject_Z 0). rewrite <- Zlt_Qlt. lia. }
  assert (HNb : inject_Z N < 4294967296).
  { change 4294967296 with (inject_Z (2 ^ 32)). rewrite <- Zlt_Qlt. lia. }
  set (mu := inject_Z S / inject_Z N) in *.
  assert (Hmu : mu * inject_Z N == inject_Z S) by (unfold mu; field; lra).
  apply Qabs_Qle_condition in Herr. rewrite pow2_m51 in Herr.
  destruct Herr as [Herr1 Herr2].
  assert (HA : (20 * S >= (2 * n - 1) * N)%Z).
  { destruct (Z_lt_ge_dec (20 * S) ((2 * n - 1) * N)) as [Hc|Hc]; [|lia].
    exfalso.
    assert (Hc' : (20 * S + 1 <= (2 * n - 1) * N)%Z) by lia.
    rewrite Zle_Qle in Hc'.
    rewrite inject_Z_plus, !inject_Z_mult in Hc'.
    unfold Z.sub in Hc'. rewrite inject_Z_plus, inject_Z_mult in Hc'.
    change (inject_Z 20) with 20 in Hc'. change (inject_Z 2) with 2 in Hc'.
    change (inject_Z 1) with 1 in Hc'.
    change (inject_Z (- (1))) with (- (1)) in Hc'.
    rewrite <- Hmu in Hc'.
    assert (Hd : 1 <= (v - mu) * (20 * inject_Z N)) by nra.
    nra. }
  assert (HB : (20 * S <= (2 * n + 1) * N)%Z).
  { destruct (Z_le_gt_dec (20 * S) ((2 * n + 1) * N)) as [Hc|Hc]; [lia|].
    exfalso.
    assert (Hc' : ((2 * n + 1) * N + 1 <= 20 * S)%Z) by lia.
    rewrite Zle_Qle in Hc'.
    rewrite !inject_Z_plus, !inject_Z_mult, inject_Z_plus, inject_Z_mult in Hc'.
    change (inject_Z 20) with 20 in Hc'. change (inject_Z 2) with 2 in Hc'.
    change (inject_Z 1) with 1 in Hc'.
    rewrite <- Hmu in Hc'.
    assert (Hd : 1 <= (mu - v) * (20 * inject_Z N)) by nra.
    nra. }
  apply Z.ge_le in HA.
  rewrite Zle_Qle in HA, HB.
  rewrite !inject_Z_mult, inject_Z_plus, inject_Z_mult in HB.
  unfold Z.sub in HA. rewrite !inject_Z_mult, inject_Z_plus, inject_Z_mult in HA.
  change (inject_Z 20) with 20 in HA, HB. change (inject_Z 2) with 2 in HA, HB.
  change (inject_Z 1) with 1 in HB.
  change (inject_Z (- (1))) with (- (1)) in HA.
  rewrite <- Hmu in HA, HB.
  apply Qabs_Qle_condition.
  assert (Hdiv : inject_Z n / (10 # 1) == inject_Z n * (1 # 10)) by (field).
  rewrite Hdiv.
  split.
  - apply (Qmult_le_r _ _ (inject_Z N) HNq). nra.
  - apply (Qmult_le_r _ _ (inject_Z N) HNq). nra.
Qed.

Lemma toFixed1_small (v : Q) :
  0 < v -> v < inject_Z (10 ^ 21) ->
  Js.toFixed1 (Js.Finite v) = tenths (Qfloor (v * (10 # 1) + (1 # 2))).
Proof.
  intros Hv Hlt. unfold Js.toFixed1.
  assert (E1 : Js.is_negative v = false).
  { unfold Js.is_negative. apply negb_false_iff, Qle_bool_iff. lra. }
  assert (E2 : Qle_bool (inject_Z (10 ^ 21)) v = false).
  { destruct (Qle_bool (inject_Z (10 ^ 21)) v) eqn:E; auto.
    apply Qle_bool_imp_le in E. lra. }
  rewrite E1, (Qabs_positive v Hv), E2. reflexivity.
Qed.

(** The average of at least one and fewer than 2^32 star values. *)
Lemma average_of_stars (vs : list string) :
  vs <> [] ->
  Forall (fun v => In v stars) vs ->
  (Z.of_nat (List.length vs) < 2 ^ 32)%Z ->
  exists n : Z,
    Js.toFixed1
      (Js.div (fold_left Js.add (map Js.parseInt vs) (Js.Finite (0 # 1)))
              (Js.of_nat (List.length vs)))
    = tenths n
    /\ (10 <= n <= 50)%Z
    /\ Qabs (inject_Z n / (10 # 1) - rating_mean vs) <= 1 # 20.
Proof.
  intros Hne Hstars Hlen.
  pose proof (rating_sum_bounds vs Hstars) as [HS1 HS5].
  assert (HN : (1 <= Z.of_nat (List.length vs))%Z).
  { destruct vs; [contradiction | simpl; lia]. }
  change (Js.Finite (0 # 1)) with (Js.Finite (inject_Z 0)).
  rewrite (sum_of_stars vs 0 Hstars) by lia.
  rewrite Z.add_0_l. unfold Js.of_nat, Js.div.
  set (S := rating_sum vs) in *. set (N := Z.of_nat (List.length vs)) in *.
  assert (HNq : 0 < inject_Z N).
  { change 0 with (inject_Z 0). rewrite <- Zlt_Qlt. lia. }
  assert (En : Qeq_bool (inject_Z N) 0 = false).
  { destruct (Qeq_bool (inject_Z N) 0) eqn:E; auto.
    apply Qeq_bool_eq in E. lra. }
  rewrite En.
  set (mu := inject_Z S / inject_Z N).
  assert (Hmu : mu * inject_Z N == inject_Z S) by (unfold mu; field; lra).
  assert (HS1q : inject_Z N <= inject_Z S) by (rewrite <- Zle_Qle; lia).
  assert (HS5q : inject_Z S <= 5 * inject_Z N).
  { change 5 with (inject_Z 5). rewrite <- inject_Z_mult, <- Zle_Qle. lia. }
  assert (Hmu1 : 1 <= mu).
  { unfold mu. apply Qle_shift_div_l; [exact HNq | lra]. }
  assert (Hmu5 : mu <= 5).
  { unfold mu. apply Qle_shift_div_r; [exact HNq | lra]. }
  assert (Hmupos : 0 < mu) by lra.
  destruct (round_between mu 1 5 Hmupos) as [v [Er [Hv1 Hv5]]];
    [lia | exact Hmu1 | exact Hmu5 |].
  destruct (round_error mu 3 Hmupos) as [v' [Er' Herr]];
    [rewrite pow2_3; lra | lia |].
  rewrite Er in Er'. injection Er' as Ev. rewrite <- Ev in Herr.
  replace (3 - 54)%Z with (-51)%Z in Herr by lia.
  change (inject_Z 1) with 1 in Hv1. change (inject_Z 5) with 5 in Hv5.
  rewrite Er, toFixed1_small;
    [| lra | apply Qle_lt_trans with 5; [exact Hv5 | reflexivity]].
  set (n := Qfloor (v * (10 # 1) + (1 # 2))).
  pose proof (Qfloor_le (v * (10 # 1) + (1 # 2))) as Hlo.
  pose proof (Qlt_floor (v * (10 # 1) + (1 # 2))) as Hhi.
  fold n in Hlo, Hhi.
  rewrite inject_Z_plus in Hhi. change (inject_Z 1) with 1 in Hhi.
  exists n. split; [reflexivity|]. split.
  - assert (H10 : inject_Z 9 < inject_Z n).
    { change (inject_Z 9) with 9. lra. }
    assert (H50 : inject_Z n < inject_Z 51).
    { change (inject_Z 51) with 51. lra. }
    rewrite <- Zlt_Qlt in H10, H50. lia.
  - unfold rating_mean. fold S N.
    apply (nearest_tenth S N n v); auto. lia.
Qed.

(** C3 (as amended).  For a rating question, [getQuestionAnalytics]
    returns as total the number of answers to the question.  With no answer
    the average is the string 0.  With at least one answer, each a star
    value from 1 to 5 as the runtime records them, the average is a number
    of tenths between 1.0 and 5.0 printed with one decimal, and it is a
    tenth nearest to the mean of the values (within 0.05 of it).  For the
    answers 4, 5, 3 the average is 4.0 and the total 3. *)
Theorem rating_analytics_average
        (answers : list Answer) (q : Question) :
  questions.type q = "rating" ->
  (Z.of_nat (List.length answers) < 2 ^ 32)%Z ->
  exists average : string,
    getQuestionAnalytics answers q
    = Rating average (List.length (values_for q answers))
    /\ (values_for q answers = [] -> average = "0")
    /\ (values_for q answers <> [] ->
        Forall (fun v => In v stars) (values_for q answers) ->
        exists n : Z,
          average = tenths n
          /\ (10 <= n <= 50)%Z
          /\ Qabs (inject_Z n / (10 # 1) - rating_mean (values_for q answers))
             <= 1 # 20)
    /\ getQuestionAnalytics
         [mkAnswer (questions.id q) "4"; mkAnswer (questions.id q) "5";
          mkAnswer (questions.id q) "3"] q
       = Rating "4.0" 3.
Proof.
  intros Ht Hlen.
  unfold getQuestionAnalytics. rewrite Ht.
  change (is_choice "rating") with false.
  change ("rating" =? "rating")%string with true. cbv iota.
  set (qa := filter (fun a => question_id a =? questions.id q) answers).
  assert (Hvs : values_for q answers = map answer_value qa) by reflexivity.
  assert (Hmap : map (fun a => Js.parseInt (answer_value a)) qa
                 = map Js.parseInt (values_for q answers)).
  { rewrite Hvs, map_map. reflexivity. }
  assert (Hl : List.length (map (fun a => Js.parseInt (answer_value a)) qa)
               = List.length (values_for q answers)).
  { rewrite Hvs, !length_map. reflexivity. }
  rewrite Hl, Hmap.
  eexists. split; [reflexivity|]. split; [|split].
  - intros E. rewrite E. reflexivity.
  - intros Hne Hstars.
    assert (Hpos : (0 <? List.length (values_for q answers))%nat = true).
    { apply Nat.ltb_lt. destruct (values_for q answers);
        [contradiction | simpl; lia]. }
    rewrite Hpos.
    apply average_of_stars; auto.
    assert (Hle : (List.length (values_for q answers)
                   <= List.length answers)%nat).
    { rewrite Hvs, length_map. apply filter_length_le. }
    lia.
  - simpl. rewrite String.eqb_refl. vm_compute. reflexivity.
Qed.

End RatingFacts.

(** The export of the sample results page. *)
Lemma export_csv_layout_witness :
  SurveyResults.content (fst (SurveyResults.exportData "s1" Sample.results))
  = Js.join SurveyResults.newline (csv_lines Sample.results).
Proof.
  destruct (export_csv_layout "s1" Sample.results) as [H _].
  - intros q [<-|[<-|[]]] Hc; [|discriminate Hc].
    repeat constructor.
  - now rewrite H.
Defined.

(** C3 as specified does not hold: without any rating answer the average
    is the string 0, not 0.0. *)
Lemma rating_average_without_answers :
  SurveyResults.getQuestionAnalytics [] Sample.q_week
  = SurveyResults.Rating "0" 0
  /\ "0" <> "0.0".
Proof. split; [reflexivity | discriminate]. Qed.

(** The ratings 4, 5, 3 of the sample answers, of mean 12/3. *)
Lemma rating_analytics_average_witness :
  exists n : Z,
    SurveyResults.getQuestionAnalytics Sample.collected Sample.q_week
    = SurveyResults.Rating (tenths n) 3
    /\ (Qabs (inject_Z n / (10 # 1) - (12 # 3)) <= 1 # 20)%Q.
Proof.
  destruct (rating_analytics_average Sample.collected Sample.q_week eq_refl)
    as [average [Hrun [_ [Hmean _]]]].
  - vm_compute. reflexivity.
  - destruct Hmean as [n [Hn [_ Herr]]].
    + discriminate.
    + repeat constructor; simpl; tauto.
    + exists n. rewrite Hrun, Hn. split; [reflexivity | exact Herr].
Defined.

(* ================================================================== *)
(** ** The number model on sample inputs *)
(* ================================================================== *)

(** [Js.round] agrees with the binary64 operations of the Standard
    Library's [SpecFloat]. *)
Example div_agrees_with_SpecFloat :
  forallb
    (fun '(a, b) =>
       match number_value (Js.div (Js.Finite (inject_Z a))
                                  (Js.Finite (inject_Z b))),
             spec_float_value (SFdiv 53 1024 (double_of_Z a) (double_of_Z b))
       with
       | Some x, Some y => Qeq_bool x y
       | _, _ => false
       end)
    [ (1, 3); (2, 3); (23, 20); (17, 4); (1, 10); (7, 9); (22, 7);
      (1, 1000000007); (4294967295, 4294967296); (-5, 3);
      (9007199254740992, 7); (1, 9007199254740992) ]%Z
  = true.
Proof. vm_compute. reflexivity. Qed.

Example mul_add_agree_with_SpecFloat :
  forallb
    (fun '(a, b) =>
       let x := Js.div (Js.Finite (inject_Z a)) (Js.Finite (inject_Z b)) in
       let y := SFdiv 53 1024 (double_of_Z a) (double_of_Z b) in
       match number_value (Js.mul x (Js.Finite (100 # 1))),
             spec_float_value (SFmul 53 1024 y (double_of_Z 100)),
             number_value (Js.add x (Js.Finite (100 # 1))),
             spec_float_value (SFadd 53 1024 y (double_of_Z 100))
       with
       | Some p, Some p', Some s, Some s' => Qeq_bool p p' && Qeq_bool s s'
       | _, _, _, _ => false
       end)
    [ (1, 3); (2, 3); (23, 20); (17, 4); (1, 10); (7, 9); (22, 7);
      (1, 1000000007); (4294967295, 4294967296) ]%Z
  = true.
Proof. vm_compute. reflexivity. Qed.

Example toFixed1_samples :
  map Js.toFixed1
      [ Js.div (Js.Finite (23 # 1)) (Js.Finite (20 # 1));
        Js.div (Js.Finite (17 # 1)) (Js.Finite (4 # 1));
        Js.div (Js.Finite (-1 # 1)) (Js.Finite (100 # 1));
        Js.round (inject_Z (2 ^ 70));
        Js.round (inject_Z (10 ^ 23));
        Js.div (Js.Finite (0 # 1)) (Js.Finite (0 # 1));
        Js.div (Js.Finite (1 # 1)) (Js.Finite (0 # 1)) ]
  = [ "1.1"; "4.3"; "-0.0"; "1.1805916207174113e+21"; "1e+23"; "NaN";
      "Infinity" ].
Proof. vm_compute. reflexivity. Qed.

Example parseInt_samples :
  map Js.parseInt ["4"; "  42abc"; "0x1f"; "-7.9"; "abc"; EmptyString; "0x"]
  = [ Js.Finite (4 # 1); Js.Finite (42 # 1); Js.Finite (31 # 1);
      Js.Finite (-7 # 1); Js.NaN; Js.NaN; Js.NaN ].
Proof. vm_compute. reflexivity. Qed.

Example keys_samples :
  Js.keys [("b", 1); ("2", 1); ("a", 1); ("10", 3); ("1", 2); ("01", 2)]
  = ["1"; "2"; "10"; "b"; "a"; "01"].
Proof. reflexivity. Qed.

Example trim_samples :
  map Js.trim ["  a b  "; Js.bytes [9; 194; 160; 120; 226; 128; 137; 10]]
  = ["a b"; "x"].
Proof. reflexivity. Qed.

(* ================================================================== *)
(** ** The builder: editing the question list *)
(* ================================================================== *)

Section EditingFacts.
Import CreateSurvey.

Lemma nth_error_remove_at {A : Type} (index : nat) (l : list A) (j : nat) :
  nth_error (remove_at index l) j
  = nth_error l (if (j <? index)%nat then j else S j).
Proof.
  revert index j. induction l as [|x r IH]; intros index j.
  - destruct index; simpl; [destruct j; reflexivity|].
    destruct (j <? S index)%nat; destruct j; reflexivity.
  - destruct index as [|i]; simpl.
    + reflexivity.
    + destruct j as [|j]; simpl; [reflexivity|].
      rewrite IH. change (S j <? S i)%nat with (j <? i)%nat.
      destruct (j <? i)%nat; reflexivity.
Qed.

Lemma remove_at_length {A : Type} (index : nat) (l : list A) :
  (index < List.length l)%nat ->
  S (List.length (remove_at index l)) = List.length l.
Proof.
  revert index. induction l as [|x r IH]; intros index H; simpl in *.
  - lia.
  - destruct index; simpl; [reflexivity|]. rewrite IH; [reflexivity | lia].
Qed.

Lemma remove_at_beyond {A : Type} (index : nat) (l : list A) :
  (List.length l <= index)%nat -> remove_at index l = l.
Proof.
  revert index. induction l as [|x r IH]; intros index H; simpl in *.
  - destruct index; reflexivity.
  - destruct index; [lia|]. simpl. rewrite IH; [reflexivity | lia].
Qed.

Lemma remove_at_last {A : Type} (l : list A) (x : A) :
  remove_at (List.length l) (l ++ [x]) = l.
Proof. induction l as [|y r IH]; simpl; [reflexivity | now rewrite IH]. Qed.

Lemma update_at_beyond {A : Type} (index : nat) (f : A -> A) (l : list A) :
  (List.length l <= index)%nat -> update_at index f l = l.
Proof.
  revert index. induction l as [|x r IH]; intros index H; simpl in *.
  - destruct index; reflexivity.
  - destruct index; [lia|]. simpl. rewrite IH; [reflexivity | lia].
Qed.

Lemma nth_error_update_at {A : Type} (index : nat) (f : A -> A) (l : list A)
      (j : nat) :
  nth_error (update_at index f l) j
  = if Nat.eqb j index then option_map f (nth_error l j) else nth_error l j.
Proof.
  revert index j. induction l as [|x r IH]; intros index j.
  - destruct index, j; simpl; try reflexivity.
    destruct (Nat.eqb j index); reflexivity.
  - destruct index as [|i], j as [|j]; simpl; try reflexivity.
    apply IH.
Qed.

Lemma update_at_twice {A : Type} (index : nat) (f g : A -> A) (l : list A) :
  update_at index g (update_at index f l)
  = update_at index (fun x => g (f x)) l.
Proof.
  revert index. induction l as [|x r IH]; intros index.
  - destruct index; reflexivity.
  - destruct index; simpl; [reflexivity | now rewrite IH].
Qed.

Lemma update_at_same {A : Type} (index : nat) (f : A -> A) (l : list A) :
  (forall x, nth_error l index = Some x -> f x = x) ->
  update_at index f l = l.
Proof.
  revert index. induction l as [|x r IH]; intros index H.
  - destruct index; reflexivity.
  - destruct index; simpl.
    + now rewrite (H x eq_refl).
    + rewrite IH; [reflexivity | exact H].
Qed.

Lemma nth_error_number_from {A B : Type} (f : nat -> A -> B) (k : nat)
      (l : list A) (i : nat) :
  nth_error (Supabase.number_from f k l) i
  = option_map (f (k + i)%nat) (nth_error l i).
Proof.
  revert k i. induction l as [|x r IH]; intros k i.
  - destruct i; reflexivity.
  - destruct i as [|i]; simpl.
    + now rewrite Nat.add_0_r.
    + rewrite IH. now rewrite Nat.add_succ_r.
Qed.

Lemma setQuestions_same (s : State) : setQuestions (questions s) s = s.
Proof. destruct s. reflexivity. Qed.

(** X1.  [addQuestion] appends one question, a multiple_choice one with a
    single empty option, not required, numbered by the count of questions
    so far; the questions already there are untouched, and a list numbered
    by position stays numbered by position. *)
Theorem addQuestion_keeps_positions (s : State) :
  firstn (List.length (questions s)) (questions (addQuestion s)) = questions s
  /\ nth_error (questions (addQuestion s)) (List.length (questions s))
     = Some (mkQuestion "multiple_choice" EmptyString (Some [EmptyString])
                        false (Z.of_nat (List.length (questions s))))
  /\ List.length (questions (addQuestion s)) = S (List.length (questions s))
  /\ (positional (questions s) -> positional (questions (addQuestion s))).
Proof.
  simpl. split; [|split; [|split]].
  - rewrite firstn_app, Nat.sub_diag, firstn_all. simpl. apply app_nil_r.
  - rewrite nth_error_app2, Nat.sub_diag by lia. reflexivity.
  - rewrite length_app. simpl. lia.
  - intros Hpos i q Hq.
    destruct (Nat.lt_ge_cases i (List.length (questions s))) as [Hlt|Hge].
    + rewrite nth_error_app1 in Hq by exact Hlt. now apply Hpos.
    + rewrite nth_error_app2 in Hq by exact Hge.
      destruct (i - List.length (questions s))%nat as [|d] eqn:E.
      * injection Hq as <-. simpl. f_equal. lia.
      * destruct d; discriminate Hq.
Qed.

(** X2.  [removeQuestion] drops the question at the index and keeps the
    others in their order, each with the order index it had: the list is
    not renumbered.  An index past the end changes nothing. *)
Theorem removeQuestion_keeps_the_others (index : nat) (s : State) :
  (forall j,
      nth_error (questions (removeQuestion index s)) j
      = nth_error (questions s) (if (j <? index)%nat then j else S j))
  /\ ((index < List.length (questions s))%nat ->
      S (List.length (questions (removeQuestion index s)))
      = List.length (questions s))
  /\ ((List.length (questions s) <= index)%nat -> removeQuestion index s = s).
Proof.
  split; [|split].
  - intros j. apply nth_error_remove_at.
  - intros H. simpl. now apply remove_at_length.
  - intros H. unfold removeQuestion. rewrite remove_at_beyond by exact H.
    apply setQuestions_same.
Qed.

(** X3.  Removing a question that is not the last one and then adding a
    question leaves two questions with the same order index: the one that
    was last keeps its number, and the new one is numbered by the count. *)
Theorem remove_then_add_repeats_an_index (index : nat) (s : State) :
  positional (questions s) ->
  (S index < List.length (questions s))%nat ->
  exists a b,
    nth_error (questions (addQuestion (removeQuestion index s)))
              (List.length (questions s) - 2) = Some a
    /\ nth_error (questions (addQuestion (removeQuestion index s)))
                 (List.length (questions s) - 1) = Some b
    /\ order_index a = order_index b.
Proof.
  intros Hpos Hlt.
  assert (Hlen : S (List.length (remove_at index (questions s)))
                 = List.length (questions s))
    by (apply remove_at_length; lia).
  set (n := List.length (questions s)) in *.
  destruct (nth_error (questions s) (n - 1)) as [a|] eqn:Ea.
  2:{ apply nth_error_None in Ea. fold n in Ea. lia. }
  exists a, (mkQuestion "multiple_choice" EmptyString (Some [EmptyString])
                        false (Z.of_nat (n - 1))).
  simpl. split; [|split].
  - rewrite nth_error_app1 by lia. rewrite nth_error_remove_at.
    assert (E : (n - 2 <? index)%nat = false) by (apply Nat.ltb_ge; lia).
    rewrite E. replace (S (n - 2)) with (n - 1)%nat by lia. exact Ea.
  - rewrite nth_error_app2 by lia.
    replace (n - 1 - List.length (remove_at index (questions s)))%nat
      with 0%nat by lia.
    simpl. do 2 f_equal. lia.
  - simpl. now apply Hpos.
Qed.

(** X4.  The questions set by a successful generation are the endpoint's,
    in its order and with its type, text, options and required flag, but
    numbered by position whatever order indices the endpoint gave. *)
Theorem generatedQuestions_are_renumbered (data : list Question) :
  positional (generatedQuestions data)
  /\ Forall2 same_content data (generatedQuestions data).
Proof.
  unfold generatedQuestions. split.
  - intros i q Hq. rewrite nth_error_number_from in Hq.
    destruct (nth_error data i); [|discriminate].
    injection Hq as <-. reflexivity.
  - generalize 0%nat. induction data as [|q r IH]; intros k; simpl.
    + constructor.
    + constructor; [repeat split | apply IH].
Qed.

(** X5.  Adding an option row to a question that has options and removing
    that row again gives the page back; on a question without an options
    list [addOption] starts one with a single empty option; and with an
    index past the last question neither handler changes the page. *)
Theorem addOption_then_removeOption (questionIndex : nat) (s : State) :
  (forall q o,
      nth_error (questions s) questionIndex = Some q ->
      options q = Some o ->
      removeOption questionIndex (List.length o) (addOption questionIndex s)
      = s)
  /\ (forall q,
         nth_error (questions s) questionIndex = Some q ->
         options q = None ->
         nth_error (questions (addOption questionIndex s)) questionIndex
         = Some (mkQuestion (type q) (text q) (Some [EmptyString])
                            (required q) (order_index q)))
  /\ (forall j,
         j <> questionIndex ->
         nth_error (questions (addOption questionIndex s)) j
         = nth_error (questions s) j)
  /\ ((List.length (questions s) <= questionIndex)%nat ->
      addOption questionIndex s = s
      /\ forall optionIndex, removeOption questionIndex optionIndex s = s).
Proof.
  split; [|split; [|split]].
  - intros q o Hq Ho. unfold removeOption, addOption.
    destruct s as [t d qs sv ts c nv]. simpl in *.
    unfold setQuestions. simpl. f_equal.
    rewrite update_at_twice. apply update_at_same.
    intros x Hx. rewrite Hq in Hx. injection Hx as <-.
    simpl. rewrite Ho, remove_at_last. rewrite <- Ho.
    destruct q. reflexivity.
  - intros q Hq Ho. simpl. rewrite nth_error_update_at, Nat.eqb_refl, Hq.
    simpl. now rewrite Ho.
  - intros j Hj. simpl. rewrite nth_error_update_at.
    apply Nat.eqb_neq in Hj. now rewrite Hj.
  - intros H. split.
    + unfold addOption. rewrite update_at_beyond by exact H.
      apply setQuestions_same.
    + intros optionIndex. unfold removeOption.
      rewrite update_at_beyond by exact H. apply setQuestions_same.
Qed.

End EditingFacts.

(** The opening builder with two questions added, and its third question
    removed past the end. *)
Lemma removeQuestion_keeps_the_others_witness :
  S (List.length
       (CreateSurvey.questions
          (CreateSurvey.removeQuestion 0 Cases.three_questions))) = 3
  /\ CreateSurvey.removeQuestion 3 Cases.three_questions
     = Cases.three_questions.
Proof.
  destruct (removeQuestion_keeps_the_others 0 Cases.three_questions)
    as [_ [Hlen _]].
  destruct (removeQuestion_keeps_the_others 3 Cases.three_questions)
    as [_ [_ Hsame]].
  split; [apply Hlen; simpl; lia | apply Hsame; simpl; lia].
Defined.

(** After removing the first of three questions and adding one, the last
    two questions are both numbered 2. *)
Lemma remove_then_add_repeats_an_index_witness :
  exists a b,
    nth_error
      (CreateSurvey.questions
         (CreateSurvey.addQuestion
            (CreateSurvey.removeQuestion 0 Cases.three_questions))) 1 = Some a
    /\ nth_error
         (CreateSurvey.questions
            (CreateSurvey.addQuestion
               (CreateSurvey.removeQuestion 0 Cases.three_questions))) 2
       = Some b
    /\ CreateSurvey.order_index a = CreateSurvey.order_index b.
Proof.
  apply (remove_then_add_repeats_an_index 0 Cases.three_questions).
  - intros i q Hq.
    destruct i as [|[|[|i]]]; simpl in Hq;
      try (injection Hq as <-; reflexivity).
    destruct i; discriminate Hq.
  - simpl. lia.
Defined.

(** Counting positions in a builder that is numbered by position. *)
Lemma addQuestion_keeps_positions_witness :
  positional (CreateSurvey.questions
                (CreateSurvey.addQuestion CreateSurvey.initial)).
Proof.
  apply (addQuestion_keeps_positions CreateSurvey.initial).
  intros i q Hq. destruct i as [|i]; simpl in Hq.
  - injection Hq as <-. reflexivity.
  - destruct i; discriminate Hq.
Defined.

(** The first option row of the opening question, added and removed. *)
Lemma addOption_then_removeOption_witness :
  CreateSurvey.removeOption 0 1 (CreateSurvey.addOption 0 CreateSurvey.initial)
  = CreateSurvey.initial
  /\ CreateSurvey.addOption 1 CreateSurvey.initial = CreateSurvey.initial.
Proof.
  destruct (addOption_then_removeOption 0 CreateSurvey.initial)
    as [Hround _].
  destruct (addOption_then_removeOption 1 CreateSurvey.initial)
    as [_ [_ [_ Hbeyond]]].
  split.
  - exact (Hround _ [EmptyString] eq_refl eq_refl).
  - apply Hbeyond. simpl. lia.
Defined.

(* ================================================================== *)
(** ** Trimming, the other way round *)
(* ================================================================== *)

Section TrimConverse.

Lemma strip_prefix_some (p s r : string) :
  Js.strip_prefix p s = Some r -> s = (p ++ r)%string.
Proof.
  revert s. induction p as [|a p IH]; intros s H; simpl in *.
  - now injection H as ->.
  - destruct s as [|b s]; [discriminate|].
    destruct (Ascii.eqb a b) eqn:E; [|discriminate].
    apply Ascii.eqb_eq in E. subst b. now rewrite (IH _ H).
Qed.

Lemma strip_any_some (ps : list string) (s r : string) :
  Js.strip_any ps s = Some r -> exists p, In p ps /\ s = (p ++ r)%string.
Proof.
  induction ps as [|p ps IH]; simpl; [discriminate|].
  destruct (Js.strip_prefix p s) as [r'|] eqn:E.
  - intros H. injection H as ->. exists p. split; [now left|].
    now apply strip_prefix_some.
  - intros H. destruct (IH H) as [q [Hq Hs]]. exists q. split; [now right|].
    exact Hs.
Qed.

Lemma string_append_assoc (a b c : string) :
  ((a ++ b) ++ c = a ++ (b ++ c))%string.
Proof. induction a as [|x a IH]; simpl; [reflexivity | now rewrite IH]. Qed.

Lemma string_append_empty (a : string) : (a ++ EmptyString)%string = a.
Proof. induction a as [|x a IH]; simpl; [reflexivity | now rewrite IH]. Qed.

Lemma strip_leading_stripped (ps : list string) (fuel : nat) (s : string) :
  exists ws,
    Forall (fun w => In w ps) ws
    /\ s = (fold_right String.append EmptyString ws
            ++ Js.strip_leading ps fuel s)%string.
Proof.
  revert s. induction fuel as [|fuel IH]; intros s.
  - exists []. split; [constructor | reflexivity].
  - rewrite strip_leading_step.
    destruct (Js.strip_any ps s) as [r|] eqn:E.
    + destruct (strip_any_some _ _ _ E) as [p [Hp Hs]].
      destruct (IH r) as [ws [Hws Hr]].
      exists (p :: ws). split; [now constructor|].
      simpl. rewrite string_append_assoc, <- Hr. exact Hs.
    + exists []. split; [constructor | reflexivity].
Qed.

Lemma list_ascii_of_string_append (a b : string) :
  list_ascii_of_string (a ++ b)
  = list_ascii_of_string a ++ list_ascii_of_string b.
Proof. induction a as [|x a IH]; simpl; [reflexivity | now rewrite IH]. Qed.

Lemma string_of_list_ascii_append (a b : list ascii) :
  string_of_list_ascii (a ++ b)
  = (string_of_list_ascii a ++ string_of_list_ascii b)%string.
Proof. induction a as [|x a IH]; simpl; [reflexivity | now rewrite IH]. Qed.

Lemma rev_string_involutive (s : string) : Js.rev_string (Js.rev_string s) = s.
Proof.
  unfold Js.rev_string.
  now rewrite list_ascii_of_string_of_list_ascii, rev_involutive,
    string_of_list_ascii_of_string.
Qed.

Lemma rev_string_append (a b : string) :
  Js.rev_string (a ++ b) = (Js.rev_string b ++ Js.rev_string a)%string.
Proof.
  unfold Js.rev_string.
  now rewrite list_ascii_of_string_append, rev_app_distr,
    string_of_list_ascii_append.
Qed.

Lemma rev_string_concat (ws : list string) :
  Js.rev_string (fold_right String.append EmptyString ws)
  = fold_right String.append EmptyString (rev (map Js.rev_string ws)).
Proof.
  induction ws as [|w ws IH]; simpl; [reflexivity|].
  rewrite rev_string_append, IH.
  generalize (rev (map Js.rev_string ws)) as l. intros l.
  induction l as [|x l IHl]; simpl.
  - now rewrite string_append_empty.
  - now rewrite string_append_assoc, IHl.
Qed.

Lemma blank_append (a b : string) : blank a -> blank b -> blank (a ++ b).
Proof.
  intros [wa [Ha ->]] [wb [Hb ->]]. exists (wa ++ wb). split.
  - apply Forall_app. now split.
  - clear Ha Hb. induction wa as [|w wa IH]; simpl; [reflexivity|].
    now rewrite string_append_assoc, IH.
Qed.

Lemma trim_empty_blank (s : string) : Js.trim s = EmptyString -> blank s.
Proof.
  unfold Js.trim, Js.trimEnd. intros H.
  set (t := Js.trimStart s) in *.
  assert (Ht : blank t).
  { apply (f_equal Js.rev_string) in H. rewrite rev_string_involutive in H.
    change (Js.rev_string EmptyString) with EmptyString in H.
    destruct (strip_leading_stripped (map Js.rev_string Js.white_space)
                (String.length t) (Js.rev_string t)) as [ws [Hws Hs]].
    rewrite H, string_append_empty in Hs.
    apply (f_equal Js.rev_string) in Hs.
    rewrite rev_string_involutive, rev_string_concat in Hs.
    exists (rev (map Js.rev_string ws)). split; [|exact Hs].
    apply Forall_rev. apply Forall_map.
    eapply Forall_impl; [|exact Hws]. intros w Hw.
    apply in_map_iff in Hw. destruct Hw as [v [<- Hv]].
    now rewrite rev_string_involutive. }
  destruct (strip_leading_stripped Js.white_space (String.length s) s)
    as [ws [Hws Hs]].
  fold (Js.trimStart s) in Hs. fold t in Hs. rewrite Hs.
  apply blank_append; [|exact Ht]. now exists ws.
Qed.

Lemma trim_blank_iff (s : string) : Js.trim s = EmptyString <-> blank s.
Proof. split; [apply trim_empty_blank | apply trim_blank]. Qed.

Lemma truthy_trim (s : string) :
  Js.truthy_string (Js.trim s) = false <-> blank s.
Proof.
  unfold Js.truthy_string. rewrite negb_false_iff, String.eqb_eq.
  apply trim_blank_iff.
Qed.

Lemma truthy_trim_not_blank (s : string) :
  ~ blank s -> Js.truthy_string (Js.trim s) = true.
Proof.
  intros H. destruct (Js.truthy_string (Js.trim s)) eqn:E; [reflexivity|].
  now apply truthy_trim in E.
Qed.

End TrimConverse.

(* ================================================================== *)
(** ** The builder: generating questions *)
(* ================================================================== *)

Section DialogTheorems.
Import CreateSurvey CreateSurveyDialog.
Variable invoke : string -> invocation.

(** X6.  [generateWithAI] calls the endpoint exactly when the prompt is not
    blank, once, and with the prompt as typed (not trimmed).  With a blank
    prompt it only asks for a prompt: nothing else of the dialog or of the
    builder changes, and the busy flag is not touched. *)
Theorem generateWithAI_asks_once_for_a_prompt (s : State) :
  (blank (aiPrompt s) ->
   generateWithAI invoke s
   = setPage (show (toast_error "Please enter a prompt") (page s)) s)
  /\ (~ blank (aiPrompt s) ->
      invoked (generateWithAI invoke s) = invoked s ++ [aiPrompt s]
      /\ isGenerating (generateWithAI invoke s) = false).
Proof.
  unfold generateWithAI. split.
  - intros H. apply truthy_trim in H. now rewrite H.
  - intros H. rewrite (truthy_trim_not_blank _ H). simpl.
    destruct (invoke (aiPrompt s)) as [m|[data|]]; simpl; auto.
Qed.

(** X7.  Unless the endpoint returns questions, [generateWithAI] leaves the
    builder's title, description and questions, the prompt and the open
    dialog as they are.  On an error it logs it and shows the error's
    message, or a fixed text when the message is empty; on an answer without
    questions it reports nothing at all. *)
Theorem generateWithAI_without_questions (s : State) :
  ~ blank (aiPrompt s) ->
  (forall message,
      invoke (aiPrompt s) = Failed message ->
      generateWithAI invoke s
      = mkState
          (show (toast_error
                   (if Js.truthy_string message then message
                    else "Failed to generate questions")) (page s))
          (aiPrompt s) (isAiDialogOpen s) false
          (invoked s ++ [aiPrompt s]) (logged s ++ [message]))
  /\ (invoke (aiPrompt s) = Returned None ->
      generateWithAI invoke s
      = mkState (page s) (aiPrompt s) (isAiDialogOpen s) false
                (invoked s ++ [aiPrompt s]) (logged s)).
Proof.
  intros H. unfold generateWithAI. rewrite (truthy_trim_not_blank _ H).
  simpl. split.
  - intros message ->. reflexivity.
  - intros ->. reflexivity.
Qed.

(** X8.  When the endpoint returns questions, [generateWithAI] replaces the
    whole question list by them, numbered by position, keeps the title and
    the description, reports the success, closes the dialog and clears the
    prompt.  An empty list returned leaves the builder without questions. *)
Theorem generateWithAI_replaces_the_questions
        (s : State) (data : list Question) :
  ~ blank (aiPrompt s) ->
  invoke (aiPrompt s) = Returned (Some data) ->
  questions (page (generateWithAI invoke s)) = generatedQuestions data
  /\ List.length (questions (page (generateWithAI invoke s)))
     = List.length data
  /\ positional (questions (page (generateWithAI invoke s)))
  /\ title (page (generateWithAI invoke s)) = title (page s)
  /\ description (page (generateWithAI invoke s)) = description (page s)
  /\ toasts (page (generateWithAI invoke s))
     = toasts (page s) ++ [toast_success "Questions generated successfully!"]
  /\ isAiDialogOpen (generateWithAI invoke s) = false
  /\ aiPrompt (generateWithAI invoke s) = EmptyString
  /\ logged (generateWithAI invoke s) = logged s.
Proof.
  intros H Hret. unfold generateWithAI. rewrite (truthy_trim_not_blank _ H).
  simpl. rewrite Hret. simpl. repeat split.
  - unfold generatedQuestions. apply number_from_length.
  - intros i q Hq. unfold generatedQuestions in Hq.
    rewrite nth_error_number_from in Hq.
    destruct (nth_error data i); [|discriminate].
    injection Hq as <-. reflexivity.
Qed.

End DialogTheorems.

Lemma typed_prompt_not_blank : ~ blank "onboarding survey".
Proof. intros H. apply trim_blank in H. vm_compute in H. discriminate H. Qed.

(** A blank prompt of two spaces, and the typed prompt of the sample
    dialog. *)
Lemma generateWithAI_asks_once_for_a_prompt_witness :
  CreateSurveyDialog.invoked
    (CreateSurveyDialog.generateWithAI Cases.endpoint
       (CreateSurveyDialog.setAiPrompt "  " Cases.prompting)) = []
  /\ CreateSurveyDialog.invoked
       (CreateSurveyDialog.generateWithAI Cases.endpoint Cases.prompting)
     = ["onboarding survey"].
Proof.
  destruct (generateWithAI_asks_once_for_a_prompt Cases.endpoint
              (CreateSurveyDialog.setAiPrompt "  " Cases.prompting))
    as [Hblank _].
  destruct (generateWithAI_asks_once_for_a_prompt Cases.endpoint
              Cases.prompting) as [_ Hsent].
  split.
  - rewrite Hblank; [reflexivity|].
    exists [" "; " "]. split; [|reflexivity].
    repeat constructor; vm_compute; tauto.
  - apply Hsent. exact typed_prompt_not_blank.
Defined.

(** The endpoint that fails with a message. *)
Lemma generateWithAI_without_questions_witness :
  CreateSurvey.toasts
    (CreateSurveyDialog.page
       (CreateSurveyDialog.generateWithAI Cases.failing_endpoint
          Cases.prompting))
  = [toast_error "Rate limit exceeded"].
Proof.
  destruct (generateWithAI_without_questions Cases.failing_endpoint
              Cases.prompting typed_prompt_not_blank) as [Hfail _].
  rewrite (Hfail "Rate limit exceeded" eq_refl). reflexivity.
Defined.

(** The endpoint that answers with two questions both numbered 7. *)
Lemma generateWithAI_replaces_the_questions_witness :
  map CreateSurvey.order_index
      (CreateSurvey.questions
         (CreateSurveyDialog.page
            (CreateSurveyDialog.generateWithAI Cases.endpoint
               Cases.prompting)))
  = [0%Z; 1%Z].
Proof.
  destruct (generateWithAI_replaces_the_questions Cases.endpoint
              Cases.prompting _ typed_prompt_not_blank eq_refl) as [H _].
  rewrite H. reflexivity.
Defined.

(* ================================================================== *)
(** ** The builder: the paths of a save *)
(* ================================================================== *)

Section StoreFailures.
Import Supabase.
Variable be : Backend.

Lemma insert_survey_err p w e w1 :
  insert_survey be p w = (Err e, w1) ->
  w1 = mkWorld (db w) (requests w ++ [InsertSurvey p]) (generated w).
Proof.
  unfold insert_survey, send. simpl.
  destruct (unreachable be _); [now intros [= _ <-]|].
  destruct (status_check _); simpl; [|now intros [= _ <-]].
  destruct (survey_exists _ _); simpl; [now intros [= _ <-]|].
  discriminate.
Qed.

Lemma insert_questions_err ps w e w1 :
  insert_questions be ps w = (Err e, w1) ->
  w1 = mkWorld (db w) (requests w ++ [InsertQuestions ps]) (generated w).
Proof.
  unfold insert_questions, send. simpl.
  destruct (unreachable be _); [now intros [= _ <-]|].
  destruct (forallb _ ps); simpl; [|now intros [= _ <-]].
  destruct (forallb _ ps); simpl; [|now intros [= _ <-]].
  destruct (distinct _); simpl; [|now intros [= _ <-]].
  discriminate.
Qed.

Lemma insert_response_err i w e w1 :
  insert_response be i w = (Err e, w1) ->
  w1 = mkWorld (db w) (requests w ++ [InsertResponse i]) (generated w).
Proof.
  unfold insert_response, send. simpl.
  destruct (unreachable be _); [now intros [= _ <-]|].
  destruct (survey_exists _ _); simpl; [|now intros [= _ <-]].
  destruct (response_exists _ _); simpl; [now intros [= _ <-]|].
  discriminate.
Qed.

Lemma insert_answers_err ps w e w1 :
  insert_answers be ps w = (Err e, w1) ->
  w1 = mkWorld (db w) (requests w ++ [InsertAnswers ps]) (generated w).
Proof.
  unfold insert_answers, send. simpl.
  destruct (unreachable be _); [now intros [= _ <-]|].
  destruct (forallb _ ps); simpl; [|now intros [= _ <-]].
  destruct (forallb _ ps); simpl; [|now intros [= _ <-]].
  destruct (distinct _); simpl; [|now intros [= _ <-]].
  discriminate.
Qed.

Lemma result_unit_cases (r : result unit) :
  r = Ok tt \/ exists e, r = Err e.
Proof. destruct r as [[]|e]; [now left | right; now exists e]. Qed.

End StoreFailures.

Section SavePaths.
Import Supabase CreateSurvey.
Variable be : Backend.

Lemma texts_not_blank (qs : list Question) :
  Forall (fun q => ~ blank (text q)) qs ->
  existsb (fun q => negb (Js.truthy_string (Js.trim (text q)))) qs = false.
Proof.
  induction 1 as [|q r Hq _ IH]; simpl; [reflexivity|].
  now rewrite (truthy_trim_not_blank _ Hq), IH.
Qed.

(** X9.  A save that passes the validation sends the Survey insert first,
    with the title and the description as typed (the title is trimmed for
    the test only) and the status asked for; at most one more request
    follows, and the saving flag is down again whatever happened. *)
Theorem saveSurvey_sends_the_title_as_typed
        (status : Status) (s : State) (w : World) :
  ~ blank (title s) ->
  Forall (fun q => ~ blank (text q)) (questions s) ->
  exists rest,
    requests (snd (saveSurvey be status s w))
    = requests w
      ++ InsertSurvey (mkNewSurvey (title s) (description s)
                                   (status_text status)) :: rest
    /\ (List.length rest <= 1)%nat
    /\ saving (fst (saveSurvey be status s w)) = false.
Proof.
  intros Ht Hq. unfold saveSurvey.
  rewrite (truthy_trim_not_blank _ Ht), (texts_not_blank _ Hq). simpl.
  destruct (insert_survey be _ w) as [[survey|e] w1] eqn:E1.
  - destruct (insert_survey_ok _ _ _ _ _ E1) as [_ [_ Hr1]].
    destruct (insert_questions be _ w1) as [[[]|e] w2] eqn:E2.
    + destruct (insert_questions_ok _ _ _ _ E2) as [_ Hr2].
      eexists [_]. simpl. rewrite Hr2, Hr1, <- app_assoc.
      split; [reflexivity | auto].
    + apply insert_questions_err in E2. subst w2.
      eexists [_]. simpl. rewrite Hr1, <- app_assoc.
      split; [reflexivity | auto].
  - apply insert_survey_err in E1. subst w1. exists []. simpl. auto.
Qed.

(** X10.  When the store refuses the Survey insert, [saveSurvey] shows and
    logs the failure, stays on the page, sends nothing more and leaves the
    store as it was. *)
Theorem saveSurvey_survey_insert_refused
        (status : Status) (s : State) (w w1 : World) (e : error) :
  ~ blank (title s) ->
  Forall (fun q => ~ blank (text q)) (questions s) ->
  insert_survey be
    (mkNewSurvey (title s) (description s) (status_text status)) w
  = (Err e, w1) ->
  saveSurvey be status s w
  = (setSaving false
       (console_error e
          (show (toast_error "Failed to save survey") (setSaving true s))),
     w1)
  /\ db w1 = db w
  /\ requests w1
     = requests w
       ++ [InsertSurvey (mkNewSurvey (title s) (description s)
                                     (status_text status))]
  /\ navigated (fst (saveSurvey be status s w)) = navigated s.
Proof.
  intros Ht Hq E1. unfold saveSurvey.
  rewrite (truthy_trim_not_blank _ Ht), (texts_not_blank _ Hq). simpl.
  rewrite E1. apply insert_survey_err in E1. subst w1. simpl. auto.
Qed.

(** X11.  The two inserts of a save are not atomic: when the Survey insert
    is accepted and the Questions insert is refused, [saveSurvey] reports
    the failure and stays on the page, but the Survey row remains in the
    store, with no Question row added for it. *)
Theorem saveSurvey_leaves_survey_without_questions
        (status : Status) (s : State) (w w1 w2 : World)
        (survey : surveys.row) (e : error) :
  ~ blank (title s) ->
  Forall (fun q => ~ blank (text q)) (questions s) ->
  insert_survey be
    (mkNewSurvey (title s) (description s) (status_text status)) w
  = (Ok survey, w1) ->
  insert_questions be (questionsToInsert survey (questions s)) w1
  = (Err e, w2) ->
  saveSurvey be status s w
  = (setSaving false
       (console_error e
          (show (toast_error "Failed to save survey") (setSaving true s))),
     w2)
  /\ surveys_table (db w2) = surveys_table (db w) ++ [survey]
  /\ surveys.title survey = title s
  /\ surveys.status survey = status_text status
  /\ questions_table (db w2) = questions_table (db w)
  /\ navigated (fst (saveSurvey be status s w)) = navigated s.
Proof.
  intros Ht Hq E1 E2. unfold saveSurvey.
  rewrite (truthy_trim_not_blank _ Ht), (texts_not_blank _ Hq). simpl.
  rewrite E1, E2.
  destruct (insert_survey_ok _ _ _ _ _ E1) as [Hr [Hdb _]].
  apply insert_questions_err in E2. subst w2. simpl.
  rewrite Hdb. simpl. subst survey. simpl. auto 10.
Qed.

End SavePaths.

Lemma planning_not_blank : ~ blank "Planning".
Proof. intros H. apply trim_blank in H. vm_compute in H. discriminate H. Qed.

Lemma planning_texts_not_blank :
  Forall (fun q => ~ blank (CreateSurvey.text q))
         (CreateSurvey.questions Cases.unknown_type).
Proof.
  repeat constructor. intros H. apply trim_blank in H.
  vm_compute in H. discriminate H.
Qed.

(** The builder titled Planning, published against the empty store. *)
Lemma saveSurvey_sends_the_title_as_typed_witness :
  exists rest,
    Supabase.requests
      (snd (CreateSurvey.saveSurvey Sample.backend CreateSurvey.published
              Cases.unknown_type Sample.empty_world))
    = Supabase.InsertSurvey
        (Supabase.mkNewSurvey "Planning" EmptyString "published") :: rest.
Proof.
  destruct (saveSurvey_sends_the_title_as_typed Sample.backend
              CreateSurvey.published Cases.unknown_type Sample.empty_world
              planning_not_blank planning_texts_not_blank)
    as [rest [H _]].
  exists rest. exact H.
Defined.

(** The same builder with the store out of reach. *)
Lemma saveSurvey_survey_insert_refused_witness :
  Supabase.db
    (snd (CreateSurvey.saveSurvey Cases.offline CreateSurvey.draft
            Cases.unknown_type Sample.empty_world))
  = Supabase.db Sample.empty_world.
Proof.
  destruct (saveSurvey_survey_insert_refused Cases.offline CreateSurvey.draft
              Cases.unknown_type Sample.empty_world _ _
              planning_not_blank planning_texts_not_blank eq_refl)
    as [H [Hdb _]].
  rewrite H. exact Hdb.
Defined.

(** The question type of the builder is not one the schema allows, so the
    second insert is refused and the survey Planning stays behind. *)
Lemma saveSurvey_leaves_survey_without_questions_witness :
  map Supabase.surveys.title
      (Supabase.surveys_table
         (Supabase.db
            (snd (CreateSurvey.saveSurvey Sample.backend
                    CreateSurvey.published Cases.unknown_type
                    Sample.empty_world))))
  = ["Planning"]
  /\ Supabase.questions_table
       (Supabase.db
          (snd (CreateSurvey.saveSurvey Sample.backend
                  CreateSurvey.published Cases.unknown_type
                  Sample.empty_world)))
     = [].
Proof.
  destruct (saveSurvey_leaves_survey_without_questions Sample.backend
              CreateSurvey.published Cases.unknown_type Sample.empty_world
              _ _ _ _
              planning_not_blank planning_texts_not_blank eq_refl eq_refl)
    as [H _].
  rewrite H. split; reflexivity.
Defined.

(* ================================================================== *)
(** ** The survey runtime: recording answers *)
(* ================================================================== *)

Section RecordingFacts.
Import Supabase TakeSurvey.

Lemma set_NoDup {V : Type} (o : Js.object V) (k : string) (v : V) :
  NoDup (map fst o) -> NoDup (map fst (Js.set o k v)).
Proof.
  intros H. destruct (in_dec string_dec k (map fst o)) as [Hin|Hout].
  - now rewrite keys_set_present.
  - rewrite keys_set_absent by exact Hout.
    apply NoDup_app; [exact H | repeat constructor; intros [] |].
    intros x Hx [<-|[]]. contradiction.
Qed.

Lemma own_set {V : Type} (o : Js.object V) (k k' : string) (v : V) :
  Js.own (Js.set o k v) k' = if k =? k' then Some v else Js.own o k'.
Proof.
  destruct (k =? k') eqn:E.
  - apply String.eqb_eq in E. subst k'. apply own_set_same.
  - apply String.eqb_neq in E. now apply own_set_other.
Qed.

Lemma keys_own {V : Type} (o : Js.object V) (k : string) :
  In k (Js.keys o) <-> Js.own o k <> None.
Proof.
  unfold Js.keys.
  assert (Hp : Permutation (map fst (Js.entries o)) (map fst o))
    by (apply Permutation_map, entries_perm).
  split.
  - intros H Hnone. apply own_none_not_in in Hnone. apply Hnone.
    now apply (Permutation_in _ Hp).
  - intros H. apply (Permutation_in _ (Permutation_sym Hp)).
    destruct (in_dec string_dec k (map fst o)) as [Hin|Hout]; [exact Hin|].
    apply own_none_not_in in Hout. contradiction.
Qed.

Lemma get_set_other (o : Js.object string) (k k' v : string) :
  k <> k' -> get (Js.set o k v) k' = get o k'.
Proof. intros H. unfold get. now rewrite own_set_other. Qed.

Lemma get_set_same (o : Js.object string) (k v : string) :
  get (Js.set o k v) k = Value v.
Proof. unfold get. now rewrite own_set_same. Qed.

(** X12.  Recording answers one after the other keeps one accumulated
    entry per question: the value read back for a question is the one
    recorded last, an entry is never withdrawn (a question that has an
    entry keeps one, so the answered count never goes down), and the
    questions of the page are not touched. *)
Theorem recorded_answers_last_wins
        (events : list (string * string)) (s : State) :
  NoDup (map fst (answers s)) ->
  NoDup (map fst (answers (record_all events s)))
  /\ (forall k,
         Js.own (answers (record_all events s)) k
         = match last_recorded events k with
           | Some v => Some v
           | None => Js.own (answers s) k
           end)
  /\ (forall k,
         In k (Js.keys (answers s)) ->
         In k (Js.keys (answers (record_all events s))))
  /\ (List.length (Js.keys (answers s))
      <= List.length (Js.keys (answers (record_all events s))))%nat
  /\ questions (record_all events s) = questions s.
Proof.
  intros Hwf.
  assert (Hown : forall k,
             Js.own (answers (record_all events s)) k
             = match last_recorded events k with
               | Some v => Some v
               | None => Js.own (answers s) k
               end).
  { revert s Hwf. induction events as [|[k' v] r IH]; intros s Hwf k.
    - reflexivity.
    - unfold record_all in *. simpl.
      rewrite IH by (simpl; now apply set_NoDup).
      simpl. rewrite own_set.
      destruct (last_recorded r k); [reflexivity|].
      destruct (k' =? k); reflexivity. }
  assert (Hnd : NoDup (map fst (answers (record_all events s)))).
  { clear Hown. revert s Hwf.
    induction events as [|[k' v] r IH]; intros s Hwf.
    - exact Hwf.
    - unfold record_all in *. simpl. apply IH. simpl. now apply set_NoDup. }
  assert (Hkeys : forall k,
             In k (Js.keys (answers s)) ->
             In k (Js.keys (answers (record_all events s)))).
  { intros k Hk. apply keys_own. rewrite Hown. apply keys_own in Hk.
    destruct (last_recorded events k); [discriminate | exact Hk]. }
  split; [exact Hnd|]. split; [exact Hown|]. split; [exact Hkeys|]. split.
  - apply NoDup_incl_length; [|exact Hkeys].
    unfold Js.keys.
    apply (Permutation_NoDup
             (Permutation_sym
                (Permutation_map fst (entries_perm (answers s))))).
    exact Hwf.
  - clear. revert s. induction events as [|e r IH]; intros s.
    + reflexivity.
    + unfold record_all in *. simpl. now rewrite IH.
Qed.

(** X13.  Recording a non-empty value for a question takes exactly the
    questions with that identifier out of the list of missing required
    answers, and puts none in. *)
Theorem answering_clears_only_that_question
        (questionId value : string) (s : State) :
  value <> EmptyString ->
  missingAnswers (recordAnswer questionId value s)
  = filter (fun q => negb (questions.id q =? questionId)) (missingAnswers s).
Proof.
  intros Hv. unfold missingAnswers, recordAnswer. simpl.
  induction (filter questions.required (questions s)) as [|q r IH]; simpl.
  - reflexivity.
  - destruct (questions.id q =? questionId) eqn:E.
    + apply String.eqb_eq in E. rewrite E, get_set_same. simpl.
      assert (Ht : Js.truthy_string value = true).
      { unfold Js.truthy_string. apply negb_true_iff.
        now apply String.eqb_neq. }
      rewrite Ht. simpl. rewrite IH.
      destruct (negb (truthy (get (answers s) questionId))); simpl.
      * rewrite E, String.eqb_refl. reflexivity.
      * reflexivity.
    + apply String.eqb_neq in E.
      rewrite get_set_other by congruence.
      destruct (negb (truthy (get (answers s) (questions.id q)))); simpl.
      * apply String.eqb_neq in E. rewrite E. simpl. now rewrite IH.
      * exact IH.
Qed.

End RecordingFacts.

(** Two answers to the first question of the sample page and one to the
    second: the first question reads back its second answer. *)
Lemma recorded_answers_last_wins_witness :
  Js.own
    (TakeSurvey.answers
       (record_all [("q1", "Platform"); ("q2", "4"); ("q1", "Design")]
                   (Sample.taking [])))
    "q1"
  = Some "Design".
Proof.
  destruct (recorded_answers_last_wins
              [("q1", "Platform"); ("q2", "4"); ("q1", "Design")]
              (Sample.taking []) (NoDup_nil _)) as [_ [H _]].
  rewrite H. reflexivity.
Defined.

(** The required first question of the sample page is missing until it is
    answered. *)
Lemma answering_clears_only_that_question_witness :
  TakeSurvey.missingAnswers (Sample.taking []) = [Sample.q_team]
  /\ TakeSurvey.missingAnswers
       (TakeSurvey.recordAnswer "q1" "Platform" (Sample.taking []))
     = [].
Proof.
  split; [reflexivity|].
  rewrite (answering_clears_only_that_question "q1" "Platform"
             (Sample.taking [])).
  - reflexivity.
  - discriminate.
Defined.

(* ================================================================== *)
(** ** The survey runtime: loading and the paths of a submission *)
(* ================================================================== *)

Section OrderFacts.
Import Supabase.

Lemma insert_by_order_perm (q : questions.row) (l : list questions.row) :
  Permutation (insert_by_order q l) (q :: l).
Proof.
  induction l as [|q' r IH]; simpl; [reflexivity|].
  destruct (questions.order_index q' <=? questions.order_index q)%Z.
  - rewrite IH. apply perm_swap.
  - reflexivity.
Qed.

Lemma insert_by_order_head (a q : questions.row) (l : list questions.row) :
  by_order_index a q -> HdRel by_order_index a l ->
  HdRel by_order_index a (insert_by_order q l).
Proof.
  intros Haq Hl. destruct l as [|q' r]; simpl.
  - now constructor.
  - destruct (questions.order_index q' <=? questions.order_index q)%Z.
    + constructor. now inversion Hl.
    + now constructor.
Qed.

Lemma insert_by_order_sorted (q : questions.row) (l : list questions.row) :
  Sorted by_order_index l -> Sorted by_order_index (insert_by_order q l).
Proof.
  induction 1 as [|q' r Hr IH Hhd]; simpl.
  - repeat constructor.
  - destruct (questions.order_index q' <=? questions.order_index q)%Z eqn:E.
    + constructor; [exact IH|]. apply insert_by_order_head; [|exact Hhd].
      unfold by_order_index. lia.
    + constructor; [now constructor|]. constructor.
      unfold by_order_index. lia.
Qed.

Lemma order_by_index_from (l acc : list questions.row) :
  Sorted by_order_index acc ->
  Sorted by_order_index (fold_left (fun acc q => insert_by_order q acc) l acc)
  /\ Permutation (fold_left (fun acc q => insert_by_order q acc) l acc)
                 (acc ++ l).
Proof.
  revert acc. induction l as [|q r IH]; intros acc Hacc; simpl.
  - rewrite app_nil_r. now split.
  - destruct (IH _ (insert_by_order_sorted q acc Hacc)) as [Hs Hp].
    split; [exact Hs|]. rewrite Hp, insert_by_order_perm.
    apply Permutation_middle.
Qed.

Lemma order_by_index_sorted (l : list questions.row) :
  Sorted by_order_index (order_by_index l)
  /\ Permutation (order_by_index l) l.
Proof. apply (order_by_index_from l []). constructor. Qed.

End OrderFacts.

Section RuntimePaths.
Import Supabase TakeSurvey.
Variable be : Backend.
Variable id : string.

(** X14.  When the store is reachable and holds the survey as published,
    [fetchSurvey] puts on the page that survey and exactly the Question
    rows of this survey, in ascending order index; it reads the store with
    two requests and changes nothing in it. *)
Theorem fetchSurvey_loads_the_published_survey
        (s : State) (w : World) (sv : surveys.row) :
  always_reachable be ->
  filter (fun r => (surveys.id r =? id) && (surveys.status r =? "published"))
         (surveys_table (db w)) = [sv] ->
  exists qs : list questions.row,
    fst (fetchSurvey be id s w)
    = setLoading false (setQuestions qs (setSurvey (Some sv) s))
    /\ surveys.id sv = id
    /\ surveys.status sv = "published"
    /\ Sorted by_order_index qs
    /\ Permutation qs
         (filter (fun r => questions.survey_id r =? id)
                 (questions_table (db w)))
    /\ db (snd (fetchSurvey be id s w)) = db w
    /\ requests (snd (fetchSurvey be id s w))
       = requests w ++ [SelectSurvey id (Some "published"); SelectQuestions id].
Proof.
  intros Hup Hsv.
  exists (order_by_index
            (filter (fun r => questions.survey_id r =? id)
                    (questions_table (db w)))).
  assert (Hin : In sv (filter
                         (fun r => (surveys.id r =? id)
                                   && (surveys.status r =? "published"))
                         (surveys_table (db w))))
    by (rewrite Hsv; now left).
  apply filter_In in Hin. destruct Hin as [_ Hin].
  apply andb_true_iff in Hin. destruct Hin as [Hid Hst].
  apply String.eqb_eq in Hid, Hst.
  unfold fetchSurvey, select_survey, select_questions.
  rewrite (send_reached be _ w) by apply Hup.
  cbn [db requests generated]. rewrite Hsv. cbn [single].
  rewrite send_reached by apply Hup.
  cbn [db requests generated fst snd]. rewrite <- app_assoc.
  destruct (order_by_index_sorted
              (filter (fun r => questions.survey_id r =? id)
                      (questions_table (db w)))) as [Hs Hp].
  repeat split; assumption.
Qed.

(** X15.  The load is all or nothing: when the Survey fetch succeeds and
    the Questions fetch fails, [fetchSurvey] discards the survey it got,
    so the page is left with the survey and the questions it had, the
    notification that the survey is unavailable and the logged error. *)
Theorem fetchSurvey_discards_survey_without_questions
        (s : State) (w : World) (sv : surveys.row) :
  unreachable be (List.length (requests w)) = false ->
  unreachable be (S (List.length (requests w))) = true ->
  filter (fun r => (surveys.id r =? id) && (surveys.status r =? "published"))
         (surveys_table (db w)) = [sv] ->
  fst (fetchSurvey be id s w)
  = setLoading false
      (console_error FetchFailed
         (show (toast_error "Survey not found or unavailable") s))
  /\ survey (fst (fetchSurvey be id s w)) = survey s
  /\ questions (fst (fetchSurvey be id s w)) = questions s.
Proof.
  intros U0 U1 Hsv.
  unfold fetchSurvey, select_survey, select_questions.
  rewrite (send_reached be _ w) by exact U0.
  cbn [db requests generated]. rewrite Hsv. cbn [single].
  rewrite send_dropped
    by (cbn [requests]; rewrite length_app, Nat.add_1_r; exact U1).
  cbn [fst snd]. repeat split.
Qed.

(** X16.  When the store refuses the Response insert, [handleSubmit]
    shows and logs the failure, does not mark the survey as submitted,
    sends nothing more and leaves the store as it was. *)
Theorem handleSubmit_response_insert_refused
        (s : State) (w w1 : World) (e : error) :
  missingAnswers s = [] ->
  insert_response be id w = (Err e, w1) ->
  handleSubmit be id s w
  = (setSubmitting false
       (console_error e
          (show (toast_error "Failed to submit survey") (setSubmitting true s))),
     w1)
  /\ submitted (fst (handleSubmit be id s w)) = submitted s
  /\ db w1 = db w
  /\ requests w1 = requests w ++ [InsertResponse id].
Proof.
  intros Hm E1. unfold handleSubmit. rewrite Hm. cbn [List.length Nat.ltb Nat.leb].
  rewrite E1. apply insert_response_err in E1. subst w1. simpl. auto.
Qed.

(** X17.  The two inserts of a submission are not atomic: when the
    Response insert is accepted and the Answers insert is refused,
    [handleSubmit] reports the failure and does not mark the survey as
    submitted, but the Response row remains in the store; no Answer row
    was added, and in a store whose Answer rows all belong to stored
    Responses no Answer row belongs to the new Response. *)
Theorem handleSubmit_leaves_response_without_answers
        (s : State) (w w1 w2 : World) (r : responses.row) (e : error) :
  missingAnswers s = [] ->
  insert_response be id w = (Ok r, w1) ->
  insert_answers be (answersToInsert r s) w1 = (Err e, w2) ->
  handleSubmit be id s w
  = (setSubmitting false
       (console_error e
          (show (toast_error "Failed to submit survey") (setSubmitting true s))),
     w2)
  /\ submitted (fst (handleSubmit be id s w)) = submitted s
  /\ responses_table (db w2) = responses_table (db w) ++ [r]
  /\ responses.survey_id r = id
  /\ answers_table (db w2) = answers_table (db w)
  /\ (answers_have_responses (db w) ->
      Forall (fun a => answers.response_id a <> responses.id r)
             (answers_table (db w2))).
Proof.
  intros Hm E1 E2. unfold handleSubmit. rewrite Hm.
  cbn [List.length Nat.ltb Nat.leb]. rewrite E1. cbv beta iota zeta.
  change (answersToInsert r (setSubmitting true s))
    with (answersToInsert r s).
  rewrite E2.
  assert (Hfresh : response_exists (db w) (responses.id r) = false).
  { revert E1. unfold insert_response, send. simpl.
    destruct (unreachable be _); [discriminate|].
    destruct (survey_exists _ _); simpl; [|discriminate].
    destruct (response_exists _ _) eqn:Ex; simpl; [discriminate|].
    intros [= <- _]. exact Ex. }
  destruct (insert_response_ok _ _ _ _ _ E1) as [Hr [Hdb _]].
  apply insert_answers_err in E2. subst w2. cbn [fst snd db].
  rewrite Hdb. cbn [responses_table answers_table].
  split; [reflexivity|]. split; [reflexivity|]. split; [reflexivity|].
  split; [now rewrite Hr|]. split; [reflexivity|].
  intros Hall. unfold answers_have_responses in Hall.
  eapply Forall_impl; [|exact Hall].
  intros a Ha Heq. simpl in Ha. rewrite Heq in Ha. congruence.
Qed.

(** X18.  The page is marked as submitted only by a submission that
    passed the validation and whose Response insert and Answers insert
    were both accepted by the store. *)
Theorem submitted_only_when_stored (s : State) (w : World) :
  submitted s = false ->
  submitted (fst (handleSubmit be id s w)) = true ->
  missingAnswers s = []
  /\ exists r w1,
       insert_response be id w = (Ok r, w1)
       /\ insert_answers be (answersToInsert r s) w1
          = (Ok tt, snd (handleSubmit be id s w)).
Proof.
  intros H0. unfold handleSubmit.
  destruct (missingAnswers s) as [|q l]; cbn [List.length Nat.ltb Nat.leb].
  2:{ simpl. congruence. }
  destruct (insert_response be id w) as [[r|e] w1] eqn:E1.
  2:{ simpl. congruence. }
  cbv beta iota zeta.
  change (answersToInsert r (setSubmitting true s))
    with (answersToInsert r s).
  destruct (insert_answers be (answersToInsert r s) w1) as [[[]|e] w2] eqn:E2.
  2:{ simpl. congruence. }
  intros _. split; [reflexivity|]. exists r, w1. split; [reflexivity|].
  exact E2.
Qed.

End RuntimePaths.

Lemma sample_backend_reachable : always_reachable Sample.backend.
Proof. intros n. reflexivity. Qed.

(** Loading the published sample survey. *)
Lemma fetchSurvey_loads_the_published_survey_witness :
  exists qs,
    fst (TakeSurvey.fetchSurvey Sample.backend "s1" TakeSurvey.initial
           Sample.world)
    = TakeSurvey.setLoading false
        (TakeSurvey.setQuestions qs
           (TakeSurvey.setSurvey (Some Sample.pulse) TakeSurvey.initial)).
Proof.
  destruct (fetchSurvey_loads_the_published_survey Sample.backend "s1"
              TakeSurvey.initial Sample.world Sample.pulse
              sample_backend_reachable eq_refl) as [qs [H _]].
  exists qs. exact H.
Defined.

(** The same load with the second request dropped. *)
Lemma fetchSurvey_discards_survey_without_questions_witness :
  TakeSurvey.survey
    (fst (TakeSurvey.fetchSurvey Cases.drops_second "s1" TakeSurvey.initial
            Sample.world))
  = None.
Proof.
  destruct (fetchSurvey_discards_survey_without_questions Cases.drops_second
              "s1" TakeSurvey.initial Sample.world Sample.pulse
              eq_refl eq_refl eq_refl) as [_ [H _]].
  rewrite H. reflexivity.
Defined.

(** A complete answer sheet submitted while the store is out of reach. *)
Lemma handleSubmit_response_insert_refused_witness :
  Supabase.db
    (snd (TakeSurvey.handleSubmit Cases.offline "s1"
            (Sample.taking [("q1", "Platform")]) Sample.world))
  = Sample.store.
Proof.
  destruct (handleSubmit_response_insert_refused Cases.offline "s1"
              (Sample.taking [("q1", "Platform")]) Sample.world _ _
              eq_refl eq_refl) as [H [_ [Hdb _]]].
  rewrite H. exact Hdb.
Defined.

(** The same sheet with the second request, the Answers insert, dropped. *)
Lemma handleSubmit_leaves_response_without_answers_witness :
  List.length
    (Supabase.responses_table
       (Supabase.db
          (snd (TakeSurvey.handleSubmit Cases.drops_second "s1"
                  (Sample.taking [("q1", "Platform")]) Sample.world))))
  = 1
  /\ Supabase.answers_table
       (Supabase.db
          (snd (TakeSurvey.handleSubmit Cases.drops_second "s1"
                  (Sample.taking [("q1", "Platform")]) Sample.world)))
     = [].
Proof.
  destruct (handleSubmit_leaves_response_without_answers Cases.drops_second
              "s1" (Sample.taking [("q1", "Platform")]) Sample.world
              _ _ _ _ eq_refl eq_refl eq_refl) as [H _].
  rewrite H. split; reflexivity.
Defined.

(** The same sheet accepted by the store. *)
Lemma submitted_only_when_stored_witness :
  TakeSurvey.missingAnswers (Sample.taking [("q1", "Platform")]) = [].
Proof.
  destruct (submitted_only_when_stored Sample.backend "s1"
              (Sample.taking [("q1", "Platform")]) Sample.world
              eq_refl eq_refl) as [H _].
  exact H.
Defined.

(* ================================================================== *)
(** ** The results page: loading and the analytics *)
(* ================================================================== *)

Section ResultsPaths.
Import Supabase SurveyResults.
Variable be : Backend.
Variable id : string.

(** X19.  For a survey nobody has answered, [fetchData] shows the survey
    and its questions with a response count of zero, keeps the answers the
    page held, and does not ask the store for answers: three requests are
    sent, not four. *)
Theorem fetchData_without_responses
        (s : State) (w : World) (sv : surveys.row) :
  always_reachable be ->
  filter (fun r => surveys.id r =? id) (surveys_table (db w)) = [sv] ->
  filter (fun r => responses.survey_id r =? id) (responses_table (db w)) = [] ->
  exists qs : list questions.row,
    fst (fetchData be id s w)
    = setLoading false
        (setResponseCount 0 (setQuestions qs (setSurvey (Some sv) s)))
    /\ Sorted by_order_index qs
    /\ Permutation qs
         (filter (fun r => questions.survey_id r =? id)
                 (questions_table (db w)))
    /\ answers (fst (fetchData be id s w)) = answers s
    /\ requests (snd (fetchData be id s w))
       = requests w
         ++ [SelectSurvey id None; SelectQuestions id; SelectResponseIds id].
Proof.
  intros Hup Hsv Hrs.
  exists (order_by_index
            (filter (fun r => questions.survey_id r =? id)
                    (questions_table (db w)))).
  unfold fetchData, select_survey, select_questions, select_response_ids.
  rewrite (send_reached be _ w) by apply Hup.
  cbn [db requests generated].
  rewrite (filter_ext _ (fun r => surveys.id r =? id))
    by (intros r; apply andb_true_r).
  rewrite Hsv. cbn [single].
  rewrite send_reached by apply Hup.
  cbn [db requests generated].
  rewrite send_reached by apply Hup.
  cbn [db requests generated]. rewrite Hrs.
  cbn [map List.length fst snd requests]. rewrite <- !app_assoc.
  destruct (order_by_index_sorted
              (filter (fun r => questions.survey_id r =? id)
                      (questions_table (db w)))) as [Hs Hp].
  repeat split; assumption.
Qed.

Lemma answers_of_responses (ids : list responses.row) (a : answers.row) :
  existsb (String.eqb (answers.response_id a))
          (map responses.id
               (filter (fun r => responses.survey_id r =? id) ids))
  = existsb (fun r => (responses.survey_id r =? id)
                      && (responses.id r =? answers.response_id a)) ids.
Proof.
  induction ids as [|r l IH]; simpl.
  - reflexivity.
  - destruct (responses.survey_id r =? id); simpl.
    + rewrite IH. now rewrite (String.eqb_sym (responses.id r)).
    + exact IH.
Qed.

Lemma fetchData_with_responses (s : State) (w : World) (sv : surveys.row) :
  always_reachable be ->
  filter (fun r => surveys.id r =? id) (surveys_table (db w)) = [sv] ->
  filter (fun r => responses.survey_id r =? id) (responses_table (db w)) <> [] ->
  fst (fetchData be id s w)
  = setLoading false
      (setAnswers
         (map (fun a => mkAnswer (answers.question_id a)
                                 (answers.answer_value a))
              (filter
                 (fun a =>
                    existsb
                      (fun r => (responses.survey_id r =? id)
                                && (responses.id r =? answers.response_id a))
                      (responses_table (db w)))
                 (answers_table (db w))))
         (setResponseCount
            (List.length
               (filter (fun r => responses.survey_id r =? id)
                       (responses_table (db w))))
            (setQuestions
               (order_by_index
                  (filter (fun r => questions.survey_id r =? id)
                          (questions_table (db w))))
               (setSurvey (Some sv) s)))).
Proof.
  intros Hup Hsv Hrs.
  unfold fetchData, select_survey, select_questions, select_response_ids,
    select_answers.
  rewrite (send_reached be _ w) by apply Hup.
  cbn [db requests generated].
  rewrite (filter_ext _ (fun r => surveys.id r =? id))
    by (intros r; apply andb_true_r).
  rewrite Hsv. cbn [single].
  rewrite send_reached by apply Hup.
  cbn [db requests generated].
  rewrite send_reached by apply Hup.
  cbn [db requests generated].
  rewrite <- (filter_ext _ _ (answers_of_responses (responses_table (db w)))).
  destruct (filter (fun r => responses.survey_id r =? id)
                   (responses_table (db w))) as [|r0 rest]; [congruence|].
  cbn [map]. rewrite send_reached by apply Hup.
  cbn [db requests generated fst snd]. rewrite map_map.
  simpl. now rewrite length_map.
Qed.

(** X20.  For a survey with responses, [fetchData] counts the Response
    rows of this survey and loads, in table order, exactly the Answer rows
    that belong to one of them; the answers of other surveys are left
    out. *)
Theorem fetchData_loads_the_answers_of_this_survey
        (s : State) (w : World) (sv : surveys.row) :
  always_reachable be ->
  filter (fun r => surveys.id r =? id) (surveys_table (db w)) = [sv] ->
  filter (fun r => responses.survey_id r =? id) (responses_table (db w)) <> [] ->
  survey (fst (fetchData be id s w)) = Some sv
  /\ responseCount (fst (fetchData be id s w))
     = List.length
         (filter (fun r => responses.survey_id r =? id)
                 (responses_table (db w)))
  /\ (exists rows : list answers.row,
         answers (fst (fetchData be id s w))
         = map (fun a => mkAnswer (answers.question_id a)
                                  (answers.answer_value a)) rows
         /\ rows
            = filter
                (fun a =>
                   existsb
                     (fun r => (responses.survey_id r =? id)
                               && (responses.id r =? answers.response_id a))
                     (responses_table (db w)))
                (answers_table (db w)))
  /\ toasts (fst (fetchData be id s w)) = toasts s
  /\ loading (fst (fetchData be id s w)) = false.
Proof.
  intros Hup Hsv Hrs.
  rewrite (fetchData_with_responses s w sv Hup Hsv Hrs).
  split; [reflexivity|]. split; [reflexivity|].
  split; [|split; reflexivity].
  eexists. split; reflexivity.
Qed.

(** X21.  The results load is not all or nothing: when the first three
    fetches succeed and the Answers fetch fails, [fetchData] reports and
    logs the failure but keeps the survey, the questions and the response
    count it has just set, next to the answers the page held before. *)
Theorem fetchData_keeps_counts_when_answers_fail
        (s : State) (w : World) (sv : surveys.row) :
  unreachable be (List.length (requests w)) = false ->
  unreachable be (S (List.length (requests w))) = false ->
  unreachable be (S (S (List.length (requests w)))) = false ->
  unreachable be (S (S (S (List.length (requests w))))) = true ->
  filter (fun r => surveys.id r =? id) (surveys_table (db w)) = [sv] ->
  filter (fun r => responses.survey_id r =? id) (responses_table (db w)) <> [] ->
  exists qs : list questions.row,
    fst (fetchData be id s w)
    = setLoading false
        (console_error FetchFailed
           (show (toast_error "Failed to load survey results")
              (setResponseCount
                 (List.length
                    (filter (fun r => responses.survey_id r =? id)
                            (responses_table (db w))))
                 (setQuestions qs (setSurvey (Some sv) s)))))
    /\ answers (fst (fetchData be id s w)) = answers s.
Proof.
  intros U0 U1 U2 U3 Hsv Hrs.
  exists (order_by_index
            (filter (fun r => questions.survey_id r =? id)
                    (questions_table (db w)))).
  unfold fetchData, select_survey, select_questions, select_response_ids,
    select_answers.
  rewrite (send_reached be _ w) by exact U0.
  cbn [db requests generated].
  rewrite (filter_ext _ (fun r => surveys.id r =? id))
    by (intros r; apply andb_true_r).
  rewrite Hsv. cbn [single].
  rewrite send_reached
    by (cbn [requests]; rewrite length_app, Nat.add_1_r; exact U1).
  cbn [db requests generated].
  rewrite send_reached
    by (cbn [requests]; rewrite !length_app, !Nat.add_1_r; exact U2).
  cbn [db requests generated].
  destruct (filter (fun r => responses.survey_id r =? id)
                   (responses_table (db w))) as [|r0 rest]; [congruence|].
  cbn [map]. rewrite send_dropped
    by (cbn [requests]; rewrite !length_app, !Nat.add_1_r; exact U3).
  cbn [fst snd]. split; [|reflexivity].
  simpl. now rewrite length_map.
Qed.

End ResultsPaths.

Section AnalyticsFacts.
Import Supabase SurveyResults.

Lemma counts_total_perm (a b : list (string * nat)) :
  Permutation a b -> counts_total a = counts_total b.
Proof.
  induction 1 as [|x l l' _ IH|x y l|l l' l'' _ IH1 _ IH2]; simpl; lia.
Qed.

Lemma counts_total_count (acc : Js.object nat) (a : Answer) :
  counts_total (count_answer acc a) = S (counts_total acc).
Proof.
  unfold count_answer. generalize (answer_value a) as k. intros k.
  induction acc as [|[k' n] r IH]; simpl.
  - reflexivity.
  - destruct (k' =? k); simpl; [lia|]. rewrite IH. lia.
Qed.

Lemma counts_total_tally (l : list Answer) (acc : Js.object nat) :
  counts_total (fold_left count_answer l acc)
  = (counts_total acc + List.length l)%nat.
Proof.
  revert acc. induction l as [|a r IH]; intros acc; simpl.
  - lia.
  - rewrite IH, counts_total_count. lia.
Qed.

Lemma add_NaN_r (x : Js.number) : Js.add x Js.NaN = Js.NaN.
Proof. destruct x; reflexivity. Qed.

Lemma sum_from_NaN (l : list Js.number) : fold_left Js.add l Js.NaN = Js.NaN.
Proof. induction l as [|x r IH]; simpl; [reflexivity | exact IH]. Qed.

Lemma sum_with_NaN (l : list Js.number) (x : Js.number) :
  In Js.NaN l -> fold_left Js.add l x = Js.NaN.
Proof.
  revert x. induction l as [|y r IH]; intros x; simpl; [tauto|].
  intros [->|H].
  - rewrite add_NaN_r. apply sum_from_NaN.
  - now apply IH.
Qed.

(** X22.  For a multiple_choice or dropdown question the counts of the
    tally add up to the number of answers to the question: every answer is
    counted once, under its own value.  The values are taken not to be
    names inherited from [Object.prototype], the case [count_answer]
    describes. *)
Theorem choice_counts_add_up (answers : list Answer) (q : Question) :
  is_choice (questions.type q) = true ->
  Forall own_name (values_for q answers) ->
  exists data : list (string * nat),
    getQuestionAnalytics answers q = Counts data
    /\ counts_total data = List.length (values_for q answers).
Proof.
  intros Hc _. unfold getQuestionAnalytics. rewrite Hc.
  eexists. split; [reflexivity|].
  rewrite (counts_total_perm _ _ (entries_perm _)), counts_total_tally.
  unfold values_for. now rewrite length_map.
Qed.

(** X23.  One answer to a rating question whose value does not start with
    a number (an empty or a textual value, after optional white space and
    sign) makes the average of the question NaN, whatever the other
    answers are. *)
Theorem rating_average_of_unreadable_answer
        (answers : list Answer) (q : Question) (v : string) :
  questions.type q = "rating" ->
  In v (values_for q answers) ->
  Js.parseInt v = Js.NaN ->
  getQuestionAnalytics answers q
  = Rating "NaN" (List.length (values_for q answers)).
Proof.
  intros Ht Hin Hv. unfold getQuestionAnalytics. rewrite Ht.
  cbn [is_choice String.eqb Ascii.eqb Bool.eqb orb].
  unfold values_for in *.
  set (qa := filter (fun a => question_id a =? questions.id q) answers) in *.
  rewrite !length_map.
  assert (Hnan : In Js.NaN (map (fun a => Js.parseInt (answer_value a)) qa)).
  { apply in_map_iff in Hin. destruct Hin as [a [Ha Hqa]].
    apply in_map_iff. exists a. split; [now rewrite Ha | exact Hqa]. }
  assert (Hpos : (0 <? List.length qa)%nat = true).
  { apply Nat.ltb_lt. destruct qa; simpl in *; [tauto | lia]. }
  rewrite Hpos, (sum_with_NaN _ _ Hnan). reflexivity.
Qed.

End AnalyticsFacts.

(** The results of the answered sample store. *)
Lemma fetchData_loads_the_answers_of_this_survey_witness :
  SurveyResults.responseCount
    (fst (SurveyResults.fetchData Sample.backend "s1" SurveyResults.initial
            Sample.answered_world))
  = 2.
Proof.
  destruct (fetchData_loads_the_answers_of_this_survey Sample.backend "s1"
              SurveyResults.initial Sample.answered_world Sample.pulse
              sample_backend_reachable eq_refl)
    as [_ [H _]].
  - discriminate.
  - rewrite H. reflexivity.
Defined.

(** The draft of the sample store, which nobody has answered. *)
Lemma fetchData_without_responses_witness :
  exists qs,
    fst (SurveyResults.fetchData Sample.backend "s2" SurveyResults.initial
           Sample.answered_world)
    = SurveyResults.setLoading false
        (SurveyResults.setResponseCount 0
           (SurveyResults.setQuestions qs
              (SurveyResults.setSurvey (Some Sample.offsite)
                                       SurveyResults.initial))).
Proof.
  destruct (fetchData_without_responses Sample.backend "s2"
              SurveyResults.initial Sample.answered_world Sample.offsite
              sample_backend_reachable eq_refl eq_refl) as [qs [H _]].
  exists qs. exact H.
Defined.

(** The answered sample store behind a backend that drops the fourth
    request. *)
Lemma fetchData_keeps_counts_when_answers_fail_witness :
  SurveyResults.responseCount
    (fst (SurveyResults.fetchData
            (Supabase.mkBackend (Supabase.gen_random_uuid Sample.backend)
                                (fun n => Nat.eqb n 3))
            "s1" SurveyResults.initial Sample.answered_world))
  = 2.
Proof.
  destruct (fetchData_keeps_counts_when_answers_fail
              (Supabase.mkBackend (Supabase.gen_random_uuid Sample.backend)
                                  (fun n => Nat.eqb n 3))
              "s1" SurveyResults.initial Sample.answered_world Sample.pulse
              eq_refl eq_refl eq_refl eq_refl eq_refl)
    as [qs [H _]].
  - discriminate.
  - rewrite H. reflexivity.
Defined.

(** The choice question of the sample results page: three answers. *)
Lemma choice_counts_add_up_witness :
  exists data,
    SurveyResults.getQuestionAnalytics Sample.collected Sample.q_size
    = SurveyResults.Counts data
    /\ counts_total data = 3.
Proof.
  apply (choice_counts_add_up Sample.collected Sample.q_size).
  - reflexivity.
  - repeat constructor.
Defined.

(** A rating answered once with a number and once with a word. *)
Lemma rating_average_of_unreadable_answer_witness :
  SurveyResults.getQuestionAnalytics
    [SurveyResults.mkAnswer "q2" "4"; SurveyResults.mkAnswer "q2" "good"]
    Sample.q_week
  = SurveyResults.Rating "NaN" 2.
Proof.
  apply (rating_average_of_unreadable_answer
           [SurveyResults.mkAnswer "q2" "4";
            SurveyResults.mkAnswer "q2" "good"] Sample.q_week "good").
  - reflexivity.
  - simpl. tauto.
  - reflexivity.
Defined.

(* ================================================================== *)
(** ** The templates page: creating a survey from a template *)
(* ================================================================== *)

Section TemplatePaths.
Import Supabase Templates.
Variable be : Backend.

Lemma template_insert_survey_ok t d st w r w1 :
  insert_survey be t d st w = (Ok r, w1) ->
  r = surveys.mk (gen_random_uuid be (generated w)) t d st
  /\ db w1 = mkDb (surveys_table (db w) ++ [r]) (questions_table (db w))
                  (responses_table (db w)) (answers_table (db w))
  /\ requests w1 = requests w ++ [InsertSurvey t d st].
Proof.
  unfold insert_survey, send. simpl.
  destruct (unreachable be _); [discriminate|].
  destruct (status_check _); simpl; [|discriminate].
  destruct (survey_exists _ _); simpl; [discriminate|].
  intros [= <- <-]. simpl. auto.
Qed.

Lemma template_insert_survey_err t d st w e w1 :
  insert_survey be t d st w = (Err e, w1) ->
  w1 = mkWorld (db w) (requests w ++ [InsertSurvey t d st]) (generated w).
Proof.
  unfold insert_survey, send. simpl.
  destruct (unreachable be _); [now intros [= _ <-]|].
  destruct (status_check _); simpl; [|now intros [= _ <-]].
  destruct (survey_exists _ _); simpl; [now intros [= _ <-]|].
  discriminate.
Qed.

Lemma template_insert_questions_ok ps w w2 :
  insert_questions be ps w = (Ok tt, w2) ->
  db w2 = mkDb (surveys_table (db w))
               (questions_table (db w)
                ++ number_from (question_row be (generated w)) 0 ps)
               (responses_table (db w)) (answers_table (db w))
  /\ requests w2 = requests w ++ [InsertQuestions ps].
Proof.
  unfold insert_questions, send. simpl.
  destruct (unreachable be _); [discriminate|].
  destruct (forallb _ ps); simpl; [|discriminate].
  destruct (forallb _ ps); simpl; [|discriminate].
  destruct (distinct _); simpl; [|discriminate].
  intros [= <-]. simpl. auto.
Qed.

Lemma template_insert_questions_err ps w e w1 :
  insert_questions be ps w = (Err e, w1) ->
  w1 = mkWorld (db w) (requests w ++ [InsertQuestions ps]) (generated w).
Proof.
  unfold insert_questions, send. simpl.
  destruct (unreachable be _); [now intros [= _ <-]|].
  destruct (forallb _ ps); simpl; [|now intros [= _ <-]].
  destruct (forallb _ ps); simpl; [|now intros [= _ <-]].
  destruct (distinct _); simpl; [|now intros [= _ <-]].
  discriminate.
Qed.

Lemma template_rows_stored (g k : nat) (survey : surveys.row)
      (qs : list question) :
  Forall2
    (fun q row =>
       questions.survey_id row = surveys.id survey
       /\ questions.type row = type q
       /\ questions.text row = text q
       /\ questions.options row = options q
       /\ questions.required row = required q
       /\ questions.order_index row = order_index q)
    qs (number_from (question_row be g) k (questionsToInsert survey qs)).
Proof.
  revert k. induction qs as [|q r IH]; intros k; simpl; constructor.
  - repeat split.
  - apply IH.
Qed.

(** X24.  When the store accepts the two inserts, [useTemplate] creates a
    survey that is a draft, titled by the template's name and described by
    the template's description (null when the template has none), and one
    Question row per question of the template, in the template's order,
    with its type, text, required flag and order index and with its options
    as they are: an empty options list is stored as an empty list, not as
    null.  It then reports the success and goes to the dashboard. *)
Theorem useTemplate_creates_a_draft
        (template : Template) (s : State) (w w1 w2 : World)
        (survey : surveys.row) :
  insert_survey be (name template) (description template) "draft" w
  = (Ok survey, w1) ->
  insert_questions be
    (questionsToInsert survey (questions (template_data template))) w1
  = (Ok tt, w2) ->
  exists rows : list questions.row,
    useTemplate be template s w
    = (navigate "/" (show (toast_success "Survey created from template!") s),
       w2)
    /\ surveys_table (db w2) = surveys_table (db w) ++ [survey]
    /\ surveys.title survey = name template
    /\ surveys.description survey = description template
    /\ surveys.status survey = "draft"
    /\ questions_table (db w2) = questions_table (db w) ++ rows
    /\ Forall2
         (fun q row =>
            questions.survey_id row = surveys.id survey
            /\ questions.type row = type q
            /\ questions.text row = text q
            /\ questions.options row = options q
            /\ questions.required row = required q
            /\ questions.order_index row = order_index q)
         (questions (template_data template)) rows.
Proof.
  intros E1 E2.
  exists (number_from (question_row be (generated w1)) 0
            (questionsToInsert survey (questions (template_data template)))).
  unfold useTemplate. rewrite E1, E2.
  destruct (template_insert_survey_ok _ _ _ _ _ _ E1) as [Hr [Hdb1 _]].
  destruct (template_insert_questions_ok _ _ _ E2) as [Hdb2 _].
  rewrite Hdb2, Hdb1. cbn [surveys_table questions_table].
  split; [reflexivity|]. split; [reflexivity|].
  split; [now rewrite Hr|]. split; [now rewrite Hr|].
  split; [now rewrite Hr|]. split; [reflexivity|].
  apply template_rows_stored.
Qed.

(** X25.  The failures of [useTemplate]: when the Survey insert is
    refused, the store is left as it was; when the Survey insert is
    accepted and the Questions insert is refused, the draft survey stays in
    the store without any question.  Both times the failure is shown and
    logged and the page is not left. *)
Theorem useTemplate_failures
        (template : Template) (s : State) (w : World) :
  (forall e w1,
      insert_survey be (name template) (description template) "draft" w
      = (Err e, w1) ->
      useTemplate be template s w
      = (console_error e
           (show (toast_error "Failed to create survey from template") s),
         w1)
      /\ db w1 = db w)
  /\ (forall survey w1 e w2,
         insert_survey be (name template) (description template) "draft" w
         = (Ok survey, w1) ->
         insert_questions be
           (questionsToInsert survey (questions (template_data template))) w1
         = (Err e, w2) ->
         useTemplate be template s w
         = (console_error e
              (show (toast_error "Failed to create survey from template") s),
            w2)
         /\ surveys_table (db w2) = surveys_table (db w) ++ [survey]
         /\ surveys.status survey = "draft"
         /\ questions_table (db w2) = questions_table (db w)).
Proof.
  split.
  - intros e w1 E1. unfold useTemplate. rewrite E1.
    apply template_insert_survey_err in E1. subst w1. auto.
  - intros survey w1 e w2 E1 E2. unfold useTemplate. rewrite E1, E2.
    destruct (template_insert_survey_ok _ _ _ _ _ _ E1) as [Hr [Hdb1 _]].
    apply template_insert_questions_err in E2. subst w2.
    cbn [db]. rewrite Hdb1. cbn [surveys_table questions_table].
    split; [reflexivity|]. split; [reflexivity|].
    split; [now rewrite Hr | reflexivity].
Qed.

End TemplatePaths.

(** The exit-interview template, whose dropdown has an empty options list,
    used against the empty store. *)
Lemma useTemplate_creates_a_draft_witness :
  map Supabase.questions.options
      (Supabase.questions_table
         (Templates.db
            (snd (Templates.useTemplate Sample.backend Cases.exit_template
                    Cases.templates_page Cases.templates_world))))
  = [None; Some []].
Proof.
  destruct (useTemplate_creates_a_draft Sample.backend Cases.exit_template
              Cases.templates_page Cases.templates_world _ _ _
              eq_refl eq_refl) as [rows [H _]].
  rewrite H. reflexivity.
Defined.

(** The legacy template, whose question type the schema does not allow. *)
Lemma useTemplate_failures_witness :
  map Supabase.surveys.title
      (Supabase.surveys_table
         (Templates.db
            (snd (Templates.useTemplate Sample.backend Cases.broken_template
                    Cases.templates_page Cases.templates_world))))
  = ["Legacy"]
  /\ Supabase.questions_table
       (Templates.db
          (snd (Templates.useTemplate Sample.backend Cases.broken_template
                  Cases.templates_page Cases.templates_world)))
     = [].
Proof.
  destruct (useTemplate_failures Sample.backend Cases.broken_template
              Cases.templates_page Cases.templates_world) as [_ Hq].
  destruct (Hq _ _ _ _ eq_refl eq_refl) as [H _].
  rewrite H. split; reflexivity.
Defined.

(* ================================================================== *)
(** ** From one page to the next *)
(* ================================================================== *)

Section OrderOfSortedRows.
Import Supabase.

Lemma insert_by_order_last (q : questions.row) (acc : list questions.row) :
  Forall (fun a => by_order_index a q) acc ->
  insert_by_order q acc = acc ++ [q].
Proof.
  induction 1 as [|a r Ha _ IH]; simpl; [reflexivity|].
  unfold by_order_index in Ha. apply Z.leb_le in Ha.
  now rewrite Ha, IH.
Qed.

Lemma strongly_sorted_before {A : Type} (R : A -> A -> Prop)
      (acc : list A) (q : A) (r : list A) :
  StronglySorted R (acc ++ q :: r) -> Forall (fun a => R a q) acc.
Proof.
  induction acc as [|a acc IH]; simpl; intros H; [constructor|].
  inversion H as [|? ? Hs Hall]; subst. constructor.
  - rewrite Forall_forall in Hall. apply Hall. apply in_elt.
  - now apply IH.
Qed.

Lemma order_by_index_of_sorted (l acc : list questions.row) :
  StronglySorted by_order_index (acc ++ l) ->
  fold_left (fun acc q => insert_by_order q acc) l acc = acc ++ l.
Proof.
  revert acc. induction l as [|q r IH]; intros acc H; simpl.
  - now rewrite app_nil_r.
  - rewrite insert_by_order_last by (eapply strongly_sorted_before; exact H).
    rewrite IH; rewrite <- app_assoc; [reflexivity | exact H].
Qed.

Lemma strongly_sorted_by_position (l : list questions.row) (k : nat) :
  (forall i row,
      nth_error l i = Some row ->
      questions.order_index row = Z.of_nat (k + i)) ->
  StronglySorted by_order_index l.
Proof.
  revert k. induction l as [|a r IH]; intros k H; constructor.
  - apply (IH (S k)). intros i row Hi.
    rewrite (H (S i) row Hi). f_equal. lia.
  - apply Forall_forall. intros b Hb.
    apply In_nth_error in Hb. destruct Hb as [i Hi].
    unfold by_order_index.
    rewrite (H 0%nat a eq_refl), (H (S i) b Hi). lia.
Qed.

End OrderOfSortedRows.

Section PublishThenTake.
Import Supabase.
Variable be : Backend.

Lemma saveSurvey_navigated
      (status : CreateSurvey.Status) (s : CreateSurvey.State) (w : World) :
  CreateSurvey.navigated (fst (CreateSurvey.saveSurvey be status s w))
  = CreateSurvey.navigated s ++ ["/"] ->
  exists survey w1,
    insert_survey be
      (mkNewSurvey (CreateSurvey.title s) (CreateSurvey.description s)
                   (CreateSurvey.status_text status)) w
    = (Ok survey, w1)
    /\ insert_questions be
         (CreateSurvey.questionsToInsert survey (CreateSurvey.questions s)) w1
       = (Ok tt, snd (CreateSurvey.saveSurvey be status s w)).
Proof.
  assert (Hno : CreateSurvey.navigated s
                <> CreateSurvey.navigated s ++ ["/"]).
  { intros H. apply (f_equal (@List.length string)) in H.
    rewrite length_app in H. simpl in H. lia. }
  unfold CreateSurvey.saveSurvey.
  destruct (negb (Js.truthy_string (Js.trim (CreateSurvey.title s))));
    [simpl; intros H; now destruct Hno|].
  destruct (existsb _ (CreateSurvey.questions s));
    [simpl; intros H; now destruct Hno|].
  cbv beta iota zeta.
  change (CreateSurvey.title (CreateSurvey.setSaving true s))
    with (CreateSurvey.title s).
  change (CreateSurvey.description (CreateSurvey.setSaving true s))
    with (CreateSurvey.description s).
  change (CreateSurvey.questions (CreateSurvey.setSaving true s))
    with (CreateSurvey.questions s).
  destruct (insert_survey be _ w) as [[survey|e] w1] eqn:E1;
    [|simpl; intros H; now destruct Hno].
  destruct (insert_questions be _ w1) as [[[]|e] w2] eqn:E2;
    [|simpl; intros H; now destruct Hno].
  intros _. exists survey, w1. split; [reflexivity | exact E2].
Qed.

Lemma insert_survey_fresh p w r w1 :
  insert_survey be p w = (Ok r, w1) ->
  survey_exists (db w) (surveys.id r) = false.
Proof.
  unfold insert_survey, send. simpl.
  destruct (unreachable be _); [discriminate|].
  destruct (status_check _); simpl; [|discriminate].
  destruct (survey_exists _ _) eqn:Ex; simpl; [discriminate|].
  intros [= <- _]. exact Ex.
Qed.

Lemma no_row_of_fresh_survey (d : Db) (i : string) (f : surveys.row -> bool) :
  survey_exists d i = false ->
  filter (fun r => (surveys.id r =? i) && f r) (surveys_table d) = [].
Proof.
  unfold survey_exists. induction (surveys_table d) as [|r l IH]; simpl.
  - reflexivity.
  - destruct (surveys.id r =? i); simpl; [discriminate | exact IH].
Qed.

Lemma no_question_of_fresh_survey (d : Db) (i : string) :
  questions_have_surveys d ->
  survey_exists d i = false ->
  filter (fun r => questions.survey_id r =? i) (questions_table d) = [].
Proof.
  unfold questions_have_surveys. intros Hall Hfresh.
  induction Hall as [|q l Hq _ IH]; simpl; [reflexivity|].
  destruct (questions.survey_id q =? i) eqn:E; [|exact IH].
  apply String.eqb_eq in E. congruence.
Qed.

Lemma saved_rows_of_survey (g k : nat) (survey : surveys.row)
      (qs : list CreateSurvey.Question) :
  filter (fun r => questions.survey_id r =? surveys.id survey)
         (number_from (question_row be g) k
                      (CreateSurvey.questionsToInsert survey qs))
  = number_from (question_row be g) k
                (CreateSurvey.questionsToInsert survey qs).
Proof.
  revert k. induction qs as [|q r IH]; intros k; simpl; [reflexivity|].
  now rewrite String.eqb_refl, IH.
Qed.

Lemma saved_rows_by_position (g : nat) (survey : surveys.row)
      (qs : list CreateSurvey.Question) :
  positional qs ->
  StronglySorted by_order_index
    (number_from (question_row be g) 0
                 (CreateSurvey.questionsToInsert survey qs)).
Proof.
  intros Hpos. apply (strongly_sorted_by_position _ 0). intros i row Hi.
  rewrite nth_error_number_from in Hi.
  unfold CreateSurvey.questionsToInsert in Hi. rewrite nth_error_map in Hi.
  destruct (nth_error qs i) as [q|] eqn:Eq; [|discriminate].
  simpl in Hi. injection Hi as <-. simpl. now apply Hpos.
Qed.

Lemma saved_rows_content (g k : nat) (survey : surveys.row)
      (qs : list CreateSurvey.Question) :
  Forall2 saved_from qs
    (number_from (question_row be g) k
                 (CreateSurvey.questionsToInsert survey qs)).
Proof.
  revert k. induction qs as [|q r IH]; intros k; simpl; constructor.
  - repeat split. simpl.
    destruct (CreateSurvey.options q) as [[|x o]|]; reflexivity.
  - apply IH.
Qed.

(** X26.  A survey published from a builder numbered by position can be
    taken at once: after a save that went through to the dashboard, the
    runtime loaded with the identifier of the new survey shows that survey,
    with the builder's title, and one question per builder question, in
    the builder's order and with its type, text, required flag, order
    index and stored options. *)
Theorem published_survey_is_served
        (s : CreateSurvey.State) (t : TakeSurvey.State) (w : World) :
  always_reachable be ->
  positional (CreateSurvey.questions s) ->
  questions_have_surveys (db w) ->
  CreateSurvey.navigated
    (fst (CreateSurvey.saveSurvey be CreateSurvey.published s w))
  = CreateSurvey.navigated s ++ ["/"] ->
  exists (survey : surveys.row) (rows : list questions.row),
    In survey
       (surveys_table
          (db (snd (CreateSurvey.saveSurvey be CreateSurvey.published s w))))
    /\ surveys.title survey = CreateSurvey.title s
    /\ fst (TakeSurvey.fetchSurvey be (surveys.id survey) t
              (snd (CreateSurvey.saveSurvey be CreateSurvey.published s w)))
       = TakeSurvey.setLoading false
           (TakeSurvey.setQuestions rows
              (TakeSurvey.setSurvey (Some survey) t))
    /\ Forall2 saved_from (CreateSurvey.questions s) rows.
Proof.
  intros Hup Hpos Hfk Hnav.
  destruct (saveSurvey_navigated _ s w Hnav) as [survey [w1 [E1 E2]]].
  set (w2 := snd (CreateSurvey.saveSurvey be CreateSurvey.published s w))
    in *.
  pose proof (insert_survey_fresh _ _ _ _ E1) as Hfresh.
  destruct (insert_survey_ok _ _ _ _ _ E1) as [Hr [Hdb1 _]].
  destruct (insert_questions_ok _ _ _ _ E2) as [Hdb2 _].
  exists survey,
    (number_from (question_row be (generated w1)) 0
       (CreateSurvey.questionsToInsert survey (CreateSurvey.questions s))).
  assert (Hst : surveys.status survey = "published")
    by (rewrite Hr; reflexivity).
  split; [|split; [|split]].
  - rewrite Hdb2, Hdb1. simpl. apply in_or_app. right. now left.
  - rewrite Hr. reflexivity.
  - unfold TakeSurvey.fetchSurvey, select_survey, select_questions.
    rewrite (send_reached be _ w2) by apply Hup.
    cbn [db requests generated].
    rewrite send_reached by apply Hup.
    cbn [db requests generated fst snd].
    rewrite Hdb2, Hdb1. cbn [surveys_table questions_table].
    rewrite !filter_app.
    rewrite (no_row_of_fresh_survey _ _ _ Hfresh).
    rewrite (no_question_of_fresh_survey _ _ Hfk Hfresh).
    rewrite saved_rows_of_survey. simpl filter.
    rewrite String.eqb_refl, Hst. simpl.
    unfold order_by_index.
    rewrite order_by_index_of_sorted
      by (simpl; now apply saved_rows_by_position).
    reflexivity.
  - apply saved_rows_content.
Qed.

(** X27.  A survey saved as a draft cannot be taken: after a save that
    went through to the dashboard, the survey is in the store, but the
    runtime loaded with its identifier reports that the survey was not
    found or is unavailable, and shows no survey. *)
Theorem draft_survey_is_not_served
        (s : CreateSurvey.State) (t : TakeSurvey.State) (w : World) :
  always_reachable be ->
  CreateSurvey.navigated
    (fst (CreateSurvey.saveSurvey be CreateSurvey.draft s w))
  = CreateSurvey.navigated s ++ ["/"] ->
  exists survey : surveys.row,
    In survey
       (surveys_table
          (db (snd (CreateSurvey.saveSurvey be CreateSurvey.draft s w))))
    /\ surveys.title survey = CreateSurvey.title s
    /\ fst (TakeSurvey.fetchSurvey be (surveys.id survey) t
              (snd (CreateSurvey.saveSurvey be CreateSurvey.draft s w)))
       = TakeSurvey.setLoading false
           (TakeSurvey.console_error (NoSingleRow 0)
              (TakeSurvey.show
                 (toast_error "Survey not found or unavailable") t)).
Proof.
  intros Hup Hnav.
  destruct (saveSurvey_navigated _ s w Hnav) as [survey [w1 [E1 E2]]].
  set (w2 := snd (CreateSurvey.saveSurvey be CreateSurvey.draft s w)) in *.
  pose proof (insert_survey_fresh _ _ _ _ E1) as Hfresh.
  destruct (insert_survey_ok _ _ _ _ _ E1) as [Hr [Hdb1 _]].
  destruct (insert_questions_ok _ _ _ _ E2) as [Hdb2 _].
  exists survey.
  assert (Hst : surveys.status survey = "draft") by (rewrite Hr; reflexivity).
  split; [|split].
  - rewrite Hdb2, Hdb1. simpl. apply in_or_app. right. now left.
  - rewrite Hr. reflexivity.
  - unfold TakeSurvey.fetchSurvey, select_survey, select_questions.
    rewrite (send_reached be _ w2) by apply Hup.
    cbn [db requests generated].
    rewrite send_reached by apply Hup.
    cbn [db requests generated fst snd].
    rewrite Hdb2, Hdb1. cbn [surveys_table questions_table].
    rewrite filter_app.
    rewrite (no_row_of_fresh_survey _ _ _ Hfresh).
    simpl filter. rewrite String.eqb_refl, Hst. reflexivity.
Qed.

End PublishThenTake.

Lemma building_positional : positional (CreateSurvey.questions Sample.building).
Proof.
  intros i q Hq. destruct i as [|i]; simpl in Hq.
  - injection Hq as <-. reflexivity.
  - destruct i; discriminate Hq.
Qed.

(** The sample builder published into the empty store and taken. *)
Lemma published_survey_is_served_witness :
  exists survey rows,
    Supabase.surveys.title survey = "Lunch"
    /\ fst (TakeSurvey.fetchSurvey Sample.backend
              (Supabase.surveys.id survey) TakeSurvey.initial
              (snd (CreateSurvey.saveSurvey Sample.backend
                      CreateSurvey.published Sample.building
                      Sample.empty_world)))
       = TakeSurvey.setLoading false
           (TakeSurvey.setQuestions rows
              (TakeSurvey.setSurvey (Some survey) TakeSurvey.initial)).
Proof.
  destruct (published_survey_is_served Sample.backend Sample.building
              TakeSurvey.initial Sample.empty_world
              sample_backend_reachable building_positional
              (Forall_nil _) eq_refl)
    as [survey [rows [_ [Ht [Hload _]]]]].
  exists survey, rows. split; [exact Ht | exact Hload].
Defined.

(** The sample builder saved as a draft into the empty store. *)
Lemma draft_survey_is_not_served_witness :
  exists survey,
    Supabase.surveys.title survey = "Lunch"
    /\ TakeSurvey.survey
         (fst (TakeSurvey.fetchSurvey Sample.backend
                 (Supabase.surveys.id survey) TakeSurvey.initial
                 (snd (CreateSurvey.saveSurvey Sample.backend
                         CreateSurvey.draft Sample.building
                         Sample.empty_world))))
       = None.
Proof.
  destruct (draft_survey_is_not_served Sample.backend Sample.building
              TakeSurvey.initial Sample.empty_world
              sample_backend_reachable eq_refl)
    as [survey [_ [Ht Hload]]].
  exists survey. split; [exact Ht|]. rewrite Hload. reflexivity.
Defined.

Section SubmitThenResults.
Import Supabase.
Variable be : Backend.
Variable id : string.

Lemma insert_response_fresh w r w1 :
  insert_response be id w = (Ok r, w1) ->
  response_exists (db w) (responses.id r) = false.
Proof.
  unfold insert_response, send. simpl.
  destruct (unreachable be _); [discriminate|].
  destruct (survey_exists _ _); simpl; [|discriminate].
  destruct (response_exists _ _) eqn:Ex; simpl; [discriminate|].
  intros [= <- _]. exact Ex.
Qed.

Lemma existsb_last {A : Type} (f : A -> bool) (l : list A) (x : A) :
  existsb f (l ++ [x]) = existsb f l || f x.
Proof. rewrite existsb_app. simpl. now rewrite orb_false_r. Qed.

Lemma old_answers_not_of (d : Db) (r : responses.row) :
  answers_have_responses d ->
  response_exists d (responses.id r) = false ->
  Forall (fun a => (responses.id r =? answers.response_id a) = false)
         (answers_table d).
Proof.
  unfold answers_have_responses. intros Hall Hfresh.
  eapply Forall_impl; [|exact Hall]. intros a Ha. simpl in Ha.
  apply String.eqb_neq. intros Heq. congruence.
Qed.

Lemma filter_ext_Forall {A : Type} (f g : A -> bool) (l : list A) :
  Forall (fun a => f a = g a) l -> filter f l = filter g l.
Proof.
  induction 1 as [|a r Ha _ IH]; simpl; [reflexivity|].
  now rewrite Ha, IH.
Qed.

Lemma filter_all {A : Type} (f : A -> bool) (l : list A) :
  Forall (fun a => f a = true) l -> filter f l = l.
Proof.
  induction 1 as [|a r Ha _ IH]; simpl; [reflexivity|].
  now rewrite Ha, IH.
Qed.

(** X28.  A submission that made the page show its thanks is what the
    results page loads next: the response count of the survey is one more
    than the number of its Response rows before, and the answers loaded
    are the answers the survey had, followed by one answer per accumulated
    entry, with the entry's question identifier and value, in the order
    [Object.entries] lists them. *)
Theorem submitted_answers_reach_the_results
        (s : TakeSurvey.State) (t : SurveyResults.State) (w : World)
        (sv : surveys.row) :
  always_reachable be ->
  filter (fun r => surveys.id r =? id) (surveys_table (db w)) = [sv] ->
  answers_have_responses (db w) ->
  TakeSurvey.submitted s = false ->
  TakeSurvey.submitted (fst (TakeSurvey.handleSubmit be id s w)) = true ->
  SurveyResults.responseCount
    (fst (SurveyResults.fetchData be id t
            (snd (TakeSurvey.handleSubmit be id s w))))
  = S (List.length
         (filter (fun r => responses.survey_id r =? id)
                 (responses_table (db w))))
  /\ SurveyResults.answers
       (fst (SurveyResults.fetchData be id t
               (snd (TakeSurvey.handleSubmit be id s w))))
     = map (fun a => SurveyResults.mkAnswer (answers.question_id a)
                                            (answers.answer_value a))
           (filter
              (fun a =>
                 existsb
                   (fun r => (responses.survey_id r =? id)
                             && (responses.id r =? answers.response_id a))
                   (responses_table (db w)))
              (answers_table (db w)))
       ++ map (fun e => SurveyResults.mkAnswer (fst e) (snd e))
              (Js.entries (TakeSurvey.answers s)).
Proof.
  intros Hup Hsv Hfk H0 H1.
  assert (Hsub : exists r w1,
             insert_response be id w = (Ok r, w1)
             /\ insert_answers be (TakeSurvey.answersToInsert r s) w1
                = (Ok tt, snd (TakeSurvey.handleSubmit be id s w))).
  { revert H1. unfold TakeSurvey.handleSubmit.
    destruct (0 <? _)%nat; [simpl; congruence|].
    destruct (insert_response be id w) as [[r|e] w1] eqn:E1;
      [|simpl; congruence].
    cbv beta iota zeta.
    change (TakeSurvey.answersToInsert r (TakeSurvey.setSubmitting true s))
      with (TakeSurvey.answersToInsert r s).
    destruct (insert_answers be (TakeSurvey.answersToInsert r s) w1)
      as [[[]|e] w2] eqn:E2; [|simpl; congruence].
    intros _. exists r, w1. split; [reflexivity | exact E2]. }
  destruct Hsub as [r [w1 [E1 E2]]].
  set (w2 := snd (TakeSurvey.handleSubmit be id s w)) in *.
  pose proof (insert_response_fresh _ _ _ E1) as Hfresh.
  destruct (insert_response_ok _ _ _ _ _ E1) as [Hr [Hdb1 _]].
  destruct (insert_answers_ok _ _ _ _ E2) as [Hdb2 _].
  assert (Hrid : responses.survey_id r = id) by (rewrite Hr; reflexivity).
  assert (Hdb : db w2
                = mkDb (surveys_table (db w)) (questions_table (db w))
                       (responses_table (db w) ++ [r])
                       (answers_table (db w)
                        ++ number_from (answer_row be (generated w1)) 0
                             (TakeSurvey.answersToInsert r s)))
    by (rewrite Hdb2, Hdb1; reflexivity).
  assert (Hrs : filter (fun x => responses.survey_id x =? id)
                       (responses_table (db w2))
                = filter (fun x => responses.survey_id x =? id)
                         (responses_table (db w)) ++ [r]).
  { rewrite Hdb. cbn [responses_table]. rewrite filter_app. simpl.
    now rewrite Hrid, String.eqb_refl. }
  assert (Hsv2 : filter (fun x => surveys.id x =? id) (surveys_table (db w2))
                 = [sv])
    by (rewrite Hdb; exact Hsv).
  rewrite (fetchData_with_responses be id t w2 sv Hup Hsv2)
    by (rewrite Hrs; intros H; now apply app_eq_nil in H).
  cbn [SurveyResults.responseCount SurveyResults.answers
       SurveyResults.setLoading SurveyResults.setAnswers].
  split.
  - rewrite Hrs, length_app. simpl. lia.
  - rewrite Hdb. cbn [responses_table answers_table].
    rewrite filter_app, map_app. f_equal.
    + f_equal. apply filter_ext_Forall.
      eapply Forall_impl; [|exact (old_answers_not_of _ _ Hfk Hfresh)].
      intros a Ha. simpl in Ha.
      rewrite existsb_last, Ha, andb_false_r. apply orb_false_r.
    + rewrite filter_all.
      * rewrite <- (map_map
                      (fun a => (answers.question_id a,
                                 answers.answer_value a))
                      (fun e => SurveyResults.mkAnswer (fst e) (snd e))).
        now rewrite answer_rows_entries.
      * apply Forall_forall. intros a Ha.
        apply answer_rows_response in Ha.
        rewrite existsb_last, Hrid, String.eqb_refl, Ha, String.eqb_refl.
        apply orb_true_r.
Qed.

End SubmitThenResults.

Lemma sample_answers_have_responses : answers_have_responses Sample.store.
Proof. constructor. Qed.

(** One answer sheet submitted to the sample survey, then the results. *)
Lemma submitted_answers_reach_the_results_witness :
  SurveyResults.answers
    (fst (SurveyResults.fetchData Sample.backend "s1" SurveyResults.initial
            (snd (TakeSurvey.handleSubmit Sample.backend "s1"
                    (Sample.taking [("q1", "Platform"); ("q2", "4")])
                    Sample.world))))
  = [SurveyResults.mkAnswer "q1" "Platform"; SurveyResults.mkAnswer "q2" "4"].
Proof.
  destruct (submitted_answers_reach_the_results Sample.backend "s1"
              (Sample.taking [("q1", "Platform"); ("q2", "4")])
              SurveyResults.initial Sample.world Sample.pulse
              sample_backend_reachable eq_refl
              sample_answers_have_responses eq_refl eq_refl) as [_ H].
  rewrite H. reflexivity.
Defined.

(* ================================================================== *)
(** ** The survey runtime: what the progress bar relies on *)
(* ================================================================== *)

Section RecordedKeys.
Import Supabase TakeSurvey.

Lemma record_all_step (e : string * string) (events : list (string * string))
      (s : State) :
  record_all (e :: events) s
  = record_all events (recordAnswer (fst e) (snd e) s).
Proof. reflexivity. Qed.

Lemma record_all_questions (events : list (string * string)) (s : State) :
  questions (record_all events s) = questions s.
Proof.
  revert s. induction events as [|e r IH]; intros s; [reflexivity|].
  now rewrite record_all_step, IH.
Qed.

Lemma record_all_NoDup (events : list (string * string)) (s : State) :
  NoDup (map fst (answers s)) ->
  NoDup (map fst (answers (record_all events s))).
Proof.
  revert s. induction events as [|e r IH]; intros s H; [exact H|].
  rewrite record_all_step. apply IH. simpl. now apply set_NoDup.
Qed.

Lemma set_keys_within {V : Type} (o : Js.object V) (k : string) (v : V)
      (ids : list string) :
  incl (map fst o) ids -> In k ids -> incl (map fst (Js.set o k v)) ids.
Proof.
  intros Ho Hk. destruct (in_dec string_dec k (map fst o)) as [Hin|Hout].
  - now rewrite keys_set_present.
  - rewrite keys_set_absent by exact Hout.
    apply incl_app; [exact Ho|]. intros x [<-|[]]. exact Hk.
Qed.

(** X29.  As long as the answers recorded are answers to questions of the
    page, every accumulated entry belongs to one of the page's questions
    and there is at most one per question identifier, so the answered count
    of the progress bar never exceeds the number of questions. *)
Theorem recorded_answers_stay_within_the_questions
        (events : list (string * string)) (s : State) :
  NoDup (map fst (answers s)) ->
  incl (map fst (answers s)) (map questions.id (questions s)) ->
  Forall (fun e => In (fst e) (map questions.id (questions s))) events ->
  incl (map fst (answers (record_all events s)))
       (map questions.id (questions (record_all events s)))
  /\ (List.length (Js.keys (answers (record_all events s)))
      <= List.length (questions (record_all events s)))%nat.
Proof.
  intros Hnd Hincl Hev.
  assert (Hin : incl (map fst (answers (record_all events s)))
                     (map questions.id (questions (record_all events s)))).
  { rewrite record_all_questions. revert s Hnd Hincl Hev.
    induction events as [|e r IH]; intros s Hnd Hincl Hev; [exact Hincl|].
    inversion Hev as [|? ? He Hr]; subst.
    rewrite record_all_step.
    change (questions s) with (questions (recordAnswer (fst e) (snd e) s)).
    apply IH.
    - simpl. now apply set_NoDup.
    - simpl. now apply set_keys_within.
    - exact Hr. }
  split; [exact Hin|].
  apply answered_at_most_total; [|exact Hin].
  now apply record_all_NoDup.
Qed.

End RecordedKeys.

(** Three answers to two questions of the freshly loaded sample page. *)
Lemma recorded_answers_stay_within_the_questions_witness :
  (List.length
     (Js.keys
        (TakeSurvey.answers
           (record_all [("q1", "Platform"); ("q2", "4"); ("q1", "Design")]
                       (Sample.taking []))))
   <= 4)%nat.
Proof.
  refine (proj2 (recorded_answers_stay_within_the_questions
                   [("q1", "Platform"); ("q2", "4"); ("q1", "Design")]
                   (Sample.taking []) (NoDup_nil _) _ _)).
  - intros x [].
  - repeat constructor; simpl; tauto.
Defined.
